(** * Yugayatra backend: test sessions, scoring, proctoring, eligibility
      and question selection

    A shallow embedding of the assessment core of the backend:
    - [models/Question.js]  ([getRandomQuestions]),
    - [models/User.js]      ([canAttemptTest]),
    - [models/Test.js]      ([startTest], [submitAnswer], [calculateScore],
                             [calculateAnalytics], [completeTest]),
    - [utils/proctoringService.js] ([recordViolation]),
    - [routes/tests.js]     (the handlers of the session endpoints).

    Conventions of the embedding.
    - A JavaScript [Date] is its number of milliseconds since the epoch, in
      [Z]; an unset date ([undefined]/[null]) is [None].
    - Integer-valued [Number]s are in [Z], and sums and products of
      integers are exact (the integers of the application are far below
      2^53).  A percentage [(a / b) * 100] goes through two roundings to
      the nearest double before [Math.round]: these are modelled
      ([JS.to_double]), since they change the result ((23 / 40) * 100 is
      57.49999999999999).  A single quotient of integers that is rounded
      or compared at once is taken exactly in [Q].  The non-finite results
      of a division by zero are the constructors of [number].  Overflow
      and the sign of zero are not modelled.
    - MongoDB collections keyed by a unique field are [gmap]s.  [save]
      first validates the document as Mongoose does, before any
      [pre('save')] hook runs: a required string must be there and not
      empty, and a [Number] that was assigned [NaN] is a cast error that
      makes the save fail.  Then the hook runs and the document is what
      the collection holds.  The other failures of the store are not
      modelled.
    - Every handler reads the clock once ([now]) and is entered with a
      valid token of the user [uid]; the part of the session middleware
      that reads the database ([protectTest]: the user must exist and be
      allowed to attempt the test) is modelled. *)

From Stdlib Require Import ZArith QArith Qround Qpower Sorted Lqa String Ascii.
From stdpp Require Import base gmap list strings fin_maps pretty.

Local Open Scope Z_scope.

(** ** JavaScript helpers *)

Module JS.

(** The value of an arithmetic expression that may be a non-finite
    double: an integer, [NaN], [Infinity] or [-Infinity]. *)
Inductive number : Type :=
| Num (z : Z)
| NaN
| PosInf
| NegInf.

#[global] Instance number_eq_dec : EqDecision number.
Proof. solve_decision. Defined.

(** [Math.round]: the nearest integer, a tie going up. *)
Definition Math_round (q : Q) : Z := Qfloor (q + (1 # 2))%Q.

(** [Math.ceil]. *)
Definition Math_ceil (q : Q) : Z := Qceiling q.

(** *** Doubles

    IEEE 754 binary64 with rounding to nearest, ties to even, as a
    function on the rationals: the double nearest to [x].  Subnormal
    numbers are taken into account; overflow is not. *)

(** Rounding to the nearest integer, a tie to the even one. *)
Definition nearest_even (x : Q) : Z :=
  let f := Qfloor x in
  match (x - inject_Z f ?= 1 # 2)%Q with
  | Lt => f
  | Gt => f + 1
  | Eq => if Z.even f then f else f + 1
  end.

(** The binary exponent of the double nearest to a positive [x]: that of
    [x], and [-1022] for all the subnormal numbers. *)
Definition exponent (x : Q) : Z :=
  Z.max (Z.log2 (Qfloor (x * 2 ^ 1074)%Q) - 1074) (-1022).

(** A positive [x] with its significand rounded to 53 bits. *)
Definition to_double_pos (x : Q) : Q :=
  let e := exponent x in
  (inject_Z (nearest_even (x * 2 ^ (52 - e))) * 2 ^ (e - 52))%Q.

Definition to_double (x : Q) : Q :=
  match (x ?= 0)%Q with
  | Eq => 0%Q
  | Gt => to_double_pos x
  | Lt => (- to_double_pos (- x))%Q
  end.

(** [(a / b) * 100] for integers [a] and a non-zero [b]: the quotient is
    rounded to a double, and so is its product by [100]. *)
Definition percent (a b : Z) : Q :=
  to_double (to_double (inject_Z a / inject_Z b) * 100)%Q.

(** [Math.round((a / b) * 100)] for integers [a], [b].  IEEE division by
    zero gives [NaN] for [0/0] and an infinity of the sign of [a]
    otherwise; [Math.round] and the product by [100] keep these. *)
Definition round_percent (a b : Z) : number :=
  if b =? 0 then
    if a =? 0 then NaN else if 0 <? a then PosInf else NegInf
  else Num (Math_round (percent a b)).

(** The names every object inherits from [Object.prototype]: reading one
    of them on an object literal that does not define it gives a function
    (for [__proto__], the prototype itself), never [undefined]. *)
Definition inherited_names : list string :=
  ["constructor"; "__defineGetter__"; "__defineSetter__"; "hasOwnProperty";
   "__lookupGetter__"; "__lookupSetter__"; "isPrototypeOf";
   "propertyIsEnumerable"; "toString"; "valueOf"; "__proto__";
   "toLocaleString"]%string.

Definition is_inherited (name : string) : bool :=
  bool_decide (name ∈ inherited_names).

(** The text of what [Object.prototype] holds under an inherited name, as
    [+] converts it to a string. *)
Definition inherited_text (name : string) : string :=
  if bool_decide (name = "__proto__"%string) then "[object Object]"
  else if bool_decide (name = "constructor"%string)
       then "function Object() { [native code] }"
  else ("function " ++ name ++ "() { [native code] }")%string.

(** [x >= y]: false as soon as one side is [NaN]. *)
Definition geb (x y : number) : bool :=
  match x, y with
  | NaN, _ | _, NaN => false
  | PosInf, _ => true
  | _, NegInf => true
  | NegInf, _ => false
  | _, PosInf => false
  | Num a, Num b => b <=? a
  end.

(** [x > y]. *)
Definition gtb (x y : number) : bool :=
  match x, y with
  | NaN, _ | _, NaN => false
  | PosInf, PosInf => false
  | PosInf, _ => true
  | NegInf, _ => false
  | _, NegInf => true
  | _, PosInf => false
  | Num a, Num b => b <? a
  end.

(** [parseInt(process.env.X) || d]: the default replaces an unset or
    unparsable variable ([NaN], here [None]) and also a parsed [0]. *)
Definition parseInt_or (v : option Z) (d : Z) : Z :=
  match v with
  | Some n => if n =? 0 then d else n
  | None => d
  end.

(** [String.prototype.toLowerCase], on ASCII letters. *)
Definition lower_ascii (c : ascii) : ascii :=
  let n := nat_of_ascii c in
  if ((65 <=? n) && (n <=? 90))%nat then ascii_of_nat (n + 32) else c.

Fixpoint toLowerCase (s : string) : string :=
  match s with
  | EmptyString => EmptyString
  | String c s' => String (lower_ascii c) (toLowerCase s')
  end.

(** [String.prototype.trim], on the ASCII white space characters. *)
Definition is_space (c : ascii) : bool :=
  let n := nat_of_ascii c in
  ((n =? 32) || ((9 <=? n) && (n <=? 13)))%nat.

Fixpoint trimStart (s : string) : string :=
  match s with
  | EmptyString => EmptyString
  | String c s' => if is_space c then trimStart s' else s
  end.

Fixpoint trimEnd (s : string) : string :=
  match s with
  | EmptyString => EmptyString
  | String c s' =>
      match trimEnd s' with
      | EmptyString => if is_space c then EmptyString else String c EmptyString
      | t => String c t
      end
  end.

Definition trim (s : string) : string := trimEnd (trimStart s).

(** [[...new Set(l)]]: the distinct elements of [l], each at the place of
    its first occurrence. *)
Fixpoint uniq `{EqDecision A} (l : list A) : list A :=
  match l with
  | [] => []
  | x :: l' => x :: List.filter (fun y => negb (bool_decide (y = x))) (uniq l')
  end.

(** [arr.slice(0, n)]: a negative [n] counts from the end. *)
Definition slice0 {A} (l : list A) (n : Z) : list A :=
  if 0 <=? n then take (Z.to_nat n) l
  else take (length l - Z.to_nat (- n)) l.

End JS.

(** ** Randomness

    [Math.random] and the [$sample] stage are driven by a tape of natural
    numbers, consumed from the front; an exhausted tape reads [0]. *)

Module Random.

Definition tape : Type := list nat.

(** A random order of [l]: each step removes the element at a position
    read off the tape. *)
Fixpoint shuffle_fuel {A} (fuel : nat) (l : list A) (rnd : tape) : list A * tape :=
  match fuel with
  | O => ([], rnd)
  | S fuel' =>
      let i := (hd 0 rnd mod length l)%nat in
      match l !! i with
      | None => ([], rnd)
      | Some x =>
          let '(rest, rnd') := shuffle_fuel fuel' (delete i l) (tl rnd) in
          (x :: rest, rnd')
      end
  end.

Definition shuffle {A} (l : list A) (rnd : tape) : list A * tape :=
  shuffle_fuel (length l) l rnd.

End Random.

(** ** models/Question.js *)

Module Question.

(** An element of [options]. *)
Record option_t : Type := mkOption {
  text : string;
  isCorrect : bool
}.

(** A document of the question bank (the fields the session core reads). *)
Record t : Type := mk {
  _id : nat;
  questionText : string;
  questionType : string;
  options : list option_t;
  correctAnswer : option string;
  category : string;
  difficulty : string;
  points : Z;
  negativePoints : Z;
  status : string;
  isApproved : bool
}.

(** The argument of [getRandomQuestions]; an absent field takes its
    default in the destructuring.  [difficulty] lists the entries of the
    object in their order. *)
Module Criteria.
Record t : Type := mk {
  count : option Z;
  difficulty : option (list (string * Z));
  categories : option (list string);
  excludeIds : option (list nat)
}.
End Criteria.

Definition default_difficulty : list (string * Z) :=
  [("Easy"%string, 30); ("Moderate"%string, 30); ("Hard"%string, 40)].

(** The first [$match] stage: active, approved, not excluded, and of one of
    the categories when some are given. *)
Definition base_match (cats : list string) (excl : list nat) (q : t) : bool :=
  bool_decide (status q = "Active"%string)
  && isApproved q
  && negb (bool_decide (_id q ∈ excl))
  && (bool_decide (cats = []) || bool_decide (category q ∈ cats)).

Definition eligible (cats : list string) (excl : list nat) (bank : list t) : list t :=
  List.filter (base_match cats excl) bank.

Definition of_difficulty (diff : string) (q : t) : bool :=
  bool_decide (difficulty q = diff).

Definition not_used (usedIds : list nat) (q : t) : bool :=
  negb (bool_decide (_id q ∈ usedIds)).

(** A computation that reads random numbers and may be rejected by the
    database. *)
Definition M (A : Type) : Type := Random.tape -> option (A * Random.tape).

Definition ret {A} (a : A) : M A := fun rnd => Some (a, rnd).

Definition bind {A B} (m : M A) (k : A -> M B) : M B :=
  fun rnd => match m rnd with
             | Some (a, rnd') => k a rnd'
             | None => None
             end.

Notation "'let*' x ':=' m 'in' k" := (bind m (fun x => k))
  (at level 10, x name, m at level 100, k at level 200).

(** The [$sample] stage after a [$match].  The stage is MongoDB's, and
    the source has no more of it than its name and its size.  Where it
    is not the first stage of its pipeline, as here, the database sorts
    the documents it is given in a random order and keeps the first
    [size] of them, or all of them when there are fewer; a negative
    [size] is rejected. *)
Definition sample (docs : list t) (size : Z) : M (list t) :=
  fun rnd =>
    if size <? 0 then None
    else let '(l, rnd') := Random.shuffle docs rnd in
         Some (take (Z.to_nat size) l, rnd').

(** The loop over [Object.entries(difficulty)]. *)
Fixpoint draw_buckets (pool : list t) (count : Z)
    (entries : list (string * Z)) (questions : list t) : M (list t) :=
  match entries with
  | [] => ret questions
  | (diff, percentage) :: entries' =>
      let questionsNeeded :=
        JS.Math_round (inject_Z (count * percentage) / 100)%Q in
      let* difficultyQuestions :=
        sample (List.filter (of_difficulty diff) pool) questionsNeeded in
      draw_buckets pool count entries' (questions ++ difficultyQuestions)
  end.

(** The fill of a short draw from the matched documents not yet used. *)
Definition fill_remaining (pool : list t) (count : Z) (questions : list t)
    : M (list t) :=
  if Z.of_nat (length questions) <? count then
    let remaining := count - Z.of_nat (length questions) in
    let usedIds := _id <$> questions in
    let* remainingQuestions :=
      sample (List.filter (not_used usedIds) pool) remaining in
    ret (questions ++ remainingQuestions)
  else ret questions.

(** The final [sort] with a comparator that answers at random is taken as
    a random order of the list. *)
Definition getRandomQuestions (bank : list t) (criteria : Criteria.t)
    : M (list t) :=
  let count := default 30 (Criteria.count criteria) in
  let difficulty := default default_difficulty (Criteria.difficulty criteria) in
  let categories := default [] (Criteria.categories criteria) in
  let excludeIds := default [] (Criteria.excludeIds criteria) in
  let pool := eligible categories excludeIds bank in
  let* questions := draw_buckets pool count difficulty [] in
  let* questions := fill_remaining pool count questions in
  fun rnd =>
    let '(shuffled, rnd') := Random.shuffle questions rnd in
    Some (JS.slice0 shuffled count, rnd').

End Question.

(** ** The environment variables read by the core, after [parseInt]
    ([None]: unset or not a number). *)

Record Env : Type := mkEnv {
  MAX_ATTEMPTS : option Z;
  QUESTIONS_PER_TEST : option Z;
  TEST_DURATION_MINUTES : option Z;
  PASSING_PERCENTAGE : option Z;
  VIOLATION_THRESHOLD : option Z;
  ENABLE_PROCTORING : option string
}.

Definition default_env : Env := mkEnv None None None None None None.

(** ** models/User.js *)

Module User.

(** The [testInfo] block of a user document: the attempt record. *)
Record testInfo_t : Type := mkTestInfo {
  totalAttempts : Z;
  lastAttemptDate : option Z;
  bestScore : JS.number;
  hasQualified : bool;
  qualificationDate : option Z;
  blockedUntil : option Z;
  blockedReason : option string
}.

Record t : Type := mk {
  _id : nat;
  fullName : string;
  phone : string;
  testInfo : testInfo_t
}.

(** The schema defaults of [testInfo]. *)
Definition new_testInfo : testInfo_t :=
  mkTestInfo 0 None (JS.Num 0) false None None None.

(** The result of [canAttemptTest]. *)
Record eligibility : Type := mkEligibility {
  canAttempt : bool;
  reason : option string
}.

Definition hour_ms : Z := 1000 * 60 * 60.

(** The decimal text of an integer, as a template literal prints it. *)
Definition show_Z (z : Z) : string := pretty z.

Definition wait_message (hoursDiff : Q) : string :=
  ("Please wait " ++ show_Z (JS.Math_ceil (24 - hoursDiff)%Q)
     ++ " hours before next attempt")%string.

Definition canAttemptTest (env : Env) (now : Z) (u : t) : eligibility :=
  let maxAttempts := JS.parseInt_or (MAX_ATTEMPTS env) 5 in
  let ti := testInfo u in
  if match blockedUntil ti with Some b => now <? b | None => false end then
    mkEligibility false (Some "Account is temporarily blocked"%string)
  else if hasQualified ti then
    mkEligibility false (Some "Already qualified"%string)
  else if maxAttempts <=? totalAttempts ti then
    mkEligibility false (Some "Maximum attempts reached"%string)
  else
    match lastAttemptDate ti with
    | Some last =>
        let timeDiff := now - last in
        let hoursDiff := (inject_Z timeDiff / inject_Z hour_ms)%Q in
        if Qlt_le_dec hoursDiff 24 then
          mkEligibility false (Some (wait_message hoursDiff))
        else mkEligibility true None
    | None => mkEligibility true None
    end.

(** The rejection rules of the eligibility gate, one at a time: each gives
    its reason when the record fails it. *)
Definition rule_blocked (now : Z) (ti : testInfo_t) : option string :=
  match blockedUntil ti with
  | Some b => if now <? b then Some "Account is temporarily blocked"%string else None
  | None => None
  end.

Definition rule_qualified (ti : testInfo_t) : option string :=
  if hasQualified ti then Some "Already qualified"%string else None.

Definition rule_max_attempts (maxAttempts : Z) (ti : testInfo_t) : option string :=
  if maxAttempts <=? totalAttempts ti then Some "Maximum attempts reached"%string
  else None.

Definition rule_cooldown (now : Z) (ti : testInfo_t) : option string :=
  match lastAttemptDate ti with
  | Some last =>
      let hoursDiff := (inject_Z (now - last) / inject_Z hour_ms)%Q in
      if Qlt_le_dec hoursDiff 24 then Some (wait_message hoursDiff) else None
  | None => None
  end.

(** The rules in their priority order. *)
Definition rules (env : Env) (now : Z) : list (testInfo_t -> option string) :=
  [ rule_blocked now;
    rule_qualified;
    rule_max_attempts (JS.parseInt_or (MAX_ATTEMPTS env) 5);
    rule_cooldown now ].

(** The reason of the first rule that fails, if any. *)
Fixpoint first_failing (rs : list (testInfo_t -> option string))
    (ti : testInfo_t) : option string :=
  match rs with
  | [] => None
  | r :: rs' =>
      match r ti with
      | Some why => Some why
      | None => first_failing rs' ti
      end
  end.

End User.

(** ** models/Test.js *)

Module Test.

Module Config.
Record t : Type := mk {
  totalQuestions : Z;
  durationMinutes : Z;
  easy : Z;
  moderate : Z;
  hard : Z;
  passingPercentage : Z;
  negativeMarking : bool
}.
End Config.

Module Response.
(** [userResponse] of a question slot. *)
Record t : Type := mk {
  selectedOption : string;
  selectedAnswer : string;
  timeSpent : Z;
  answeredAt : option Z;
  isAnswered : bool;
  flaggedForReview : bool
}.
End Response.

Module Slot.
(** An element of [questions]: the copied question, the candidate's
    response and the evaluation.  [isCorrect] is [None] for [null] and
    [undefined]. *)
Record t : Type := mk {
  questionId : nat;
  questionNumber : Z;
  questionText : string;
  questionType : string;
  category : string;
  difficulty : string;
  points : Z;
  negativePoints : Z;
  options : list Question.option_t;
  correctAnswer : option string;
  userResponse : Response.t;
  isCorrect : option bool;
  pointsEarned : Z
}.

(** The truth value of [q.isCorrect] in a condition. *)
Definition correct (q : t) : bool :=
  match isCorrect q with Some true => true | _ => false end.

Definition answered (q : t) : bool := Response.isAnswered (userResponse q).

Definition set_flag (flagged : bool) (q : t) : t :=
  let r := userResponse q in
  mk (questionId q) (questionNumber q) (questionText q) (questionType q)
    (category q) (difficulty q) (points q) (negativePoints q) (options q)
    (correctAnswer q)
    (Response.mk (Response.selectedOption r) (Response.selectedAnswer r)
       (Response.timeSpent r) (Response.answeredAt r) (Response.isAnswered r)
       flagged)
    (isCorrect q) (pointsEarned q).
End Slot.

Module Group.
(** An element of [categoryWiseScore] or [difficultyWiseScore]. *)
Record t : Type := mk {
  name : string;
  totalQuestions : Z;
  correctAnswers : Z;
  percentage : JS.number;
  points : Z
}.
End Group.

Module Score.
Record t : Type := mk {
  totalQuestions : Z;
  attemptedQuestions : Z;
  correctAnswers : Z;
  wrongAnswers : Z;
  unansweredQuestions : Z;
  totalPoints : Z;
  pointsEarned : Z;
  negativePoints : Z;
  netScore : Z;
  percentage : JS.number;
  grade : string;
  categoryWiseScore : list Group.t;
  difficultyWiseScore : list Group.t
}.

(** The schema defaults of the score block. *)
Definition initial : t :=
  mk 0 0 0 0 0 0 0 0 0 (JS.Num 0) "F" [] [].
End Score.

Module Analytics.
Record t : Type := mk {
  avgTimePerQuestion : Z;
  fastestQuestion : option (Z * Z);
  slowestQuestion : option (Z * Z);
  timeDistribution : list (string * Z);
  attemptPattern : list (Z * string * Z)
}.

Definition initial : t := mk 0 None None [] [].
End Analytics.

Module Proctoring.
(** The object the violation endpoint builds for the log. *)
Record activity : Type := mkActivity {
  type : string;
  timestamp : Z;
  description : string
}.

(** The schema writes the element of [suspiciousActivities] as
    [{ type: String, timestamp: Date, description: String }]; Mongoose
    reads a key named [type] as the type of the element, so the field is
    an array of [String]. *)
Record t : Type := mk {
  fullScreenViolations : Z;
  tabSwitchViolations : Z;
  suspiciousActivities : list string
}.

(** What a caller may push onto the array. *)
Inductive element : Type :=
| Text (s : string)
| Entry (a : activity).

(** The cast of a pushed value to [String]: a plain object has no string
    form of its own and is refused with a [CastError]. *)
Definition cast_String (e : element) : option string :=
  match e with
  | Text s => Some s
  | Entry _ => None
  end.

(** [suspiciousActivities.push(e)]; [None] stands for the [CastError]
    thrown. *)
Definition push (e : element) (log : list string) : option (list string) :=
  match cast_String e with
  | Some s => Some (log ++ [s])
  | None => None
  end.
End Proctoring.

Inductive status_t : Type :=
| Scheduled
| InProgress
| Completed
| Submitted
| Evaluated
| Cancelled
| Expired.

#[global] Instance status_eq_dec : EqDecision status_t.
Proof. solve_decision. Defined.

Record previousAttempt_t : Type := mkPrevious {
  pa_score : JS.number;
  pa_percentage : JS.number;
  pa_attemptDate : option Z
}.

(** A test document.  Fields that are only stored and shown (names, phone,
    browser data, review and certificate data) are left out. *)
Record t : Type := mk {
  testId : string;
  user : nat;
  testConfig : Config.t;
  questions : list Slot.t;
  startTime : Z;
  endTime : option Z;
  submittedAt : option Z;
  actualDurationMinutes : Z;
  timeRemaining : Q;
  status : status_t;
  score : Score.t;
  isPassed : bool;
  analytics : Analytics.t;
  proctoring : Proctoring.t;
  attemptNumber : Z;
  isRetake : bool;
  previousAttempts : list previousAttempt_t;
  validUntil : option Z;
  isExpired : bool
}.

(** Assignments to one field of a document. *)

Definition set_testId (v : string) (d : t) : t :=
  mk v (user d) (testConfig d) (questions d) (startTime d) (endTime d)
    (submittedAt d) (actualDurationMinutes d) (timeRemaining d) (status d)
    (score d) (isPassed d) (analytics d) (proctoring d) (attemptNumber d)
    (isRetake d) (previousAttempts d) (validUntil d) (isExpired d).

Definition set_questions (v : list Slot.t) (d : t) : t :=
  mk (testId d) (user d) (testConfig d) v (startTime d) (endTime d)
    (submittedAt d) (actualDurationMinutes d) (timeRemaining d) (status d)
    (score d) (isPassed d) (analytics d) (proctoring d) (attemptNumber d)
    (isRetake d) (previousAttempts d) (validUntil d) (isExpired d).

Definition set_startTime (v : Z) (d : t) : t :=
  mk (testId d) (user d) (testConfig d) (questions d) v (endTime d)
    (submittedAt d) (actualDurationMinutes d) (timeRemaining d) (status d)
    (score d) (isPassed d) (analytics d) (proctoring d) (attemptNumber d)
    (isRetake d) (previousAttempts d) (validUntil d) (isExpired d).

Definition set_endTime (v : option Z) (d : t) : t :=
  mk (testId d) (user d) (testConfig d) (questions d) (startTime d) v
    (submittedAt d) (actualDurationMinutes d) (timeRemaining d) (status d)
    (score d) (isPassed d) (analytics d) (proctoring d) (attemptNumber d)
    (isRetake d) (previousAttempts d) (validUntil d) (isExpired d).

Definition set_submittedAt (v : option Z) (d : t) : t :=
  mk (testId d) (user d) (testConfig d) (questions d) (startTime d) (endTime
     d) v (actualDurationMinutes d) (timeRemaining d) (status d) (score d)
    (isPassed d) (analytics d) (proctoring d) (attemptNumber d) (isRetake d)
    (previousAttempts d) (validUntil d) (isExpired d).

Definition set_actualDurationMinutes (v : Z) (d : t) : t :=
  mk (testId d) (user d) (testConfig d) (questions d) (startTime d) (endTime
     d) (submittedAt d) v (timeRemaining d) (status d) (score d) (isPassed d)
    (analytics d) (proctoring d) (attemptNumber d) (isRetake d)
    (previousAttempts d) (validUntil d) (isExpired d).

Definition set_timeRemaining (v : Q) (d : t) : t :=
  mk (testId d) (user d) (testConfig d) (questions d) (startTime d) (endTime
     d) (submittedAt d) (actualDurationMinutes d) v (status d) (score d)
    (isPassed d) (analytics d) (proctoring d) (attemptNumber d) (isRetake d)
    (previousAttempts d) (validUntil d) (isExpired d).

Definition set_status (v : status_t) (d : t) : t :=
  mk (testId d) (user d) (testConfig d) (questions d) (startTime d) (endTime
     d) (submittedAt d) (actualDurationMinutes d) (timeRemaining d) v (score
     d) (isPassed d) (analytics d) (proctoring d) (attemptNumber d) (isRetake
     d) (previousAttempts d) (validUntil d) (isExpired d).

Definition set_score (v : Score.t) (d : t) : t :=
  mk (testId d) (user d) (testConfig d) (questions d) (startTime d) (endTime
     d) (submittedAt d) (actualDurationMinutes d) (timeRemaining d) (status d)
     v (isPassed d) (analytics d) (proctoring d) (attemptNumber d) (isRetake
     d) (previousAttempts d) (validUntil d) (isExpired d).

Definition set_isPassed (v : bool) (d : t) : t :=
  mk (testId d) (user d) (testConfig d) (questions d) (startTime d) (endTime
     d) (submittedAt d) (actualDurationMinutes d) (timeRemaining d) (status d)
    (score d) v (analytics d) (proctoring d) (attemptNumber d) (isRetake d)
    (previousAttempts d) (validUntil d) (isExpired d).

Definition set_analytics (v : Analytics.t) (d : t) : t :=
  mk (testId d) (user d) (testConfig d) (questions d) (startTime d) (endTime
     d) (submittedAt d) (actualDurationMinutes d) (timeRemaining d) (status d)
    (score d) (isPassed d) v (proctoring d) (attemptNumber d) (isRetake d)
    (previousAttempts d) (validUntil d) (isExpired d).

Definition set_proctoring (v : Proctoring.t) (d : t) : t :=
  mk (testId d) (user d) (testConfig d) (questions d) (startTime d) (endTime
     d) (submittedAt d) (actualDurationMinutes d) (timeRemaining d) (status d)
    (score d) (isPassed d) (analytics d) v (attemptNumber d) (isRetake d)
    (previousAttempts d) (validUntil d) (isExpired d).

Definition set_isExpired (v : bool) (d : t) : t :=
  mk (testId d) (user d) (testConfig d) (questions d) (startTime d) (endTime
     d) (submittedAt d) (actualDurationMinutes d) (timeRemaining d) (status d)
    (score d) (isPassed d) (analytics d) (proctoring d) (attemptNumber d)
    (isRetake d) (previousAttempts d) (validUntil d) v.

(** *** The pre-save hook and [save] *)

(** [s.slice(-n)]: the last [n] characters. *)
Definition last_chars (n : nat) (s : string) : string :=
  substring (String.length s - n) n s.

(** [s.padStart(3, '0')]. *)
Definition padStart3 (s : string) : string :=
  match String.length s with
  | O => "000" ++ s
  | 1%nat => "00" ++ s
  | 2%nat => "0" ++ s
  | _ => s
  end%string.

(** The identifier made for a document that has none: [TEST], the last six
    digits of the clock and three digits drawn at random ([r] is the number
    read for [Math.random]). *)
Definition generate_testId (now : Z) (r : nat) : string :=
  ("TEST" ++ last_chars 6 (pretty now)
     ++ padStart3 (pretty (Z.of_nat (r mod 1000))))%string.

Definition pre_save (now : Z) (r : nat) (d : t) : t :=
  let d := if bool_decide (testId d = EmptyString)
           then set_testId (generate_testId now r) d else d in
  let d := match status d, endTime d with
           | Completed, Some e =>
               set_actualDurationMinutes
                 (JS.Math_round (inject_Z (e - startTime d)
                                 / inject_Z (1000 * 60))%Q) d
           | _, _ => d
           end in
  match validUntil d with
  | Some v => if v <? now then set_isExpired true d else d
  | None => d
  end.

(** What Mongoose checks before the hooks of [save] run, as far as the
    fields of the model go: [testId] is required, and an absent or empty
    string is refused; a [score.percentage] that is [NaN] is a cast error
    of the path, which is reported with the validation errors. *)
Definition valid (d : t) : bool :=
  negb (bool_decide (testId d = EmptyString))
  && negb (bool_decide (Score.percentage (score d) = JS.NaN)).

(** [this.save()], as far as the document goes: validation, then the
    hook, and the document is what the collection then holds; [None]
    stands for the rejection of the promise. *)
Definition save (now : Z) (r : nat) (d : t) : option t :=
  if valid d then Some (pre_save now r d) else None.

(** *** [startTest] *)

(** [None] stands for a thrown [Error]. *)
Definition startTest (now : Z) (r : nat) (d : t) : option t :=
  if bool_decide (status d = Scheduled) then
    let d := set_status InProgress d in
    let d := set_startTime now d in
    let d := set_timeRemaining
               (inject_Z (Config.durationMinutes (testConfig d) * 60)) d in
    save now r d
  else None.

(** *** [submitAnswer] *)

Definition has_number (n : Z) (q : Slot.t) : bool :=
  bool_decide (Slot.questionNumber q = n).

(** The assignments to the question found; [None] when reading
    [correctAnswer] of a question without one throws. *)
Definition record_answer (negativeMarking : bool) (now : Z) (answer : string)
    (timeSpent : Z) (q : Slot.t) : option Slot.t :=
  let '(isCorrect, selectedOption, ok) :=
    if bool_decide (Slot.questionType q = "Multiple Choice"%string) then
      let correctOption := List.find Question.isCorrect (Slot.options q) in
      (match correctOption with
       | Some o => Some (bool_decide (Question.text o = answer))
       | None => None
       end, answer, true)
    else
      match Slot.correctAnswer q with
      | Some c =>
          (Some (bool_decide (JS.trim (JS.toLowerCase c)
                              = JS.trim (JS.toLowerCase answer))),
           Response.selectedOption (Slot.userResponse q), true)
      | None => (None, EmptyString, false)
      end in
  if ok then
    let pointsEarned :=
      match isCorrect with
      | Some true => Slot.points q
      | _ => if negativeMarking then - Slot.negativePoints q else 0
      end in
    Some (Slot.mk (Slot.questionId q) (Slot.questionNumber q)
            (Slot.questionText q) (Slot.questionType q) (Slot.category q)
            (Slot.difficulty q) (Slot.points q) (Slot.negativePoints q)
            (Slot.options q) (Slot.correctAnswer q)
            (Response.mk selectedOption answer timeSpent (Some now) true
               (Response.flaggedForReview (Slot.userResponse q)))
            isCorrect pointsEarned)
  else None.

(** The list with its first element satisfying [p] replaced. *)
Fixpoint update_first {A} (p : A -> bool) (x' : A) (l : list A) : list A :=
  match l with
  | [] => []
  | x :: l' => if p x then x' :: l' else x :: update_first p x' l'
  end.

Definition submitAnswer (now : Z) (r : nat) (questionNumber : Z)
    (answer : string) (timeSpent : Z) (d : t) : option t :=
  match List.find (has_number questionNumber) (questions d) with
  | None => None
  | Some question =>
      match record_answer (Config.negativeMarking (testConfig d)) now answer
              timeSpent question with
      | None => None
      | Some question' =>
          save now r
            (set_questions
               (update_first (has_number questionNumber) question'
                  (questions d)) d)
      end
  end.

(** *** [calculateScore] *)

(** The counters the loop over the questions accumulates. *)
Record tally : Type := mkTally {
  t_attempted : Z;
  t_correct : Z;
  t_wrong : Z;
  t_unanswered : Z;
  t_totalPoints : Z;
  t_pointsEarned : Z;
  t_negativePoints : Z
}.

Definition tally_step (negativeMarking : bool) (s : tally) (q : Slot.t) : tally :=
  let totalPoints := t_totalPoints s + Slot.points q in
  if Slot.answered q then
    if Slot.correct q then
      mkTally (t_attempted s + 1) (t_correct s + 1) (t_wrong s)
        (t_unanswered s) totalPoints (t_pointsEarned s + Slot.points q)
        (t_negativePoints s)
    else
      mkTally (t_attempted s + 1) (t_correct s) (t_wrong s + 1)
        (t_unanswered s) totalPoints (t_pointsEarned s)
        (if negativeMarking then t_negativePoints s + Slot.negativePoints q
         else t_negativePoints s)
  else
    mkTally (t_attempted s) (t_correct s) (t_wrong s) (t_unanswered s + 1)
      totalPoints (t_pointsEarned s) (t_negativePoints s).

Definition tally_questions (negativeMarking : bool) (qs : list Slot.t) : tally :=
  fold_left (tally_step negativeMarking) qs (mkTally 0 0 0 0 0 0 0).

Definition grade_of (percentage : JS.number) : string :=
  if JS.geb percentage (JS.Num 90) then "A+"
  else if JS.geb percentage (JS.Num 80) then "A"
  else if JS.geb percentage (JS.Num 70) then "B+"
  else if JS.geb percentage (JS.Num 60) then "B"
  else if JS.geb percentage (JS.Num 50) then "C+"
  else if JS.geb percentage (JS.Num 40) then "C"
  else if JS.geb percentage (JS.Num 30) then "D"
  else "F".

(** The points of a group: here a wrong answer is charged whatever the
    negative-marking setting is. *)
Definition group_points (qs : list Slot.t) : Z :=
  fold_left
    (fun sum q =>
       sum + (if Slot.correct q then Slot.points q
              else if Slot.answered q then - Slot.negativePoints q else 0))
    qs 0.

Definition group_score (key_of : Slot.t -> string) (qs : list Slot.t)
    (key : string) : Group.t :=
  let groupQuestions :=
    List.filter (fun q => bool_decide (key_of q = key)) qs in
  let groupCorrect :=
    Z.of_nat (length (List.filter Slot.correct groupQuestions)) in
  Group.mk key (Z.of_nat (length groupQuestions)) groupCorrect
    (JS.round_percent groupCorrect (Z.of_nat (length groupQuestions)))
    (group_points groupQuestions).

(** The object [calculateScore] builds and returns. *)
Definition compute_score (negativeMarking : bool) (qs : list Slot.t) : Score.t :=
  let s := tally_questions negativeMarking qs in
  let netScore := t_pointsEarned s - t_negativePoints s in
  let percentage := JS.round_percent netScore (t_totalPoints s) in
  Score.mk (Z.of_nat (length qs)) (t_attempted s) (t_correct s) (t_wrong s)
    (t_unanswered s) (t_totalPoints s) (t_pointsEarned s)
    (t_negativePoints s) netScore percentage (grade_of percentage)
    (group_score Slot.category qs <$> JS.uniq (Slot.category <$> qs))
    (group_score Slot.difficulty qs <$> JS.uniq (Slot.difficulty <$> qs)).

Definition calculateScore (d : t) : t :=
  let score := compute_score (Config.negativeMarking (testConfig d)) (questions d) in
  set_isPassed
    (JS.geb (Score.percentage score)
       (JS.Num (Config.passingPercentage (testConfig d))))
    (set_score score d).

(** *** [calculateAnalytics] *)

Definition timeSpent_of (q : Slot.t) : Z := Response.timeSpent (Slot.userResponse q).

(** [Array.prototype.sort] with [a.timeSpent - b.timeSpent]: a stable
    sort by increasing time. *)
Fixpoint insert_by_time (q : Slot.t) (l : list Slot.t) : list Slot.t :=
  match l with
  | [] => [q]
  | x :: l' =>
      if timeSpent_of q <=? timeSpent_of x then q :: x :: l'
      else x :: insert_by_time q l'
  end.

Definition sort_by_time (l : list Slot.t) : list Slot.t :=
  foldr insert_by_time [] l.

Definition count_in_range (lo : Z) (hi : option Z) (l : list Slot.t) : Z :=
  Z.of_nat (length (List.filter
    (fun q => (lo <=? timeSpent_of q)
              && match hi with Some h => timeSpent_of q <? h | None => true end)
    l)).

Definition calculateAnalytics (d : t) : t :=
  let a := analytics d in
  let answeredQuestions := List.filter Slot.answered (questions d) in
  match answeredQuestions with
  | [] =>
      set_analytics
        (Analytics.mk 0 (Analytics.fastestQuestion a)
           (Analytics.slowestQuestion a) (Analytics.timeDistribution a)
           (Analytics.attemptPattern a)) d
  | _ =>
      let totalTime := fold_left (fun sum q => sum + timeSpent_of q) answeredQuestions 0 in
      let sortedByTime := sort_by_time answeredQuestions in
      let entry q := (Slot.questionNumber q, timeSpent_of q) in
      set_analytics
        (Analytics.mk
           (JS.Math_round (inject_Z totalTime
                           / inject_Z (Z.of_nat (length answeredQuestions)))%Q)
           (entry <$> head sortedByTime)
           (entry <$> last sortedByTime)
           [ ("0-30s"%string, count_in_range 0 (Some 30) answeredQuestions);
             ("30-60s"%string, count_in_range 30 (Some 60) answeredQuestions);
             ("60-120s"%string, count_in_range 60 (Some 120) answeredQuestions);
             ("120s+"%string, count_in_range 120 None answeredQuestions) ]
           (Analytics.attemptPattern a)) d
  end.

(** *** [completeTest] *)

Definition completeTest (now : Z) (r : nat) (d : t) : option t :=
  if bool_decide (status d = InProgress) then
    let d := set_endTime (Some now) d in
    let d := set_submittedAt (Some now) d in
    let d := set_status Completed d in
    let d := calculateScore d in
    let d := calculateAnalytics d in
    let d := set_status Evaluated d in
    save now r d
  else None.

End Test.

(** ** utils/proctoringService.js *)

Module ProctoringService.

(** The severity [getViolationSeverity] gives: one of the three words,
    or, for a kind named like a member of [Object.prototype], what the
    lookup in the table finds there (a function, which is none of the
    three). *)
Inductive severity_t : Type :=
| minor
| major
| critical
| inherited (name : string).

#[global] Instance severity_eq_dec : EqDecision severity_t.
Proof. solve_decision. Defined.

(** A recorded violation.  The free-form [details] and the random [id] are
    left out. *)
Record violation : Type := mkViolation {
  type : string;
  timestamp : Z;
  severity : severity_t
}.

Record session : Type := mkSession {
  testId : string;
  userId : nat;
  startTime : Z;
  violations : list violation;
  isActive : bool
}.

(** The service object: the map of the active sessions and the settings
    its constructor reads. *)
Record t : Type := mk {
  activeTestSessions : gmap string session;
  violationThreshold : Z;
  proctoringEnabled : bool
}.

Definition new (env : Env) : t :=
  mk ∅ (JS.parseInt_or (VIOLATION_THRESHOLD env) 3)
     (bool_decide (ENABLE_PROCTORING env = Some "true"%string)).

(** [getViolationSeverity]: [severityMap[violationType] || 'minor'].  The
    table is an object literal: a kind it does not list is [undefined]
    there and gets [minor], unless it is a name inherited from
    [Object.prototype], whose value is truthy and is returned as it is. *)
Definition getViolationSeverity (violationType : string) : severity_t :=
  if bool_decide (violationType = "tab_switch"%string) then major
  else if bool_decide (violationType = "window_blur"%string) then major
  else if bool_decide (violationType = "fullscreen_exit"%string) then major
  else if bool_decide (violationType = "copy_paste"%string) then critical
  else if bool_decide (violationType = "right_click"%string) then minor
  else if bool_decide (violationType = "keyboard_shortcut"%string) then major
  else if bool_decide (violationType = "multiple_faces"%string) then critical
  else if bool_decide (violationType = "no_face_detected"%string) then major
  else if bool_decide (violationType = "suspicious_movement"%string) then minor
  else if bool_decide (violationType = "developer_tools"%string) then critical
  else if JS.is_inherited violationType then inherited violationType
  else minor.

Definition startProctoring (now : Z) (testId : string) (userId : nat) (svc : t)
    : t * bool :=
  if proctoringEnabled svc then
    (mk (<[testId := mkSession testId userId now [] true]> (activeTestSessions svc))
        (violationThreshold svc) (proctoringEnabled svc), true)
  else (svc, false).

Definition count_severity (s : severity_t) (vs : list violation) : Z :=
  Z.of_nat (length (List.filter (fun v => bool_decide (severity v = s)) vs)).

(** What [recordViolation] returns for a session it finds. *)
Record outcome : Type := mkOutcome {
  recorded : violation;
  totalViolations : Z;
  shouldTerminate : bool;
  criticalCount : Z;
  majorCount : Z;
  minorCount : Z
}.

(** [recordViolation]: [None] is the failure reported for an unknown
    session, which leaves the service as it is.  The line appended to the
    log file of the session is outside the state modelled here. *)
Definition recordViolation (now : Z) (testId : string) (violationType : string)
    (svc : t) : t * option outcome :=
  match activeTestSessions svc !! testId with
  | None => (svc, None)
  | Some session =>
      let violation :=
        mkViolation violationType now (getViolationSeverity violationType) in
      let violations' := violations session ++ [violation] in
      let session' :=
        mkSession (ProctoringService.testId session) (userId session)
          (startTime session) violations' (isActive session) in
      let criticalViolations := count_severity critical violations' in
      let majorViolations := count_severity major violations' in
      let shouldTerminate :=
        (2 <=? criticalViolations) || (violationThreshold svc <=? majorViolations) in
      (mk (<[testId := session']> (activeTestSessions svc))
          (violationThreshold svc) (proctoringEnabled svc),
       Some (mkOutcome violation (Z.of_nat (length violations'))
               shouldTerminate criticalViolations majorViolations
               (count_severity minor violations')))
  end.

End ProctoringService.

(** ** routes/tests.js *)

Module Routes.

(** The collections the handlers read and write. *)
Record World : Type := mkWorld {
  users : gmap nat User.t;
  tests : gmap string Test.t;
  questionBank : list Question.t
}.

(** What a request brings besides its body: the environment, the instant
    of the clock, the random numbers, the authenticated user, and whether
    the collaborators outside the core (token signing, result
    notifications) succeed. *)
Record Ctx : Type := mkCtx {
  env : Env;
  now : Z;
  rnd : Random.tape;
  uid : nat;
  services_ok : bool
}.

Record Reply : Type := mkReply {
  code : Z;
  success : bool;
  text : string;
  testCompleted : bool
}.

Definition ok (code : Z) (message : string) : Reply := mkReply code true message false.
Definition err (code : Z) (error : string) : Reply := mkReply code false error false.

Inductive request : Type :=
| Start
| Begin (testId : string)
| Answer (testId : string) (questionNumber : Z) (answer : string) (timeSpent : option Z)
| Flag (testId : string) (questionNumber : Z) (flagged : bool)
| Submit (testId : string)
| Status (testId : string)
| Report (testId : string) (violationType : string) (description : option string)
    (timestamp : option Z).

(** [Test.findOne({ testId, user })]. *)
Definition findOne (w : World) (testId : string) (user : nat) : option Test.t :=
  match tests w !! testId with
  | Some t => if bool_decide (Test.user t = user) then Some t else None
  | None => None
  end.

(** Writing back a document that was loaded under [testId]. *)
Definition store (testId : string) (t : Test.t) (w : World) : World :=
  mkWorld (users w) (<[testId := t]> (tests w)) (questionBank w).

(** Writing back the user document that was loaded under [id]. *)
Definition store_user (id : nat) (u : User.t) (w : World) : World :=
  mkWorld (<[id := u]> (users w)) (tests w) (questionBank w).

Definition r0 (c : Ctx) : nat := hd 0%nat (rnd c).

(** Seconds since the start, and the limit in seconds. *)
Definition timeElapsed (c : Ctx) (t : Test.t) : Q :=
  (inject_Z (now c - Test.startTime t) / 1000)%Q.

Definition timeLimit (t : Test.t) : Z :=
  Test.Config.durationMinutes (Test.testConfig t) * 60.

(** [Math.max(0, timeLimit - timeElapsed)]. *)
Definition remaining (c : Ctx) (t : Test.t) : Q :=
  let x := (inject_Z (timeLimit t) - timeElapsed c t)%Q in
  if Qlt_le_dec x 0 then 0%Q else x.

(** *** POST /start *)

Definition is_active (user : nat) (t : Test.t) : bool :=
  bool_decide (Test.user t = user)
  && (bool_decide (Test.status t = Test.Scheduled)
      || bool_decide (Test.status t = Test.InProgress)).

Definition find_active (w : World) (user : nat) : option Test.t :=
  snd <$> List.find (fun kt => is_active user (snd kt)) (map_to_list (tests w)).

Definition make_config (e : Env) : Test.Config.t :=
  Test.Config.mk
    (JS.parseInt_or (QUESTIONS_PER_TEST e) 30)
    (JS.parseInt_or (TEST_DURATION_MINUTES e) 30)
    30 30 40
    (JS.parseInt_or (PASSING_PERCENTAGE e) 65)
    true.

(** The slot made of a drawn question, at position [index]. *)
Definition make_slot (index : nat) (q : Question.t) : Test.Slot.t :=
  Test.Slot.mk (Question._id q) (Z.of_nat index + 1) (Question.questionText q)
    (Question.questionType q) (Question.category q) (Question.difficulty q)
    (Question.points q) (Question.negativePoints q) (Question.options q)
    (Question.correctAnswer q)
    (Test.Response.mk EmptyString EmptyString 0 None false false)
    None 0.

(** [new Test({...})]: the handler gives no [testId]. *)
Definition new_test (c : Ctx) (user : User.t) (testConfig : Test.Config.t)
    (questions : list Question.t) : Test.t :=
  let ti := User.testInfo user in
  Test.mk EmptyString (User._id user) testConfig (imap make_slot questions)
    (now c) None None 0
    (inject_Z (Test.Config.durationMinutes testConfig * 60))
    Test.Scheduled Test.Score.initial false Test.Analytics.initial
    (Test.Proctoring.mk 0 0 [])
    (User.totalAttempts ti + 1)
    (0 <? User.totalAttempts ti)
    (if 0 <? User.totalAttempts ti
     then [Test.mkPrevious (User.bestScore ti) (User.bestScore ti)
             (User.lastAttemptDate ti)]
     else [])
    None false.

Definition note_attempt (now : Z) (u : User.t) : User.t :=
  let ti := User.testInfo u in
  User.mk (User._id u) (User.fullName u) (User.phone u)
    (User.mkTestInfo (User.totalAttempts ti + 1) (Some now)
       (User.bestScore ti) (User.hasQualified ti) (User.qualificationDate ti)
       (User.blockedUntil ti) (User.blockedReason ti)).

Definition start (c : Ctx) (w : World) : World * Reply :=
  match users w !! uid c with
  | None => (w, err 401 "User not found")
  | Some user =>
      let eligibility := User.canAttemptTest (env c) (now c) user in
      if negb (User.canAttempt eligibility) then
        (w, err 403 (default EmptyString (User.reason eligibility)))
      else
        match find_active w (User._id user) with
        | Some activeTest =>
            (w, err 400 "You have an active test session. Please complete it first.")
        | None =>
            let testConfig := make_config (env c) in
            let criteria :=
              Question.Criteria.mk
                (Some (Test.Config.totalQuestions testConfig))
                (Some [("Easy"%string, Test.Config.easy testConfig);
                       ("Moderate"%string, Test.Config.moderate testConfig);
                       ("Hard"%string, Test.Config.hard testConfig)])
                None None in
            match Question.getRandomQuestions (questionBank w) criteria (rnd c) with
            | None => (w, err 500 "Failed to start test session")
            | Some (questions, rnd') =>
                if Z.of_nat (length questions) <? Test.Config.totalQuestions testConfig
                then (w, err 500 "Insufficient questions available. Please contact support.")
                else
                  match Test.save (now c) (hd 0%nat rnd')
                          (new_test c user testConfig questions) with
                  | None => (w, err 500 "Failed to start test session")
                  | Some test =>
                      match tests w !! Test.testId test with
                      | Some _ => (w, err 500 "Failed to start test session")
                      | None =>
                          let w := store (Test.testId test) test w in
                          let w :=
                            store_user (uid c) (note_attempt (now c) user) w in
                          if services_ok c then
                            (w, ok 201 "Test session created successfully")
                          else (w, err 500 "Failed to generate test token")
                      end
                  end
            end
        end
  end.

(** *** POST /begin/:testId *)

Definition begin (c : Ctx) (testId : string) (w : World) : World * Reply :=
  match findOne w testId (uid c) with
  | None => (w, err 404 "Test not found")
  | Some test =>
      if negb (bool_decide (Test.status test = Test.Scheduled)) then
        (w, err 400 "Test cannot be started in current state")
      else
        match Test.startTest (now c) (r0 c) test with
        | None => (w, err 500 "Failed to begin test")
        | Some test => (store testId test w, ok 200 "Test started successfully")
        end
  end.

(** *** PUT /answer/:testId *)

Definition valid_answer (questionNumber : Z) (answer : string)
    (timeSpent : option Z) : bool :=
  (1 <=? questionNumber)
  && negb (bool_decide (answer = EmptyString))
  && match timeSpent with Some s => 0 <=? s | None => true end.

Definition expired_reply : Reply := mkReply 400 false "Test time has expired" true.

Definition answer (c : Ctx) (testId : string) (questionNumber : Z)
    (ans : string) (timeSpent : option Z) (w : World) : World * Reply :=
  if negb (valid_answer questionNumber ans timeSpent) then
    (w, err 400 "Validation failed")
  else
    match findOne w testId (uid c) with
    | None => (w, err 404 "Test not found")
    | Some test =>
        if negb (bool_decide (Test.status test = Test.InProgress)) then
          (w, err 400 "Test is not in progress")
        else if Qlt_le_dec (inject_Z (timeLimit test)) (timeElapsed c test) then
          match Test.completeTest (now c) (r0 c) test with
          | None => (w, err 500 "Failed to submit answer")
          | Some test => (store testId test w, expired_reply)
          end
        else
          match Test.submitAnswer (now c) (r0 c) questionNumber ans
                  (default 0 timeSpent) test with
          | None => (w, err 500 "Failed to submit answer")
          | Some test =>
              let w := store testId test w in
              let test := Test.set_timeRemaining (remaining c test) test in
              match Test.save (now c) (r0 c) test with
              | None => (w, err 500 "Failed to submit answer")
              | Some test =>
                  (store testId test w, ok 200 "Answer submitted successfully")
              end
          end
    end.

(** *** PUT /flag/:testId *)

Definition flag (c : Ctx) (testId : string) (questionNumber : Z)
    (flagged : bool) (w : World) : World * Reply :=
  if negb (1 <=? questionNumber) then (w, err 400 "Validation failed")
  else
    match findOne w testId (uid c) with
    | None => (w, err 400 "Invalid test session")
    | Some test =>
        if negb (bool_decide (Test.status test = Test.InProgress)) then
          (w, err 400 "Invalid test session")
        else
          match List.find (Test.has_number questionNumber) (Test.questions test) with
          | None => (w, err 404 "Question not found")
          | Some question =>
              let a := Test.analytics test in
              let test :=
                Test.set_questions
                  (Test.update_first (Test.has_number questionNumber)
                     (Test.Slot.set_flag flagged question) (Test.questions test))
                  test in
              let test :=
                Test.set_analytics
                  (Test.Analytics.mk
                     (Test.Analytics.avgTimePerQuestion a)
                     (Test.Analytics.fastestQuestion a)
                     (Test.Analytics.slowestQuestion a)
                     (Test.Analytics.timeDistribution a)
                     (Test.Analytics.attemptPattern a
                        ++ [(now c,
                             if flagged then "flagged"%string else "unflagged"%string,
                             questionNumber)]))
                  test in
              match Test.save (now c) (r0 c) test with
              | None => (w, err 500 "Failed to flag question")
              | Some test =>
                  (store testId test w,
                   ok 200 (if flagged then "Question flagged for review"
                           else "Question unflagged"))
              end
          end
    end.

(** *** POST /submit/:testId *)

(** The update of the attempt record after an explicit submission. *)
Definition note_result (now : Z) (test : Test.t) (u : User.t) : User.t :=
  let ti := User.testInfo u in
  let percentage := Test.Score.percentage (Test.score test) in
  User.mk (User._id u) (User.fullName u) (User.phone u)
    (User.mkTestInfo (User.totalAttempts ti) (User.lastAttemptDate ti)
       (if JS.gtb percentage (User.bestScore ti) then percentage
        else User.bestScore ti)
       (if Test.isPassed test then true else User.hasQualified ti)
       (if Test.isPassed test then Some now else User.qualificationDate ti)
       (User.blockedUntil ti) (User.blockedReason ti)).

Definition submit (c : Ctx) (testId : string) (w : World) : World * Reply :=
  match findOne w testId (uid c) with
  | None => (w, err 404 "Test not found")
  | Some test =>
      if negb (bool_decide (Test.status test = Test.InProgress)) then
        (w, err 400 "Test is not in progress")
      else
        match Test.completeTest (now c) (r0 c) test with
        | None => (w, err 500 "Failed to submit test")
        | Some test =>
            let w := store testId test w in
            match users w !! uid c with
            | None => (w, err 500 "Failed to submit test")
            | Some user =>
                let w := store_user (uid c) (note_result (now c) test user) w in
                if services_ok c then (w, ok 200 "Test submitted successfully")
                else (w, err 500 "Failed to submit test")
            end
        end
  end.

(** *** GET /status/:testId *)

Definition get_status (c : Ctx) (testId : string) (w : World) : World * Reply :=
  match findOne w testId (uid c) with
  | None => (w, err 404 "Test not found")
  | Some test =>
      if bool_decide (Test.status test = Test.InProgress) then
        let test := Test.set_timeRemaining (remaining c test) test in
        if Qlt_le_dec 0 (Test.timeRemaining test) then (w, ok 200 EmptyString)
        else
          match Test.completeTest (now c) (r0 c) test with
          | None => (w, err 500 "Failed to get test status")
          | Some test => (store testId test w, ok 200 EmptyString)
          end
      else (w, ok 200 EmptyString)
  end.

(** *** POST /proctoring/:testId *)

Definition valid_violationType (violationType : string) : bool :=
  bool_decide (violationType ∈
    ["tab_switch"%string; "full_screen_exit"%string; "suspicious_activity"%string]).

(** The two counters after a report of [violationType]. *)
Definition count_violation (violationType : string) (p : Test.Proctoring.t)
    : Z * Z :=
  let tab := Test.Proctoring.tabSwitchViolations p in
  let full := Test.Proctoring.fullScreenViolations p in
  if bool_decide (violationType = "tab_switch"%string) then (tab + 1, full)
  else if bool_decide (violationType = "full_screen_exit"%string)
       then (tab, full + 1)
  else (tab, full).

(** The entry pushed onto the log. *)
Definition log_entry (c : Ctx) (violationType : string)
    (description : option string) (timestamp : option Z)
    : Test.Proctoring.activity :=
  Test.Proctoring.mkActivity violationType (default (now c) timestamp)
    (default EmptyString description).

Definition report (c : Ctx) (testId : string) (violationType : string)
    (description : option string) (timestamp : option Z) (w : World)
    : World * Reply :=
  if negb (valid_violationType violationType) then
    (w, err 400 "Validation failed")
  else
    match findOne w testId (uid c) with
    | None => (w, err 400 "Invalid test session")
    | Some test =>
        if negb (bool_decide (Test.status test = Test.InProgress)) then
          (w, err 400 "Invalid test session")
        else
          let p := Test.proctoring test in
          let '(tab, full) := count_violation violationType p in
          match Test.Proctoring.push
                  (Test.Proctoring.Entry
                     (log_entry c violationType description timestamp))
                  (Test.Proctoring.suspiciousActivities p) with
          | None => (w, err 500 "Failed to record violation")
          | Some log =>
              let test :=
                Test.set_proctoring (Test.Proctoring.mk full tab log) test in
              match Test.save (now c) (r0 c) test with
              | None => (w, err 500 "Failed to record violation")
              | Some test =>
                  let w := store testId test w in
                  let totalViolations :=
                    Test.Proctoring.tabSwitchViolations (Test.proctoring test)
                    + Test.Proctoring.fullScreenViolations (Test.proctoring test) in
                  if 5 <=? totalViolations then
                    match Test.completeTest (now c) (r0 c) test with
                    | None => (w, err 500 "Failed to record violation")
                    | Some test =>
                        (store testId test w,
                         mkReply 200 true
                           "Test auto-submitted due to excessive violations"
                           true)
                    end
                  else (w, ok 200 "Violation recorded")
              end
          end
    end.

(** *** The session middleware *)

(** [protectTest], after the token is verified: what it answers instead
    of the handler, if anything.  The user of the token must exist, and
    [canAttemptTest] must allow an attempt at the instant of the request. *)
Definition protectTest (c : Ctx) (w : World) : option Reply :=
  match users w !! uid c with
  | None => Some (err 401 "User not found")
  | Some user =>
      let canAttempt := User.canAttemptTest (env c) (now c) user in
      if negb (User.canAttempt canAttempt) then
        Some (err 403 (default EmptyString (User.reason canAttempt)))
      else None
  end.

(** A handler behind [protectTest]. *)
Definition protected (c : Ctx) (handler : World -> World * Reply) (w : World)
    : World * Reply :=
  match protectTest c w with
  | Some reply => (w, reply)
  | None => handler w
  end.

(** *** The endpoints together *)

(** [start] is behind the user middleware, whose checks (active and
    verified account, complete profile) are on fields outside the model;
    the other endpoints are behind [protectTest]. *)
Definition handle (c : Ctx) (req : request) (w : World) : World * Reply :=
  match req with
  | Start => start c w
  | Begin testId => protected c (begin c testId) w
  | Answer testId questionNumber ans timeSpent =>
      protected c (answer c testId questionNumber ans timeSpent) w
  | Flag testId questionNumber flagged =>
      protected c (flag c testId questionNumber flagged) w
  | Submit testId => protected c (submit c testId) w
  | Status testId => protected c (get_status c testId) w
  | Report testId violationType description timestamp =>
      protected c (report c testId violationType description timestamp) w
  end.

(** A run of requests, each with its context. *)
Definition run (reqs : list (Ctx * request)) (w : World) : World :=
  fold_left (fun w cr => fst (handle (fst cr) (snd cr) w)) reqs w.

(** Whether a request is one of the operations that change a session in
    progress: an answer, a review flag, a violation report, a submission. *)
Definition mutating (req : request) : bool :=
  match req with
  | Answer _ _ _ _ | Flag _ _ _ | Report _ _ _ _ | Submit _ => true
  | _ => false
  end.

Definition target (req : request) : option string :=
  match req with
  | Start => None
  | Begin i | Answer i _ _ _ | Flag i _ _ | Submit i | Status i | Report i _ _ _ => Some i
  end.

End Routes.

(** * Notions used in the statements *)

Module Scoring.

Definition sumZ {A} (f : A -> Z) (l : list A) : Z :=
  foldr (fun x acc => f x + acc) 0 l.

Definition count {A} (p : A -> bool) (l : list A) : Z :=
  Z.of_nat (length (List.filter p l)).

Definition answered_correct (q : Test.Slot.t) : bool :=
  Test.Slot.answered q && Test.Slot.correct q.

Definition answered_wrong (q : Test.Slot.t) : bool :=
  Test.Slot.answered q && negb (Test.Slot.correct q).

Definition unanswered (q : Test.Slot.t) : bool := negb (Test.Slot.answered q).

(** A fresh multiple-choice slot worth [points], charged [negativePoints],
    whose right option is ["a"]. *)
Definition fresh_slot (points negativePoints : Z) (number : Z) : Test.Slot.t :=
  Test.Slot.mk 0 number "Which option is the right one?" "Multiple Choice"
    "General Knowledge" "Easy" points negativePoints
    [Question.mkOption "a" true; Question.mkOption "b" false] None
    (Test.Response.mk EmptyString EmptyString 0 None false false) None 0.

Definition example_config : Test.Config.t :=
  Test.Config.mk 10 30 30 30 40 65 true.

(** A session in progress with [qs], started at instant [1000] by user [7]. *)
Definition session_of (qs : list Test.Slot.t) : Test.t :=
  Test.mk "TEST000001001" 7 example_config qs 1000 None None 0 1800
    Test.InProgress Test.Score.initial false Test.Analytics.initial
    (Test.Proctoring.mk 0 0 []) 1 false [] None false.

Definition ten_questions : Test.t :=
  session_of (fresh_slot 3 1 <$> [1; 2; 3; 4; 5; 6; 7; 8; 9; 10]).

Definition answer_all (l : list (Z * string)) (d : Test.t) : option Test.t :=
  foldl (fun od na => od ≫= Test.submitAnswer 2000 0 (fst na) (snd na) 5)
    (Some d) l.

(** Six right answers, two wrong ones, two questions left alone. *)
Definition six_two_two : Test.t :=
  default ten_questions
    (answer_all [(1, "a"); (2, "a"); (3, "a"); (4, "a"); (5, "a"); (6, "a");
                 (7, "b"); (8, "b")]%string ten_questions).

(** One three-point question, answered wrongly. *)
Definition all_wrong : Test.t :=
  default (session_of [fresh_slot 3 1 1])
    (answer_all [(1, "b"%string)] (session_of [fresh_slot 3 1 1])).

(** A session whose only question carries no points, left unanswered, and
    the same question answered wrongly. *)
Definition no_points : Test.t := session_of [fresh_slot 0 1 1].

Definition no_points_wrong : Test.t :=
  default no_points (answer_all [(1, "b"%string)] no_points).

(** The percentage of a score block is an integer between [lo] and [hi]. *)
Definition percentage_within (lo hi : Z) (s : Test.Score.t) : Prop :=
  exists p, Test.Score.percentage s = JS.Num p /\ lo <= p <= hi.

End Scoring.

Module Eligibility.

(** A candidate record with five attempts, not qualified and not blocked;
    the other fields are free. *)
Definition five_attempts (id : nat) (last : option Z) (best : JS.number)
    (qualifiedAt : option Z) (why : option string) : User.t :=
  User.mk id "Candidate" "9999999999"
    (User.mkTestInfo 5 last best false qualifiedAt None why).

Definition env_max (mx : option Z) : Env := mkEnv mx None None None None None.

(** A record that fails all four rules at instant [100]: blocked until
    [200], qualified, five attempts, last attempt at instant [50]. *)
Definition fails_all : User.t :=
  User.mk 1 "Candidate" "9999999999"
    (User.mkTestInfo 5 (Some 50) (JS.Num 70) true (Some 40) (Some 200)
       (Some "misconduct"%string)).

End Eligibility.

Module Monitor.

(** A service with proctoring on, the default threshold, and one session
    just started. *)
Definition one_session : ProctoringService.t :=
  fst (ProctoringService.startProctoring 1000 "TEST000001001" 7
         (ProctoringService.new
            (mkEnv None None None None None (Some "true"%string)))).

(** The contribution of one event to a count. *)
Definition bump (b : bool) : Z := if b then 1 else 0.

Definition outcome_of (r : ProctoringService.t * option ProctoringService.outcome)
    : option bool :=
  ProctoringService.shouldTerminate <$> snd r.

End Monitor.

Module Selector.

(** [Math.round((count * percentage) / 100)], the size asked of a bucket. *)
Definition needed (count percentage : Z) : Z :=
  JS.Math_round (inject_Z (count * percentage) / 100)%Q.

(** A tape of [n] choices for a list of [n] elements: the first is a
    position in the list, the next a position among the elements left, and
    so on. *)
Fixpoint choices (n : nat) (rnd : Random.tape) : Prop :=
  match n, rnd with
  | O, [] => True
  | S n', i :: rnd' => (i < S n')%nat /\ choices n' rnd'
  | _, _ => False
  end.

(** What the bucket of the entry [e] may draw: questions of the pool of
    its difficulty, none twice, as many as are asked for or all there
    are. *)
Definition bucket_draw (pool : list Question.t) (count : Z) (e : string * Z)
    (d : list Question.t) : Prop :=
  NoDup d
  /\ (forall q, q ∈ d -> q ∈ pool /\ Question.difficulty q = e.1)
  /\ length d
     = Nat.min (Z.to_nat (needed count e.2))
         (length (List.filter (Question.of_difficulty e.1) pool)).

(** What the fill may draw after [drawn]: questions of the pool not yet
    drawn, none twice, as many as are missing or all there are; nothing
    when nothing is missing. *)
Definition fill_draw (pool : list Question.t) (count : Z)
    (drawn fill : list Question.t) : Prop :=
  NoDup fill
  /\ (forall q, q ∈ fill -> q ∈ pool /\ (q ∉ drawn))
  /\ length fill
     = (if Z.of_nat (length drawn) <? count
        then Nat.min (Z.to_nat (count - Z.of_nat (length drawn)))
               (length pool - length drawn)
        else 0%nat).

Definition bank_question (id : nat) (difficulty : string) : Question.t :=
  Question.mk id "Which option is the right one?" "Multiple Choice"
    [Question.mkOption "a" true; Question.mkOption "b" false] None
    "General Knowledge" difficulty 3 1 "Active" true.

(** Five easy questions, five moderate ones and a single hard one. *)
Definition one_hard_bank : list Question.t :=
  (flip bank_question "Easy"%string <$> [1; 2; 3; 4; 5]%nat)
  ++ (flip bank_question "Moderate"%string <$> [6; 7; 8; 9; 10]%nat)
  ++ [bank_question 11 "Hard"].

Definition ten_of (excl : list nat) : Question.Criteria.t :=
  Question.Criteria.mk (Some 10) None None (Some excl).

Definition some_tape : Random.tape := [3; 1; 4; 1; 5; 9; 2; 6; 5; 3; 5; 8; 9; 7; 9]%nat.

End Selector.

Module Sessions.

Import Routes.

(** The request comes after the time limit of the session: [now -
    startTime] exceeds [durationMinutes * 60] seconds. *)
Definition expired (c : Ctx) (t : Test.t) : Prop :=
  Test.Config.durationMinutes (Test.testConfig t) * 60 * 1000
  < now c - Test.startTime t.

(** The request is rejected as expired and leaves the session evaluated. *)
Definition timeout_enforced (c : Ctx) (req : request) (w : World) (id : string)
    : Prop :=
  snd (handle c req w) = expired_reply
  /\ exists t', tests (fst (handle c req w)) !! id = Some t'
                /\ Test.status t' = Test.Evaluated.

(** C1 as the specification words it: every mutating request on a session
    in progress, issued after the limit, is rejected as expired and the
    session is evaluated. *)
Definition timeout_enforced_everywhere : Prop :=
  forall c req w id t,
    mutating req = true -> target req = Some id ->
    findOne w id (uid c) = Some t ->
    Test.status t = Test.InProgress ->
    expired c t ->
    timeout_enforced c req w id.


(** A candidate who never took the test, and a world with a bank of eleven
    questions and the ten-question session of [Scoring] in progress. *)
Definition candidate : User.t := User.mk 7 "Candidate" "9999999999" User.new_testInfo.

Definition world_in_progress : World :=
  mkWorld {[ 7%nat := candidate ]}
    {[ "TEST000001001"%string := Scoring.ten_questions ]}
    Selector.one_hard_bank.

(** A session of the candidate that is scheduled and not yet begun, and a
    world that holds it. *)
Definition scheduled_session : Test.t :=
  Test.mk "TEST000001002" 7 Scoring.example_config
    (Scoring.fresh_slot 3 1 <$> [1; 2; 3; 4; 5; 6; 7; 8; 9; 10])
    1000 None None 0 1800 Test.Scheduled Test.Score.initial false
    Test.Analytics.initial (Test.Proctoring.mk 0 0 []) 1 false [] None false.

Definition world_scheduled : World :=
  mkWorld {[ 7%nat := candidate ]}
    {[ "TEST000001002"%string := scheduled_session ]}
    Selector.one_hard_bank.


Definition ten_env : Env := mkEnv None (Some 10) None None None None.

(** A request of user [7] at instant [at_]. *)
Definition at_time (at_ : Z) : Ctx := mkCtx ten_env at_ Selector.some_tape 7 true.

(** One millisecond after the thirty minutes of the session started at
    instant [1000]. *)
Definition late : Ctx := at_time (1000 + 30 * 60 * 1000 + 1).


End Sessions.

Module Finished.

Import Routes Sessions.

(** The world after the submission of the ten-question session, and the
    session as it then stands. *)
Definition world_evaluated : World :=
  fst (handle late (Submit "TEST000001001") world_in_progress).

Definition evaluated_session : Test.t :=
  default Scoring.ten_questions (tests world_evaluated !! "TEST000001001"%string).

End Finished.

(** * The rest of the models *)

(** ** models/Question.js: usage statistics and life cycle *)

Module QuestionDoc.

(** A question document with the counters and the usage restrictions that
    the methods below read and write. *)
Record t : Type := mk {
  question : Question.t;
  timesUsed : Z;
  correctAttempts : Z;
  totalAttempts : Z;
  avgTimeSpent : Z;
  qualityScore : Z;
  cooldownPeriod : Z;
  lastUsed : option Z;
  lastModifiedAt : option Z
}.

(** The virtual [successRate]:
    [Math.round((correctAttempts / totalAttempts) * 100)], in doubles. *)
Definition successRate (q : t) : Z :=
  if totalAttempts q =? 0 then 0
  else JS.Math_round (JS.percent (correctAttempts q) (totalAttempts q)).

(** The virtual [actualDifficulty]. *)
Definition actualDifficulty (q : t) : string :=
  if 70 <=? successRate q then "Easy"
  else if 40 <=? successRate q then "Moderate"
  else "Hard".

(** The pre-save hook: the check of multiple-choice questions, the date of
    modification ([modified]: [isModified() && !isNew]) and the quality
    score.  [inl] carries the message of the error passed to [next]. *)
Definition pre_save (now : Z) (modified : bool) (q : t) : string + t :=
  let base := question q in
  let multipleChoice :=
    bool_decide (Question.questionType base = "Multiple Choice"%string) in
  if multipleChoice && (length (Question.options base) <? 2)%nat then
    inl "Multiple choice questions must have at least 2 options"%string
  else if multipleChoice
          && negb (length (List.filter Question.isCorrect (Question.options base))
                   =? 1)%nat then
    inl "Multiple choice questions must have exactly one correct answer"%string
  else
    let lastModifiedAt := if modified then Some now else lastModifiedAt q in
    let qualityScore :=
      if 10 <? totalAttempts q then
        let usageScore := Z.min (timesUsed q * 2) 50 in
        JS.Math_round (inject_Z (successRate q + usageScore) / 2)%Q
      else qualityScore q in
    inr (mk base (timesUsed q) (correctAttempts q) (totalAttempts q)
            (avgTimeSpent q) qualityScore (cooldownPeriod q) (lastUsed q)
            lastModifiedAt).

(** [updateStats(isCorrect, timeSpent)], saved as a document that exists
    already. *)
Definition updateStats (now : Z) (isCorrect : bool) (timeSpent : Z) (q : t)
    : string + t :=
  let timesUsed := timesUsed q + 1 in
  let totalAttempts := totalAttempts q + 1 in
  let correctAttempts :=
    if isCorrect then correctAttempts q + 1 else correctAttempts q in
  let avgTimeSpent :=
    if 0 <? timeSpent then
      let totalTime := avgTimeSpent q * (totalAttempts - 1) + timeSpent in
      JS.Math_round (inject_Z totalTime / inject_Z totalAttempts)%Q
    else avgTimeSpent q in
  pre_save now true
    (mk (question q) timesUsed correctAttempts totalAttempts avgTimeSpent
        (qualityScore q) (cooldownPeriod q) (Some now) (lastModifiedAt q)).

Definition day_ms : Z := 1000 * 60 * 60 * 24.

(** [canBeUsed]: [None] when the question can be used, else the reason. *)
Definition canBeUsed (now : Z) (q : t) : option string :=
  if negb (bool_decide (Question.status (question q) = "Active"%string))
     || negb (Question.isApproved (question q)) then
    Some "Question is not active or approved"%string
  else
    match lastUsed q with
    | Some last =>
        if 0 <? cooldownPeriod q then
          let daysSinceLastUse := (inject_Z (now - last) / inject_Z day_ms)%Q in
          if Qlt_le_dec daysSinceLastUse (inject_Z (cooldownPeriod q)) then
            Some ("Question is in cooldown period. "
                  ++ pretty (JS.Math_ceil
                               (inject_Z (cooldownPeriod q) - daysSinceLastUse)%Q)
                  ++ " days remaining.")%string
          else None
        else None
    | None => None
    end.

End QuestionDoc.

(** ** models/User.js: one-time passwords *)

Module Otp.

Record otp_t : Type := mkOtp {
  code : string;
  expiresAt : Z;
  attempts : Z
}.

(** The part of a user document the two methods read and write. *)
Record account : Type := mkAccount {
  otp : option otp_t;
  isVerified : bool
}.

(** [generateOTP]: six digits, valid for ten minutes; [r] is the number
    read for [Math.random], so that [Math.floor(100000 + random * 900000)]
    is [100000 + r mod 900000]. *)
Definition generateOTP (now : Z) (r : nat) (a : account) : string * account :=
  let otp := pretty (100000 + Z.of_nat r mod 900000) in
  (otp, mkAccount (Some (mkOtp otp (now + 10 * 60 * 1000) 0)) (isVerified a)).

(** [verifyOTP]. *)
Definition verifyOTP (now : Z) (enteredOTP : string) (a : account)
    : bool * account :=
  match otp a with
  | None => (false, a)
  | Some o =>
      if bool_decide (code o = EmptyString) then (false, a)
      else if expiresAt o <? now then (false, a)
      else if 5 <=? attempts o then (false, a)
      else if bool_decide (code o = enteredOTP) then (true, mkAccount None true)
      else (false,
            mkAccount (Some (mkOtp (code o) (expiresAt o) (attempts o + 1)))
              (isVerified a))
  end.

(** A run of entered codes, each at its instant; the answers in order. *)
Fixpoint verify_all (entries : list (Z * string)) (a : account)
    : list bool * account :=
  match entries with
  | [] => ([], a)
  | (now, entered) :: rest =>
      let '(b, a') := verifyOTP now entered a in
      let '(bs, a'') := verify_all rest a' in
      (b :: bs, a'')
  end.

End Otp.

(** ** utils/proctoringService.js: reports and the end of a session *)

Module ProctoringReport.

Import ProctoringService.

Inductive risk_t : Type :=
| HIGH
| MEDIUM
| LOW
| MINIMAL.

(** [calculateRiskLevel]. *)
Definition calculateRiskLevel (vs : list violation) : risk_t :=
  let criticalCount := count_severity critical vs in
  let majorCount := count_severity major vs in
  let minorCount := count_severity minor vs in
  if 2 <=? criticalCount then HIGH
  else if (1 <=? criticalCount) || (3 <=? majorCount) then MEDIUM
  else if (1 <=? majorCount) || (5 <=? minorCount) then LOW
  else MINIMAL.

Definition has_type (ty : string) (vs : list violation) : bool :=
  bool_decide (ty ∈ type <$> vs).

(** [generateRecommendations]. *)
Definition generateRecommendations (vs : list violation) : list string :=
  (if has_type "multiple_faces" vs
   then ["Multiple faces detected - verify candidate identity"%string] else [])
  ++ (if has_type "tab_switch" vs
      then ["Frequent tab switching detected - review test session"%string] else [])
  ++ (if has_type "copy_paste" vs
      then ["Copy-paste activity detected - flag for manual review"%string] else [])
  ++ (if 2 <=? count_severity critical vs
      then ["High-risk session - recommend test invalidation"%string] else []).

(** The counting [reduce] of the report, [acc[k] = (acc[k] || 0) + 1],
    for keys under which the accumulator [{}] has nothing to begin with:
    the words of the severities, and the texts that inherited members
    turn into when they are used as keys. *)
Definition tally {K} `{Countable K} (keys : list K) : gmap K Z :=
  fold_left (fun acc k => <[k := default 0 (acc !! k) + 1]> acc) keys ∅.

#[global] Instance severity_countable : Countable severity_t.
Proof.
  refine (inj_countable'
            (fun s => match s with
                      | minor => inl 0%nat
                      | major => inl 1%nat
                      | critical => inl 2%nat
                      | inherited name => inr name
                      end)
            (fun x => match x with
                      | inl 0%nat => minor
                      | inl 1%nat => major
                      | inl _ => critical
                      | inr name => inherited name
                      end)
            _).
  intros []; reflexivity.
Defined.

(** What the accumulator holds under a kind of violation: a count, or the
    text that the sum of an inherited member and [1] is. *)
Inductive cell : Type :=
| Count (n : Z)
| Text (s : string).

(** The same [reduce] over the kinds of violation, which are any strings.
    Under a name inherited from [Object.prototype] the accumulator [{}]
    reads a function, so that the sum is a text, stored under the name
    and made longer at each further occurrence; the assignment of a text
    to [__proto__] is ignored. *)
Definition tally_step (acc : gmap string cell) (k : string) : gmap string cell :=
  match acc !! k with
  | Some (Count n) => <[k := Count (n + 1)]> acc
  | Some (Text s) => <[k := Text (s ++ "1")]> acc
  | None =>
      if bool_decide (k = "__proto__"%string) then acc
      else if JS.is_inherited k
           then <[k := Text (JS.inherited_text k ++ "1")]> acc
      else <[k := Count 1]> acc
  end.

Definition tally_types (kinds : list string) : gmap string cell :=
  fold_left tally_step kinds ∅.

(** The report of a session; [endTime] is the end noted on the session,
    if any.  The count of screenshots is left out with the screenshots. *)
Record report : Type := mkReport {
  r_testId : string;
  r_userId : nat;
  r_duration : Z;
  r_totalViolations : Z;
  violationsByType : gmap string cell;
  violationsBySeverity : gmap severity_t Z;
  riskLevel : risk_t;
  recommendations : list string;
  timeline : list (Z * string * severity_t)
}.

Definition generateProctoringReport (now : Z) (endTime : option Z)
    (testId : string) (svc : t) : option report :=
  match activeTestSessions svc !! testId with
  | None => None
  | Some session =>
      let vs := violations session in
      let duration :=
        (inject_Z (default now endTime - startTime session) / 1000 / 60)%Q in
      Some (mkReport testId (userId session) (JS.Math_round duration)
              (Z.of_nat (length vs))
              (tally_types (type <$> vs)) (tally (severity <$> vs))
              (calculateRiskLevel vs) (generateRecommendations vs)
              ((fun v => (timestamp v, type v, severity v)) <$> vs))
  end.

(** [stopProctoring]: the report of the session, which leaves the map;
    [None] when the session is not found.  The archive file is outside the
    state modelled here. *)
Definition stopProctoring (now : Z) (testId : string) (svc : t)
    : t * option report :=
  match activeTestSessions svc !! testId with
  | None => (svc, None)
  | Some session =>
      (mk (delete testId (activeTestSessions svc)) (violationThreshold svc)
          (proctoringEnabled svc),
       generateProctoringReport now (Some now) testId svc)
  end.

(** [getSessionStatus]: [None] for [{ exists: false }]. *)
Definition getSessionStatus (testId : string) (svc : t)
    : option (bool * Z * risk_t) :=
  match activeTestSessions svc !! testId with
  | None => None
  | Some session =>
      Some (isActive session, Z.of_nat (length (violations session)),
            calculateRiskLevel (violations session))
  end.

(** A run of [recordViolation] calls: instant, session, kind. *)
Definition record_all (calls : list (Z * string * string)) (svc : t) : t :=
  fold_left (fun svc x => fst (recordViolation x.1.1 x.1.2 x.2 svc)) calls svc.

End ProctoringReport.

(** * Notions used in the further statements *)

Module Bank.

Import QuestionDoc.


Definition multiple_choice (base : Question.t) : Prop :=
  Question.questionType base = "Multiple Choice"%string.

(** What the pre-save hook asks of a multiple-choice question. *)
Definition well_formed (base : Question.t) : Prop :=
  multiple_choice base ->
  (2 <= length (Question.options base))%nat
  /\ length (List.filter Question.isCorrect (Question.options base)) = 1%nat.

(** A used question: 12 attempts, 9 of them right, 20 seconds on average,
    a cooldown of two days. *)
Definition used_question : t :=
  mk (Selector.bank_question 1 "Easy") 12 9 12 20 50 2 None None.

End Bank.

Module Passwords.

Import Otp.

Definition wrong_before (code : string) (deadline : Z) (x : Z * string) : Prop :=
  x.1 <= deadline /\ x.2 <> code.

Definition fresh_account : account := mkAccount None false.

End Passwords.

Module Watch.

Import ProctoringService ProctoringReport.

(** How often a key occurs in a list. *)
Definition occurrences {K} `{EqDecision K} (k : K) (keys : list K) : Z :=
  Z.of_nat (length (List.filter (fun x => bool_decide (x = k)) keys)).

(** How many violations have a severity that is none of the three words. *)
Definition unclassed (vs : list violation) : Z :=
  Z.of_nat
    (length (List.filter
               (fun v => match severity v with inherited _ => true | _ => false end)
               vs)).

(** The termination policy holds of a list of violations. *)
Definition over_threshold (threshold : Z) (vs : list violation) : Prop :=
  2 <= count_severity critical vs \/ threshold <= count_severity major vs.

End Watch.

Module Breakdown.

Import Scoring.

(** What a question contributes to the points of its group. *)
Definition charged (q : Test.Slot.t) : Z :=
  if Test.Slot.correct q then Test.Slot.points q
  else if Test.Slot.answered q then - Test.Slot.negativePoints q else 0.

(** A group has at least one question, no more right answers than
    questions, and a percentage between 0 and 100. *)
Definition group_ok (g : Test.Group.t) : Prop :=
  1 <= Test.Group.totalQuestions g
  /\ 0 <= Test.Group.correctAnswers g <= Test.Group.totalQuestions g
  /\ exists p, Test.Group.percentage g = JS.Num p /\ 0 <= p <= 100.

(** The groups [gs] split the questions [qs] by [key_of]: one group for
    each key that occurs, and the questions, the right answers and the
    points of the groups add up to those of [qs]. *)
Definition splits (key_of : Test.Slot.t -> string) (qs : list Test.Slot.t)
    (gs : list Test.Group.t) : Prop :=
  NoDup (Test.Group.name <$> gs)
  /\ (forall k, k ∈ Test.Group.name <$> gs <-> exists q, q ∈ qs /\ key_of q = k)
  /\ Forall group_ok gs
  /\ sumZ Test.Group.totalQuestions gs = Z.of_nat (length qs)
  /\ sumZ Test.Group.correctAnswers gs = count Test.Slot.correct qs
  /\ sumZ Test.Group.points gs = sumZ charged qs.

(** Only answered questions are marked right. *)
Definition marked (qs : list Test.Slot.t) : Prop :=
  Forall (fun q => Test.Slot.correct q = true -> Test.Slot.answered q = true) qs.

End Breakdown.

Module Timing.

Import Scoring.

Definition answeredQuestions (d : Test.t) : list Test.Slot.t :=
  List.filter Test.Slot.answered (Test.questions d).

(** The entry of the analytics block for a question. *)
Definition entry (q : Test.Slot.t) : Z * Z :=
  (Test.Slot.questionNumber q, Test.timeSpent_of q).

(** The order [sort] is given. *)
Definition by_time (x y : Test.Slot.t) : Prop :=
  Test.timeSpent_of x <= Test.timeSpent_of y.

End Timing.

Module Steps.

Import Routes Sessions.

(** What a question slot is given when the session is created. *)
Definition frozen (q : Test.Slot.t)
    : nat * Z * string * string * string * string * Z * Z
      * list Question.option_t * option string :=
  (Test.Slot.questionId q, Test.Slot.questionNumber q,
   Test.Slot.questionText q, Test.Slot.questionType q, Test.Slot.category q,
   Test.Slot.difficulty q, Test.Slot.points q, Test.Slot.negativePoints q,
   Test.Slot.options q, Test.Slot.correctAnswer q).

(** A slot later on: the same question, and an answer is not withdrawn. *)
Definition slot_step (q q' : Test.Slot.t) : Prop :=
  frozen q' = frozen q
  /\ (Test.Slot.answered q = true -> Test.Slot.answered q' = true).

(** The order in which a session goes through its states. *)
Definition follows (s s' : Test.status_t) : Prop :=
  s' = s
  \/ (s = Test.Scheduled /\ s' = Test.InProgress)
  \/ (s = Test.Scheduled /\ s' = Test.Evaluated)
  \/ (s = Test.InProgress /\ s' = Test.Evaluated).

(** A session [t] and the same session later on, [t']. *)
Definition session_step (t t' : Test.t) : Prop :=
  Test.user t' = Test.user t
  /\ Test.testConfig t' = Test.testConfig t
  /\ Test.attemptNumber t' = Test.attemptNumber t
  /\ Forall2 slot_step (Test.questions t) (Test.questions t')
  /\ follows (Test.status t) (Test.status t')
  /\ (Test.status t <> Test.Scheduled -> Test.startTime t' = Test.startTime t)
  /\ Test.Proctoring.suspiciousActivities (Test.proctoring t)
       `prefix_of` Test.Proctoring.suspiciousActivities (Test.proctoring t')
  /\ Test.Proctoring.tabSwitchViolations (Test.proctoring t)
     <= Test.Proctoring.tabSwitchViolations (Test.proctoring t')
  /\ Test.Proctoring.fullScreenViolations (Test.proctoring t)
     <= Test.Proctoring.fullScreenViolations (Test.proctoring t')
  /\ (Test.status t' <> Test.Evaluated ->
      Test.score t' = Test.score t /\ Test.isPassed t' = Test.isPassed t).

(** The document [flag] saves. *)
Definition flagged_doc (c : Ctx) (questionNumber : Z) (flagged : bool)
    (question : Test.Slot.t) (test : Test.t) : Test.t :=
  let a := Test.analytics test in
  Test.set_analytics
    (Test.Analytics.mk
       (Test.Analytics.avgTimePerQuestion a)
       (Test.Analytics.fastestQuestion a)
       (Test.Analytics.slowestQuestion a)
       (Test.Analytics.timeDistribution a)
       (Test.Analytics.attemptPattern a
          ++ [(now c,
               if flagged then "flagged"%string else "unflagged"%string,
               questionNumber)]))
    (Test.set_questions
       (Test.update_first (Test.has_number questionNumber)
          (Test.Slot.set_flag flagged question) (Test.questions test))
       test).

(** The document [answer] saves last. *)
Definition timed_doc (c : Ctx) (test : Test.t) : Test.t :=
  Test.set_timeRemaining (remaining c test) test.

(** What the endpoints do to the session they load.  A violation report
    is not among them: its push onto the log throws before anything is
    saved. *)
Inductive op (c : Ctx) (t : Test.t) : Test.t -> Prop :=
| op_begin t' :
    Test.startTest (now c) (r0 c) t = Some t' -> op c t t'
| op_complete t' :
    Test.completeTest (now c) (r0 c) t = Some t' -> op c t t'
| op_status_complete t' :
    Test.status t = Test.InProgress ->
    Test.completeTest (now c) (r0 c) (timed_doc c t) = Some t' ->
    op c t t'
| op_record questionNumber ans timeSpent t' :
    Test.status t = Test.InProgress ->
    Test.submitAnswer (now c) (r0 c) questionNumber ans timeSpent t = Some t' ->
    op c t t'
| op_answer questionNumber ans timeSpent t1 t' :
    Test.status t = Test.InProgress ->
    Test.submitAnswer (now c) (r0 c) questionNumber ans timeSpent t = Some t1 ->
    Test.save (now c) (r0 c) (timed_doc c t1) = Some t' ->
    op c t t'
| op_flag questionNumber flagged question t' :
    Test.status t = Test.InProgress ->
    List.find (Test.has_number questionNumber) (Test.questions t) = Some question ->
    Test.save (now c) (r0 c) (flagged_doc c questionNumber flagged question t)
    = Some t' ->
    op c t t'.

(** The criteria [start] draws the questions with. *)
Definition criteria (c : Ctx) : Question.Criteria.t :=
  let testConfig := make_config (env c) in
  Question.Criteria.mk
    (Some (Test.Config.totalQuestions testConfig))
    (Some [("Easy"%string, Test.Config.easy testConfig);
           ("Moderate"%string, Test.Config.moderate testConfig);
           ("Hard"%string, Test.Config.hard testConfig)])
    None None.

(** The middleware of the session endpoints lets the request through:
    the candidate exists and may attempt the test at that instant. *)
Definition allowed (c : Ctx) (w : World) : Prop :=
  exists u, users w !! uid c = Some u
            /\ User.canAttempt (User.canAttemptTest (env c) (now c) u) = true.

(** A session is scheduled or in progress. *)
Definition active (t : Test.t) : Prop :=
  Test.status t = Test.Scheduled \/ Test.status t = Test.InProgress.

(** No candidate has two active sessions. *)
Definition single_active (w : World) : Prop :=
  forall id1 id2 t1 t2,
    tests w !! id1 = Some t1 -> tests w !! id2 = Some t2 ->
    Test.user t1 = Test.user t2 -> active t1 -> active t2 -> id1 = id2.

(** The points of a slot agree with its marking. *)
Definition slot_sound (q : Test.Slot.t) : Prop :=
  if Test.Slot.answered q
  then Test.Slot.pointsEarned q
       = (if Test.Slot.correct q then Test.Slot.points q
          else - Test.Slot.negativePoints q)
  else Test.Slot.isCorrect q = None /\ Test.Slot.pointsEarned q = 0.

(** The slots are numbered from one, in order. *)
Definition numbered (qs : list Test.Slot.t) : Prop :=
  forall i q, qs !! i = Some q -> Test.Slot.questionNumber q = Z.of_nat i + 1.

(** What holds of every session the endpoints have made. *)
Definition sound (t : Test.t) : Prop :=
  (Test.status t = Test.Scheduled \/ Test.status t = Test.InProgress
   \/ Test.status t = Test.Evaluated)
  /\ Test.testId t <> EmptyString
  /\ Test.Config.negativeMarking (Test.testConfig t) = true
  /\ numbered (Test.questions t)
  /\ Forall slot_sound (Test.questions t)
  /\ (Test.status t = Test.Scheduled ->
      Forall (fun q => Test.Slot.answered q = false) (Test.questions t))
  /\ (if bool_decide (Test.status t = Test.Evaluated)
      then Test.score t = Test.compute_score true (Test.questions t)
           /\ Test.isPassed t
              = JS.geb (Test.Score.percentage (Test.score t))
                  (JS.Num (Test.Config.passingPercentage (Test.testConfig t)))
      else Test.score t = Test.Score.initial /\ Test.isPassed t = false).

(** An evaluated session that carries the score of its questions. *)
Definition scored (t : Test.t) : Prop :=
  Test.status t = Test.Evaluated
  /\ Test.score t
     = Test.compute_score (Test.Config.negativeMarking (Test.testConfig t))
         (Test.questions t)
  /\ Test.isPassed t
     = JS.geb (Test.Score.percentage (Test.score t))
         (JS.Num (Test.Config.passingPercentage (Test.testConfig t))).

(** Two slots count the same in the score. *)
Definition same_marks (q q' : Test.Slot.t) : Prop :=
  Test.Slot.answered q' = Test.Slot.answered q
  /\ Test.Slot.isCorrect q' = Test.Slot.isCorrect q
  /\ Test.Slot.points q' = Test.Slot.points q
  /\ Test.Slot.negativePoints q' = Test.Slot.negativePoints q
  /\ Test.Slot.category q' = Test.Slot.category q
  /\ Test.Slot.difficulty q' = Test.Slot.difficulty q.

(** The time of the session is over at the instant of the request. *)
Definition time_over (c : Ctx) (t : Test.t) : Prop :=
  timeLimit t * 1000 <= now c - Test.startTime t.

(** Every session is sound and stored under its own identifier. *)
Definition sound_world (w : World) : Prop :=
  forall id t, tests w !! id = Some t -> sound t /\ Test.testId t = id.



End Steps.

(** * Properties *)

(** ** Rounding *)

Section Rounding.

Lemma Math_round_mono (x y : Q) :
  (x <= y)%Q -> JS.Math_round x <= JS.Math_round y.
Proof.
  intros H. unfold JS.Math_round. apply Qfloor_resp_le.
  apply Qplus_le_l. exact H.
Qed.

(** *** Doubles *)

Lemma pow2_pos (k : Z) : (0 < 2 ^ k)%Q.
Proof. apply Qpower_0_lt. reflexivity. Qed.

Lemma pow2_add (a b : Z) : (2 ^ (a + b) == 2 ^ a * 2 ^ b)%Q.
Proof. apply Qpower_plus. discriminate. Qed.

Lemma pow2_le (a b : Z) : a <= b -> (2 ^ a <= 2 ^ b)%Q.
Proof. intros H. apply Qpower_le_compat_l; [exact H | discriminate]. Qed.

Lemma pow2_Z (n : Z) : 0 <= n -> (inject_Z (2 ^ n) == 2 ^ n)%Q.
Proof. intros H. apply (Zpower_Qpower 2 n H). Qed.

Lemma pow2_cancel (a : Z) (x : Q) : (x * 2 ^ a * 2 ^ (- a) == x)%Q.
Proof.
  rewrite <- Qmult_assoc, <- pow2_add, Z.add_opp_diag_r. cbn. ring.
Qed.

Lemma nearest_even_bounds (x : Q) :
  Qfloor x <= JS.nearest_even x <= Qfloor x + 1.
Proof.
  unfold JS.nearest_even.
  destruct (_ ?= _)%Q; [destruct (Z.even _) | |]; lia.
Qed.

Lemma nearest_even_mono (x y : Q) :
  (x <= y)%Q -> JS.nearest_even x <= JS.nearest_even y.
Proof.
  intros H. pose proof (Qfloor_resp_le _ _ H) as Hf.
  destruct (Z.eq_dec (Qfloor x) (Qfloor y)) as [He | Hne].
  - unfold JS.nearest_even. rewrite <- He.
    destruct (Qcompare_spec (x - inject_Z (Qfloor x)) (1 # 2)) as [H1 | H1 | H1],
             (Qcompare_spec (y - inject_Z (Qfloor x)) (1 # 2)) as [H2 | H2 | H2];
      try lia; try (destruct (Z.even _); lia); exfalso; lra.
  - pose proof (nearest_even_bounds x). pose proof (nearest_even_bounds y). lia.
Qed.

Lemma nearest_even_Z (k : Z) : JS.nearest_even (inject_Z k) = k.
Proof.
  unfold JS.nearest_even. rewrite Qfloor_Z.
  destruct (Qcompare_spec (inject_Z k - inject_Z k) (1 # 2)) as [H | H | H];
    [exfalso; lra | reflexivity | exfalso; lra].
Qed.

Lemma nearest_even_le (x : Q) (k : Z) :
  (x <= inject_Z k)%Q -> JS.nearest_even x <= k.
Proof. intros H. rewrite <- (nearest_even_Z k). apply nearest_even_mono, H. Qed.

Lemma nearest_even_ge (x : Q) (k : Z) :
  (inject_Z k <= x)%Q -> k <= JS.nearest_even x.
Proof. intros H. rewrite <- (nearest_even_Z k). apply nearest_even_mono, H. Qed.

Lemma exponent_ge (x : Q) : -1022 <= JS.exponent x.
Proof. apply Z.le_max_r. Qed.

Lemma exponent_mono (x y : Q) : (x <= y)%Q -> JS.exponent x <= JS.exponent y.
Proof.
  intros H. unfold JS.exponent. apply Z.max_le_compat_r, Z.sub_le_mono_r.
  apply Z.log2_le_mono, Qfloor_resp_le, Qmult_le_compat_r;
    [exact H | apply Qlt_le_weak, pow2_pos].
Qed.

Lemma exponent_upper (x : Q) : (x < 2 ^ (JS.exponent x + 1))%Q.
Proof.
  set (z := (x * 2 ^ 1074)%Q). set (L := Z.log2 (Qfloor z)).
  assert (HL : 0 <= L) by apply Z.log2_nonneg.
  assert (HF : Qfloor z + 1 <= 2 ^ (L + 1)).
  { destruct (Z_lt_le_dec 0 (Qfloor z)) as [Hp | Hn].
    - pose proof (Z.log2_spec _ Hp) as [_ Hs]. fold L in Hs.
      change (Z.succ L) with (L + 1) in Hs. lia.
    - assert (2 ^ 0 <= 2 ^ (L + 1)) by (apply Z.pow_le_mono_r; lia).
      change (2 ^ 0) with 1 in *. lia. }
  assert (Hz : (z < 2 ^ (L + 1))%Q).
  { rewrite <- pow2_Z by lia. eapply Qlt_le_trans; [apply Qlt_floor |].
    rewrite <- Zle_Qle. exact HF. }
  assert (Hx : (x < 2 ^ (L + 1 - 1074))%Q).
  { rewrite <- (pow2_cancel 1074 x). fold z.
    replace (L + 1 - 1074) with ((L + 1) + - 1074) by lia.
    rewrite pow2_add. apply Qmult_lt_compat_r; [apply pow2_pos | exact Hz]. }
  eapply Qlt_le_trans; [exact Hx |]. apply pow2_le.
  unfold JS.exponent. fold z L. lia.
Qed.

Lemma exponent_lower (x : Q) :
  -1022 < JS.exponent x -> (2 ^ JS.exponent x <= x)%Q.
Proof.
  unfold JS.exponent. set (z := (x * 2 ^ 1074)%Q). set (L := Z.log2 (Qfloor z)).
  intros He. assert (HL : 52 < L) by lia.
  rewrite Z.max_l by lia.
  assert (Hp : 0 < Qfloor z).
  { destruct (Z_lt_le_dec 0 (Qfloor z)) as [Hp | Hn]; [exact Hp |].
    unfold L in HL. rewrite (Z.log2_nonpos _ Hn) in HL. lia. }
  pose proof (Z.log2_spec _ Hp) as [Hs _]. fold L in Hs.
  assert (Hz : (2 ^ L <= z)%Q).
  { rewrite <- pow2_Z by lia. eapply Qle_trans; [| apply Qfloor_le].
    rewrite <- Zle_Qle. exact Hs. }
  rewrite <- (pow2_cancel 1074 x). fold z.
  replace (L - 1074) with (L + - 1074) by lia. rewrite pow2_add.
  apply Qmult_le_compat_r; [exact Hz | apply Qlt_le_weak, pow2_pos].
Qed.

Lemma scaled_upper (x : Q) :
  (x * 2 ^ (52 - JS.exponent x) < inject_Z (2 ^ 53))%Q.
Proof.
  rewrite pow2_Z by lia.
  replace 53 with ((JS.exponent x + 1) + (52 - JS.exponent x)) at 1 by lia.
  rewrite pow2_add. apply Qmult_lt_compat_r; [apply pow2_pos |].
  apply exponent_upper.
Qed.

Lemma scaled_lower (x : Q) :
  -1022 < JS.exponent x ->
  (inject_Z (2 ^ 52) <= x * 2 ^ (52 - JS.exponent x))%Q.
Proof.
  intros He. rewrite pow2_Z by lia.
  replace 52 with (JS.exponent x + (52 - JS.exponent x)) at 1 by lia.
  rewrite pow2_add. apply Qmult_le_compat_r;
    [apply exponent_lower, He | apply Qlt_le_weak, pow2_pos].
Qed.

Lemma to_double_pos_nonneg (x : Q) : (0 <= x)%Q -> (0 <= JS.to_double_pos x)%Q.
Proof.
  intros Hx. unfold JS.to_double_pos.
  apply Qmult_le_0_compat; [| apply Qlt_le_weak, pow2_pos].
  change 0%Q with (inject_Z 0). rewrite <- Zle_Qle.
  apply nearest_even_ge. change (inject_Z 0) with 0%Q.
  apply Qmult_le_0_compat; [exact Hx | apply Qlt_le_weak, pow2_pos].
Qed.

Lemma to_double_pos_mono (x y : Q) :
  (x <= y)%Q -> (JS.to_double_pos x <= JS.to_double_pos y)%Q.
Proof.
  intros H. pose proof (exponent_mono _ _ H) as He.
  unfold JS.to_double_pos.
  destruct (Z.eq_dec (JS.exponent x) (JS.exponent y)) as [Heq | Hne].
  - rewrite <- Heq. apply Qmult_le_compat_r; [| apply Qlt_le_weak, pow2_pos].
    rewrite <- Zle_Qle. apply nearest_even_mono.
    apply Qmult_le_compat_r; [exact H | apply Qlt_le_weak, pow2_pos].
  - assert (Hlt : JS.exponent x < JS.exponent y) by lia.
    assert (Hy : -1022 < JS.exponent y)
      by (pose proof (exponent_ge x); lia).
    apply Qle_trans with (2 ^ JS.exponent y)%Q.
    + apply Qle_trans with (inject_Z (2 ^ 53) * 2 ^ (JS.exponent x - 52))%Q.
      * apply Qmult_le_compat_r; [| apply Qlt_le_weak, pow2_pos].
        rewrite <- Zle_Qle. apply nearest_even_le, Qlt_le_weak, scaled_upper.
      * rewrite pow2_Z, <- pow2_add by lia. apply pow2_le. lia.
    + apply Qle_trans with (inject_Z (2 ^ 52) * 2 ^ (JS.exponent y - 52))%Q.
      * rewrite pow2_Z, <- pow2_add by lia. apply pow2_le. lia.
      * apply Qmult_le_compat_r; [| apply Qlt_le_weak, pow2_pos].
        rewrite <- Zle_Qle. apply nearest_even_ge, scaled_lower, Hy.
Qed.

Lemma to_double_mono (x y : Q) :
  (x <= y)%Q -> (JS.to_double x <= JS.to_double y)%Q.
Proof.
  intros H. unfold JS.to_double.
  destruct (Qcompare_spec x 0) as [Hx | Hx | Hx],
           (Qcompare_spec y 0) as [Hy | Hy | Hy];
    try (exfalso; lra).
  - apply Qle_refl.
  - apply to_double_pos_nonneg. lra.
  - assert (0 <= JS.to_double_pos (- x))%Q by (apply to_double_pos_nonneg; lra).
    lra.
  - apply Qopp_le_compat, to_double_pos_mono. lra.
  - assert (0 <= JS.to_double_pos (- x))%Q by (apply to_double_pos_nonneg; lra).
    assert (0 <= JS.to_double_pos y)%Q by (apply to_double_pos_nonneg; lra).
    lra.
  - apply to_double_pos_mono, H.
Qed.

Lemma to_double_le (x : Q) (k : Q) :
  (JS.to_double k == k)%Q -> (x <= k)%Q -> (JS.to_double x <= k)%Q.
Proof. intros Hk H. rewrite <- Hk. apply to_double_mono, H. Qed.

Lemma to_double_ge (x : Q) (k : Q) :
  (JS.to_double k == k)%Q -> (k <= x)%Q -> (k <= JS.to_double x)%Q.
Proof. intros Hk H. rewrite <- Hk. apply to_double_mono, H. Qed.

Lemma to_double_0 : (JS.to_double 0 == 0)%Q.
Proof. reflexivity. Qed.

Lemma to_double_1 : (JS.to_double 1 == 1)%Q.
Proof. vm_compute. reflexivity. Qed.

Lemma to_double_100 : (JS.to_double 100 == 100)%Q.
Proof. vm_compute. reflexivity. Qed.

(** *** The rounded percentage *)

Lemma ratio_le_1 (a b : Z) : 0 < b -> a <= b -> (inject_Z a / inject_Z b <= 1)%Q.
Proof.
  intros Hb Hab. destruct b as [|p|p]; try lia.
  unfold Qle, Qdiv, Qmult, Qinv, inject_Z. simpl. nia.
Qed.

Lemma ratio_ge_0 (a b : Z) : 0 < b -> 0 <= a -> (0 <= inject_Z a / inject_Z b)%Q.
Proof.
  intros Hb Ha. destruct b as [|p|p]; try lia.
  unfold Qle, Qdiv, Qmult, Qinv, inject_Z. simpl. nia.
Qed.

Lemma percent_le_100 (a b : Z) : 0 < b -> a <= b -> (JS.percent a b <= 100)%Q.
Proof.
  intros Hb Hab. unfold JS.percent.
  apply to_double_le; [apply to_double_100 |].
  pose proof (to_double_le _ 1 to_double_1 (ratio_le_1 a b Hb Hab)). lra.
Qed.

Lemma percent_ge_0 (a b : Z) : 0 < b -> 0 <= a -> (0 <= JS.percent a b)%Q.
Proof.
  intros Hb Ha. unfold JS.percent.
  apply to_double_ge; [apply to_double_0 |].
  pose proof (to_double_ge _ 0 to_double_0 (ratio_ge_0 a b Hb Ha)). lra.
Qed.

Lemma round_percent_Num (a b : Z) :
  b <> 0 -> JS.round_percent a b = JS.Num (JS.Math_round (JS.percent a b)).
Proof.
  intros Hb. unfold JS.round_percent.
  destruct (Z.eqb_spec b 0); [contradiction | reflexivity].
Qed.

Lemma round_percent_le_100 (a b : Z) :
  0 < b -> a <= b -> exists p, JS.round_percent a b = JS.Num p /\ p <= 100.
Proof.
  intros Hb Hab. eexists. split; [apply round_percent_Num; lia |].
  change 100 with (JS.Math_round 100).
  apply Math_round_mono, percent_le_100; assumption.
Qed.

Lemma round_percent_ge_0 (a b : Z) :
  0 < b -> 0 <= a -> exists p, JS.round_percent a b = JS.Num p /\ 0 <= p.
Proof.
  intros Hb Ha. eexists. split; [apply round_percent_Num; lia |].
  change 0 with (JS.Math_round 0) at 1.
  apply Math_round_mono, percent_ge_0; assumption.
Qed.

End Rounding.

(** ** The scoring engine *)

Section ScoringEngine.

Import Scoring.

Lemma sumZ_cons {A} (f : A -> Z) (x : A) (l : list A) :
  sumZ f (x :: l) = f x + sumZ f l.
Proof. reflexivity. Qed.

(** The loop of [calculateScore] in closed form: counts and sums over the
    answered-and-right, answered-and-wrong and unanswered questions. *)
Lemma tally_fold (nm : bool) (qs : list Test.Slot.t) (acc : Test.tally) :
  fold_left (Test.tally_step nm) qs acc =
  Test.mkTally
    (Test.t_attempted acc + count Test.Slot.answered qs)
    (Test.t_correct acc + count answered_correct qs)
    (Test.t_wrong acc + count answered_wrong qs)
    (Test.t_unanswered acc + count unanswered qs)
    (Test.t_totalPoints acc + sumZ Test.Slot.points qs)
    (Test.t_pointsEarned acc
     + sumZ Test.Slot.points (List.filter answered_correct qs))
    (Test.t_negativePoints acc
     + if nm then sumZ Test.Slot.negativePoints (List.filter answered_wrong qs)
       else 0).
Proof.
  revert acc. induction qs as [|q qs IH]; intros [a c w u tp pe np].
  - unfold count. cbn. f_equal; destruct nm; lia.
  - cbn [fold_left]. rewrite IH. unfold Test.tally_step, count,
      answered_correct, answered_wrong, unanswered.
    cbn [List.filter Test.t_attempted Test.t_correct Test.t_wrong
         Test.t_unanswered Test.t_totalPoints Test.t_pointsEarned
         Test.t_negativePoints].
    destruct (Test.Slot.answered q), (Test.Slot.correct q), nm;
      cbn [andb negb length Test.t_attempted Test.t_correct
           Test.t_wrong Test.t_unanswered Test.t_totalPoints
           Test.t_pointsEarned Test.t_negativePoints];
      rewrite ?sumZ_cons; f_equal; lia.
Qed.

Lemma tally_questions_eq (nm : bool) (qs : list Test.Slot.t) :
  Test.tally_questions nm qs =
  Test.mkTally (count Test.Slot.answered qs) (count answered_correct qs)
    (count answered_wrong qs) (count unanswered qs)
    (sumZ Test.Slot.points qs)
    (sumZ Test.Slot.points (List.filter answered_correct qs))
    (if nm then sumZ Test.Slot.negativePoints (List.filter answered_wrong qs)
     else 0).
Proof. unfold Test.tally_questions. rewrite tally_fold. reflexivity. Qed.

Lemma sumZ_const {A} (f : A -> Z) (k : Z) (l : list A) :
  Forall (fun x => f x = k) l -> sumZ f l = k * Z.of_nat (length l).
Proof.
  induction 1 as [|x l Hx _ IH]; cbn [sumZ foldr length]; [lia |].
  fold (sumZ f l). rewrite IH, Hx. lia.
Qed.

Lemma sumZ_nonneg {A} (f : A -> Z) (l : list A) :
  Forall (fun x => 0 <= f x) l -> 0 <= sumZ f l.
Proof.
  induction 1 as [|x l Hx _ IH]; cbn [sumZ foldr]; [lia |].
  fold (sumZ f l). lia.
Qed.

Lemma sumZ_filter_le {A} (f : A -> Z) (p : A -> bool) (l : list A) :
  Forall (fun x => 0 <= f x) l -> sumZ f (List.filter p l) <= sumZ f l.
Proof.
  induction 1 as [|x l Hx _ IH]; cbn [sumZ foldr List.filter]; [lia |].
  fold (sumZ f l). destruct (p x); cbn [sumZ foldr];
    fold (sumZ f (List.filter p l)); lia.
Qed.

Lemma Forall_filter_bool {A} (P : A -> Prop) (p : A -> bool) (l : list A) :
  Forall P l -> Forall P (List.filter p l).
Proof.
  induction 1 as [|x l Hx _ IH]; cbn [List.filter]; [constructor |].
  destruct (p x); [constructor |]; assumption.
Qed.

(** C3.  A session of ten questions, each worth 3 points and charged 1
    point when wrong, with six answered rightly, two wrongly and two left
    unanswered, scored with negative marking: 30 total points, 18 earned,
    2 negative, net score 16, percentage round(16/30*100) = 53, grade C+,
    and not passed against a passing percentage of 65. *)
Theorem calculateScore_six_two_two (d : Test.t) :
  length (Test.questions d) = 10%nat ->
  Forall (fun q => Test.Slot.points q = 3) (Test.questions d) ->
  Forall (fun q => Test.Slot.negativePoints q = 1) (Test.questions d) ->
  count answered_correct (Test.questions d) = 6 ->
  count answered_wrong (Test.questions d) = 2 ->
  count unanswered (Test.questions d) = 2 ->
  Test.Config.negativeMarking (Test.testConfig d) = true ->
  Test.Config.passingPercentage (Test.testConfig d) = 65 ->
  let d' := Test.calculateScore d in
  let s := Test.score d' in
  Test.Score.totalPoints s = 30
  /\ Test.Score.pointsEarned s = 18
  /\ Test.Score.negativePoints s = 2
  /\ Test.Score.netScore s = 16
  /\ Test.Score.percentage s = JS.Num (JS.Math_round (16 / 30 * 100)%Q)
  /\ Test.Score.percentage s = JS.Num 53
  /\ Test.Score.grade s = "C+"%string
  /\ Test.isPassed d' = false.
Proof.
  intros Hlen Hp Hn Hc Hw Hu Hnm Hpass d' s.
  assert (Hs : s = Test.compute_score true (Test.questions d)).
  { unfold s, d', Test.calculateScore. rewrite Hnm. reflexivity. }
  assert (Htp : sumZ Test.Slot.points (Test.questions d) = 30).
  { rewrite (sumZ_const _ 3) by assumption. rewrite Hlen. reflexivity. }
  assert (Hpe : sumZ Test.Slot.points
                  (List.filter answered_correct (Test.questions d)) = 18).
  { rewrite (sumZ_const _ 3) by (apply Forall_filter_bool; assumption).
    unfold count in Hc. rewrite Hc. reflexivity. }
  assert (Hnp : sumZ Test.Slot.negativePoints
                  (List.filter answered_wrong (Test.questions d)) = 2).
  { rewrite (sumZ_const _ 1) by (apply Forall_filter_bool; assumption).
    unfold count in Hw. rewrite Hw. reflexivity. }
  assert (Hisp : Test.isPassed d'
                 = JS.geb (Test.Score.percentage s) (JS.Num 65)).
  { unfold s, d', Test.calculateScore. cbn. rewrite Hpass. reflexivity. }
  rewrite Hisp, Hs. unfold Test.compute_score.
  rewrite tally_questions_eq, Htp, Hpe, Hnp.
  cbn [Test.Score.totalPoints Test.Score.pointsEarned
       Test.Score.negativePoints Test.Score.netScore Test.Score.percentage
       Test.Score.grade Test.t_totalPoints Test.t_pointsEarned
       Test.t_negativePoints].
  repeat split; reflexivity.
Qed.

(** The session built by ten fresh slots and eight recorded answers is an
    instance. *)
Lemma calculateScore_six_two_two_witness :
  Test.Score.percentage (Test.score (Test.calculateScore six_two_two)) = JS.Num 53
  /\ Test.Score.grade (Test.score (Test.calculateScore six_two_two)) = "C+"%string
  /\ Test.isPassed (Test.calculateScore six_two_two) = false.
Proof.
  pose proof (calculateScore_six_two_two six_two_two) as H.
  cbv zeta in H.
  destruct H as (_ & _ & _ & _ & _ & Hp & Hg & Hi);
    [ reflexivity
    | apply (bool_decide_unpack _); vm_compute; exact I
    | apply (bool_decide_unpack _); vm_compute; exact I
    | reflexivity | reflexivity | reflexivity | reflexivity | reflexivity | ].
  exact (conj Hp (conj Hg Hi)).
Defined.

(** The percentage is the rounded ratio, computed in doubles, whenever the
    total is not zero. *)
Lemma percentage_formula (nm : bool) (qs : list Test.Slot.t) :
  let s := Test.compute_score nm qs in
  Test.Score.netScore s
    = Test.Score.pointsEarned s - Test.Score.negativePoints s
  /\ Test.Score.percentage s
     = JS.round_percent (Test.Score.netScore s) (Test.Score.totalPoints s)
  /\ (Test.Score.totalPoints s <> 0 ->
      Test.Score.percentage s
      = JS.Num (JS.Math_round
                  (JS.percent (Test.Score.netScore s)
                     (Test.Score.totalPoints s)))).
Proof.
  cbn zeta. split; [reflexivity |]. split; [reflexivity |].
  intros H. apply round_percent_Num. exact H.
Qed.

(** With a total of zero the percentage is never an integer: the division
    is not guarded. *)
Lemma percentage_zero_total (nm : bool) (qs : list Test.Slot.t) (z : Z) :
  Test.Score.totalPoints (Test.compute_score nm qs) = 0 ->
  Test.Score.percentage (Test.compute_score nm qs) <> JS.Num z.
Proof.
  intros H. destruct (percentage_formula nm qs) as (_ & -> & _).
  rewrite H. unfold JS.round_percent. cbn.
  destruct (_ =? 0); [discriminate |]. destruct (0 <? _); discriminate.
Qed.

(** C5.  The scoring engine at a total of zero points: the percentage of a
    session without questions, and of a session whose only question
    carries no points, is [NaN] (and [-Infinity] once that question is
    answered wrongly), not 0; the grade is then F and the session is not
    passed. *)
Theorem calculateScore_zero_total_not_guarded :
  Test.Score.totalPoints (Test.compute_score true []) = 0
  /\ Test.Score.percentage (Test.compute_score true []) = JS.NaN
  /\ Test.Score.percentage (Test.score (Test.calculateScore (session_of [])))
     = JS.NaN
  /\ Test.Score.grade (Test.score (Test.calculateScore (session_of [])))
     = "F"%string
  /\ Test.isPassed (Test.calculateScore (session_of [])) = false
  /\ Test.Score.percentage (Test.score (Test.calculateScore no_points)) = JS.NaN
  /\ Test.Score.percentage (Test.score (Test.calculateScore no_points_wrong))
     = JS.NegInf.
Proof. repeat split; reflexivity. Qed.

(** C6, as stated, fails: a session whose single question is answered
    wrongly under negative marking has the percentage -33. *)
Lemma percentage_bound_counterexample :
  Test.Score.percentage (Test.score (Test.calculateScore all_wrong)) = JS.Num (-33)
  /\ ~ percentage_within 0 100 (Test.score (Test.calculateScore all_wrong)).
Proof.
  split; [reflexivity |].
  intros (p & Hp & Hle). vm_compute in Hp. injection Hp as <-. lia.
Qed.

(** C6, amended.  When the questions carry non-negative points and
    penalties and the total is positive, the percentage is an integer at
    most 100; it is at least 0 when the net score is not negative, which is
    the case whenever negative marking is off. *)
Theorem percentage_upper_bound (d : Test.t) :
  Forall (fun q => 0 <= Test.Slot.points q) (Test.questions d) ->
  Forall (fun q => 0 <= Test.Slot.negativePoints q) (Test.questions d) ->
  0 < sumZ Test.Slot.points (Test.questions d) ->
  let s := Test.score (Test.calculateScore d) in
  exists p,
    Test.Score.percentage s = JS.Num p
    /\ p <= 100
    /\ (0 <= Test.Score.netScore s -> 0 <= p)
    /\ (Test.Config.negativeMarking (Test.testConfig d) = false -> 0 <= p).
Proof.
  intros Hp Hn Htot s.
  set (nm := Test.Config.negativeMarking (Test.testConfig d)).
  assert (Hs : s = Test.compute_score nm (Test.questions d)) by reflexivity.
  pose proof (tally_questions_eq nm (Test.questions d)) as Ht.
  assert (Htp : Test.Score.totalPoints s = sumZ Test.Slot.points (Test.questions d)).
  { rewrite Hs. unfold Test.compute_score. rewrite Ht. reflexivity. }
  assert (Hpe : Test.Score.pointsEarned s
                = sumZ Test.Slot.points
                    (List.filter answered_correct (Test.questions d))).
  { rewrite Hs. unfold Test.compute_score. rewrite Ht. reflexivity. }
  assert (Hnp : Test.Score.negativePoints s
                = if nm then sumZ Test.Slot.negativePoints
                               (List.filter answered_wrong (Test.questions d))
                  else 0).
  { rewrite Hs. unfold Test.compute_score. rewrite Ht. reflexivity. }
  destruct (percentage_formula nm (Test.questions d)) as (Hnet & Hpct & _).
  rewrite <- Hs in Hnet, Hpct.
  pose proof (sumZ_filter_le Test.Slot.points answered_correct _ Hp) as Hle.
  pose proof (sumZ_nonneg Test.Slot.negativePoints _
                (Forall_filter_bool _ answered_wrong _ Hn)) as Hnn.
  pose proof (sumZ_nonneg Test.Slot.points _
                (Forall_filter_bool _ answered_correct _ Hp)) as Hpn.
  assert (Hnet_le : Test.Score.netScore s <= Test.Score.totalPoints s).
  { rewrite Hnet, Hpe, Hnp, Htp. destruct nm; lia. }
  assert (Htot' : 0 < Test.Score.totalPoints s) by (rewrite Htp; exact Htot).
  destruct (round_percent_le_100 _ _ Htot' Hnet_le) as (p & Hpp & Hp100).
  exists p. rewrite Hpct. split; [exact Hpp |]. split; [exact Hp100 |].
  assert (Hpos : 0 <= Test.Score.netScore s -> 0 <= p).
  { intros H0.
    destruct (round_percent_ge_0 _ _ Htot' H0) as (p' & Hpp' & Hp0).
    rewrite Hpp in Hpp'. injection Hpp' as ->. exact Hp0. }
  split; [exact Hpos |].
  intros Hoff. apply Hpos. rewrite Hnet, Hpe, Hnp.
  fold nm in Hoff. rewrite Hoff. lia.
Qed.

(** The all-wrong session is within the upper bound. *)
Lemma percentage_upper_bound_witness :
  exists p,
    Test.Score.percentage (Test.score (Test.calculateScore all_wrong)) = JS.Num p
    /\ p <= 100.
Proof.
  destruct (percentage_upper_bound all_wrong) as (p & Hp & Hle & _).
  - apply (bool_decide_unpack _); vm_compute; exact I.
  - apply (bool_decide_unpack _); vm_compute; exact I.
  - vm_compute. reflexivity.
  - exists p. split; assumption.
Defined.

End ScoringEngine.

(** ** The eligibility gate *)

Section EligibilityGate.

Import Eligibility.

(** C7.  [canAttemptTest] rejects with the reason of the first failing rule
    in the order: blocked until a future instant, already qualified,
    attempts at the maximum (5 unless configured), less than 24 hours
    since the last attempt; it accepts when no rule fails.  A record with
    five attempts out of five, not qualified and not blocked, is rejected
    with the maximum-attempts reason, and a record failing every rule gets
    the blocked reason. *)
Theorem canAttemptTest_priority (env : Env) (now : Z) (u : User.t) :
  User.reason (User.canAttemptTest env now u)
    = User.first_failing (User.rules env now) (User.testInfo u)
  /\ User.canAttempt (User.canAttemptTest env now u)
     = match User.first_failing (User.rules env now) (User.testInfo u) with
       | None => true
       | Some _ => false
       end
  /\ JS.parseInt_or (MAX_ATTEMPTS default_env) 5 = 5
  /\ (forall id last best qualifiedAt why,
        User.canAttemptTest (env_max None) now
          (five_attempts id last best qualifiedAt why)
        = User.mkEligibility false (Some "Maximum attempts reached"%string)
        /\ User.canAttemptTest (env_max (Some 5)) now
             (five_attempts id last best qualifiedAt why)
           = User.mkEligibility false (Some "Maximum attempts reached"%string))
  /\ User.canAttemptTest default_env 100 fails_all
     = User.mkEligibility false (Some "Account is temporarily blocked"%string).
Proof.
  assert (Hgen :
    User.canAttemptTest env now u
    = match User.first_failing (User.rules env now) (User.testInfo u) with
      | Some why => User.mkEligibility false (Some why)
      | None => User.mkEligibility true None
      end).
  { unfold User.canAttemptTest, User.rules, User.first_failing,
      User.rule_blocked, User.rule_qualified, User.rule_max_attempts,
      User.rule_cooldown.
    destruct (User.blockedUntil (User.testInfo u)) as [b|];
      [destruct (now <? b); [reflexivity |] |];
      (destruct (User.hasQualified (User.testInfo u)); [reflexivity |]);
      (destruct (_ <=? User.totalAttempts (User.testInfo u)); [reflexivity |]);
      (destruct (User.lastAttemptDate (User.testInfo u)) as [last|];
         [destruct (Qlt_le_dec _ 24) |]; reflexivity). }
  rewrite Hgen.
  split; [destruct (User.first_failing _ _); reflexivity |].
  split; [destruct (User.first_failing _ _); reflexivity |].
  split; [reflexivity |].
  split; [intros; split; reflexivity | reflexivity].
Qed.

End EligibilityGate.

(** ** The proctoring monitor *)

Section ProctoringMonitor.

Import Monitor.

Lemma count_severity_app (s : ProctoringService.severity_t)
    (l : list ProctoringService.violation) (v : ProctoringService.violation) :
  ProctoringService.count_severity s (l ++ [v])
  = ProctoringService.count_severity s l
    + (if bool_decide (ProctoringService.severity v = s) then 1 else 0).
Proof.
  unfold ProctoringService.count_severity.
  rewrite List.filter_app, length_app. cbn [List.filter].
  destruct (bool_decide _); cbn [length]; lia.
Qed.

(** The outcome for a known session, with the counts after the append. *)
Lemma recordViolation_found (svc : ProctoringService.t) (now : Z)
    (testId violationType : string) (s : ProctoringService.session) :
  ProctoringService.activeTestSessions svc !! testId = Some s ->
  let sev := ProctoringService.getViolationSeverity violationType in
  let v := ProctoringService.mkViolation violationType now sev in
  let s' := ProctoringService.mkSession (ProctoringService.testId s)
              (ProctoringService.userId s) (ProctoringService.startTime s)
              (ProctoringService.violations s ++ [v])
              (ProctoringService.isActive s) in
  let r := ProctoringService.recordViolation now testId violationType svc in
  ProctoringService.activeTestSessions (fst r)
    = <[testId := s']> (ProctoringService.activeTestSessions svc)
  /\ ProctoringService.violationThreshold (fst r)
     = ProctoringService.violationThreshold svc
  /\ exists o,
       snd r = Some o
       /\ ProctoringService.recorded o = v
       /\ ProctoringService.shouldTerminate o
          = (2 <=? ProctoringService.count_severity ProctoringService.critical
                     (ProctoringService.violations s)
                   + bump (bool_decide (sev = ProctoringService.critical)))
            || (ProctoringService.violationThreshold svc
                <=? ProctoringService.count_severity ProctoringService.major
                      (ProctoringService.violations s)
                    + bump (bool_decide (sev = ProctoringService.major))).
Proof.
  intros Hs sev v s' r. unfold r, ProctoringService.recordViolation.
  rewrite Hs. cbn [fst snd ProctoringService.activeTestSessions
                   ProctoringService.violationThreshold].
  split; [reflexivity |]. split; [reflexivity |].
  eexists. split; [reflexivity |].
  cbn [ProctoringService.recorded ProctoringService.shouldTerminate].
  split; [reflexivity |].
  rewrite !count_severity_app. reflexivity.
Qed.

(** C8.  For a session the service knows, [recordViolation] appends the
    event and reports [shouldTerminate] exactly when, counting the new
    event, the critical violations are at least 2 or the major ones at
    least [violationThreshold] (3 unless configured).  On a session with no
    critical violation and fewer major ones than the threshold, two
    critical violations in sequence are reported [false] then [true]. *)
Theorem recordViolation_threshold (svc : ProctoringService.t) (now : Z)
    (testId violationType : string) (s : ProctoringService.session) :
  ProctoringService.activeTestSessions svc !! testId = Some s ->
  let r := ProctoringService.recordViolation now testId violationType svc in
  (exists o s',
      snd r = Some o
      /\ ProctoringService.violationThreshold (fst r)
         = ProctoringService.violationThreshold svc
      /\ ProctoringService.activeTestSessions (fst r) !! testId = Some s'
      /\ ProctoringService.violations s'
         = ProctoringService.violations s ++ [ProctoringService.recorded o]
      /\ ProctoringService.type (ProctoringService.recorded o) = violationType
      /\ ProctoringService.severity (ProctoringService.recorded o)
         = ProctoringService.getViolationSeverity violationType
      /\ (ProctoringService.shouldTerminate o = true <->
          2 <= ProctoringService.count_severity ProctoringService.critical
                 (ProctoringService.violations s')
          \/ ProctoringService.violationThreshold svc
             <= ProctoringService.count_severity ProctoringService.major
                  (ProctoringService.violations s')))
  /\ ProctoringService.violationThreshold (ProctoringService.new default_env) = 3
  /\ (forall now2 violationType2,
        ProctoringService.getViolationSeverity violationType
          = ProctoringService.critical ->
        ProctoringService.getViolationSeverity violationType2
          = ProctoringService.critical ->
        ProctoringService.count_severity ProctoringService.critical
          (ProctoringService.violations s) = 0 ->
        ProctoringService.count_severity ProctoringService.major
          (ProctoringService.violations s)
          < ProctoringService.violationThreshold svc ->
        outcome_of r = Some false
        /\ outcome_of
             (ProctoringService.recordViolation now2 testId violationType2 (fst r))
           = Some true).
Proof.
  intros Hs r.
  destruct (recordViolation_found svc now testId violationType s Hs)
    as (Hmap & Hthr & o & Ho & Hrec & Hst).
  fold r in Hmap, Hthr, Ho.
  split; [| split; [reflexivity |]].
  - eexists o, _. split; [exact Ho |]. split; [exact Hthr |].
    split; [rewrite Hmap; apply lookup_insert_eq |].
    rewrite Hrec. cbn [ProctoringService.violations ProctoringService.type
                       ProctoringService.severity].
    split; [reflexivity |]. split; [reflexivity |]. split; [reflexivity |].
    rewrite Hst, orb_true_iff, !Z.leb_le, !count_severity_app.
    cbn [ProctoringService.severity]. reflexivity.
  - intros now2 ty2 Hc1 Hc2 Hcrit Hmaj.
    assert (Hfirst : outcome_of r = Some false).
    { unfold outcome_of. rewrite Ho. cbn [fmap option_fmap option_map]. f_equal.
      rewrite Hst, Hc1, Hcrit. apply orb_false_iff.
      split; [reflexivity |]. apply Z.leb_gt. unfold bump.
      rewrite bool_decide_eq_false_2 by discriminate. lia. }
    split; [exact Hfirst |].
    assert (Hs2 : ProctoringService.activeTestSessions (fst r) !! testId
                  = Some (ProctoringService.mkSession
                            (ProctoringService.testId s)
                            (ProctoringService.userId s)
                            (ProctoringService.startTime s)
                            (ProctoringService.violations s
                             ++ [ProctoringService.mkViolation violationType now
                                   (ProctoringService.getViolationSeverity
                                      violationType)])
                            (ProctoringService.isActive s))).
    { rewrite Hmap. apply lookup_insert_eq. }
    destruct (recordViolation_found (fst r) now2 testId ty2 _ Hs2)
      as (_ & _ & o2 & Ho2 & _ & Hst2).
    unfold outcome_of. rewrite Ho2. cbn [fmap option_fmap option_map]. f_equal.
    rewrite Hst2. cbn [ProctoringService.violations].
    rewrite !count_severity_app. cbn [ProctoringService.severity].
    rewrite Hc1, Hc2, Hcrit. reflexivity.
Qed.

(** Two critical violations on a session just started, with the default
    threshold. *)
Lemma recordViolation_threshold_witness :
  outcome_of (ProctoringService.recordViolation 2000 "TEST000001001"
                "copy_paste" one_session) = Some false
  /\ outcome_of
       (ProctoringService.recordViolation 3000 "TEST000001001" "multiple_faces"
          (fst (ProctoringService.recordViolation 2000 "TEST000001001"
                  "copy_paste" one_session))) = Some true.
Proof.
  refine (proj2 (proj2
    (recordViolation_threshold one_session 2000 "TEST000001001" "copy_paste"
       (ProctoringService.mkSession "TEST000001001" 7 1000 [] true) _))
    3000 "multiple_faces"%string _ _ _ _).
  - vm_compute. reflexivity.
  - reflexivity.
  - reflexivity.
  - reflexivity.
  - vm_compute. reflexivity.
Defined.

End ProctoringMonitor.

(** ** The question selector *)

Section QuestionSelector.

Import Selector.

Lemma bfilter_eq {A} (p : A -> bool) (l : list A) :
  List.filter p l = filter (fun x => p x = true) l.
Proof.
  induction l as [|x l IH]; [reflexivity |].
  cbn [List.filter]. rewrite filter_cons, IH.
  destruct (p x); destruct (decide _); congruence.
Qed.

Lemma bfilter_elem {A} (p : A -> bool) (l : list A) (x : A) :
  x ∈ List.filter p l <-> p x = true /\ x ∈ l.
Proof.
  rewrite bfilter_eq.
  exact (list_elem_of_filter (fun y => p y = true) l x).
Qed.

Lemma bfilter_NoDup {A} (p : A -> bool) (l : list A) :
  NoDup l -> NoDup (List.filter p l).
Proof. rewrite bfilter_eq. apply NoDup_filter. Qed.

Lemma bfilter_all {A} (p : A -> bool) (l : list A) :
  (forall x, x ∈ l -> p x = true) -> List.filter p l = l.
Proof.
  induction l as [|x l IH]; intros H; [reflexivity |].
  cbn [List.filter]. rewrite (H x) by left. f_equal.
  apply IH. intros y Hy. apply H. right. exact Hy.
Qed.

Lemma bfilter_none {A} (p : A -> bool) (l : list A) :
  (forall x, x ∈ l -> p x = false) -> List.filter p l = [].
Proof.
  induction l as [|x l IH]; intros H; [reflexivity |].
  cbn [List.filter]. rewrite (H x) by left.
  apply IH. intros y Hy. apply H. right. exact Hy.
Qed.

Lemma bfilter_perm_length {A} (p : A -> bool) (l k : list A) :
  l ≡ₚ k -> length (List.filter p l) = length (List.filter p k).
Proof. intros H. rewrite !bfilter_eq, H. reflexivity. Qed.

(** *** The random order *)

Lemma shuffle_fuel_perm {A} (fuel : nat) (l : list A) (rnd : Random.tape) :
  length l = fuel -> fst (Random.shuffle_fuel fuel l rnd) ≡ₚ l.
Proof.
  revert l rnd. induction fuel as [|fuel IH]; intros l rnd Hlen.
  - destruct l; [reflexivity | discriminate].
  - cbn [Random.shuffle_fuel].
    assert (Hi : (hd 0 rnd mod length l < length l)%nat)
      by (apply Nat.mod_upper_bound; lia).
    destruct (lookup_lt_is_Some_2 l _ Hi) as [x Hx]. rewrite Hx.
    specialize (IH (delete (hd 0 rnd mod length l)%nat l) (tl rnd)).
    destruct (Random.shuffle_fuel fuel _ (tl rnd)) as [rest rnd'].
    cbn [fst] in *. rewrite IH.
    + symmetry. apply delete_Permutation. exact Hx.
    + rewrite length_delete by (exists x; exact Hx). lia.
Qed.

Lemma shuffle_perm {A} (l : list A) (rnd : Random.tape) :
  fst (Random.shuffle l rnd) ≡ₚ l.
Proof. apply shuffle_fuel_perm. reflexivity. Qed.

(** No order is left out: every permutation of [l] is the random order of
    some tape of bounded choices. *)
Lemma shuffle_any {A} (l l' : list A) :
  l' ≡ₚ l ->
  exists rnd, choices (length l) rnd /\ fst (Random.shuffle l rnd) = l'.
Proof.
  unfold Random.shuffle. revert l.
  induction l' as [|x l' IH]; intros l Hperm.
  - apply Permutation_nil in Hperm. subst l. exists []. split; [exact I |].
    reflexivity.
  - assert (Hx : x ∈ l) by (rewrite <- Hperm; left).
    apply list_elem_of_lookup in Hx as [i Hi].
    pose proof (lookup_lt_Some _ _ _ Hi) as Hlt.
    assert (Hrest : l' ≡ₚ delete i l).
    { apply (Permutation_cons_inv (a := x)).
      rewrite Hperm. apply delete_Permutation. exact Hi. }
    destruct (IH _ Hrest) as (rnd & Hch & Hrnd).
    exists (i :: rnd). destruct l as [|y l]; [cbn in Hlt; lia |].
    rewrite length_delete in Hch, Hrnd by (exists x; exact Hi).
    cbn [length] in Hch, Hrnd, Hlt. rewrite Nat.sub_1_r in Hch, Hrnd.
    cbn [Nat.pred] in Hch, Hrnd.
    split; [cbn [length choices]; split; [exact Hlt | exact Hch] |].
    cbn [length Random.shuffle_fuel hd tl].
    rewrite Nat.mod_small by exact Hlt. rewrite Hi.
    destruct (Random.shuffle_fuel (length l) (delete i (y :: l)) rnd).
    cbn [fst] in *. rewrite Hrnd. reflexivity.
Qed.

Lemma choices_length (n : nat) (rnd : Random.tape) :
  choices n rnd -> length rnd = n.
Proof.
  revert rnd. induction n as [|n IH]; intros [|i rnd] H; cbn in H;
    try contradiction; [reflexivity |].
  cbn [length]. f_equal. apply IH, H.
Qed.

(** No order comes twice: two tapes of bounded choices that give the same
    order of a list without repetition are the same tape. *)
Lemma shuffle_inj {A} (l : list A) (r1 r2 : Random.tape) :
  NoDup l -> choices (length l) r1 -> choices (length l) r2 ->
  fst (Random.shuffle l r1) = fst (Random.shuffle l r2) -> r1 = r2.
Proof.
  unfold Random.shuffle. remember (length l) as n eqn:Hn.
  revert l r1 r2 Hn. induction n as [|n IH]; intros l r1 r2 Hn Hnd H1 H2.
  - destruct r1, r2; cbn in H1, H2; try contradiction. reflexivity.
  - destruct r1 as [|i1 r1], r2 as [|i2 r2]; cbn in H1, H2; try contradiction.
    destruct H1 as [Hi1 H1], H2 as [Hi2 H2].
    cbn [Random.shuffle_fuel hd tl]. rewrite <- Hn.
    rewrite !Nat.mod_small by assumption.
    destruct (lookup_lt_is_Some_2 l i1 ltac:(lia)) as [x1 Hx1].
    destruct (lookup_lt_is_Some_2 l i2 ltac:(lia)) as [x2 Hx2].
    rewrite Hx1, Hx2.
    destruct (Random.shuffle_fuel n (delete i1 l) r1) as [o1 t1] eqn:E1.
    destruct (Random.shuffle_fuel n (delete i2 l) r2) as [o2 t2] eqn:E2.
    cbn [fst]. intros Heq.
    assert (Hx : x1 = x2) by congruence.
    assert (Ho : o1 = o2) by congruence.
    subst x2 o2.
    assert (Hi : i1 = i2) by (eapply NoDup_lookup; eassumption).
    subst i2. f_equal.
    apply (IH (delete i1 l)); try assumption.
    + rewrite length_delete by (exists x1; exact Hx1). lia.
    + eapply sublist_NoDup; [exact Hnd | apply sublist_delete].
    + rewrite E1, E2. reflexivity.
Qed.

(** An order reads as many numbers as the list is long, and leaves the
    rest of the tape. *)
Lemma shuffle_app {A} (l : list A) (seg rest : Random.tape) :
  length seg = length l ->
  Random.shuffle l (seg ++ rest) = (fst (Random.shuffle l seg), rest).
Proof.
  unfold Random.shuffle. remember (length l) as n eqn:Hn.
  revert l seg Hn. induction n as [|n IH]; intros l seg Hn Hseg.
  - destruct seg; [reflexivity | discriminate].
  - destruct seg as [|i seg]; [discriminate |].
    cbn [app Random.shuffle_fuel hd tl].
    assert (Hi : (i mod length l < length l)%nat)
      by (apply Nat.mod_upper_bound; lia).
    destruct (lookup_lt_is_Some_2 l _ Hi) as [x Hx]. rewrite Hx.
    rewrite (IH (delete (i mod length l)%nat l) seg).
    + destruct (Random.shuffle_fuel n _ seg). reflexivity.
    + rewrite length_delete by (exists x; exact Hx). lia.
    + cbn [length] in Hseg. lia.
Qed.

(** *** [$sample] *)

Lemma sample_spec (docs : list Question.t) (size : Z) (rnd : Random.tape) :
  0 <= size ->
  exists l rnd',
    Question.sample docs size rnd = Some (l, rnd')
    /\ l ⊆+ docs
    /\ length l = Nat.min (Z.to_nat size) (length docs).
Proof.
  intros Hsize. unfold Question.sample.
  destruct (Z.ltb_spec size 0); [lia |].
  pose proof (shuffle_perm docs rnd) as Hperm.
  destruct (Random.shuffle docs rnd) as [l rnd']. cbn [fst] in Hperm.
  eexists _, _. split; [reflexivity |]. split.
  - rewrite <- Hperm. apply sublist_submseteq, sublist_take.
  - rewrite length_take, Hperm. reflexivity.
Qed.

Lemma needed_nonneg (count percentage : Z) :
  0 <= count -> 0 <= percentage -> 0 <= needed count percentage.
Proof.
  intros Hc Hp. unfold needed. change 0 with (JS.Math_round 0) at 1.
  apply Math_round_mono.
  unfold Qle, Qdiv, Qmult, Qinv, inject_Z. cbn. nia.
Qed.

Lemma submseteq_NoDup_l {A} (l k : list A) : l ⊆+ k -> NoDup k -> NoDup l.
Proof.
  intros Hsub Hk. destruct (submseteq_Permutation _ _ Hsub) as [r Hr].
  rewrite Hr in Hk. apply NoDup_app in Hk. tauto.
Qed.

Lemma of_difficulty_true (d : string) (q : Question.t) :
  Question.of_difficulty d q = true <-> Question.difficulty q = d.
Proof. unfold Question.of_difficulty. apply bool_decide_eq_true. Qed.

Lemma of_difficulty_false (d : string) (q : Question.t) :
  Question.of_difficulty d q = false <-> Question.difficulty q <> d.
Proof. unfold Question.of_difficulty. apply bool_decide_eq_false. Qed.

(** *** The loop over the difficulty buckets *)

Lemma draw_buckets_spec (pool : list Question.t) (count : Z)
    (entries : list (string * Z)) :
  NoDup pool -> 0 <= count ->
  Forall (fun e => 0 <= e.2) entries ->
  NoDup entries.*1 ->
  forall questions rnd,
  exists drawn rnd',
    Question.draw_buckets pool count entries questions rnd
      = Some (questions ++ drawn, rnd')
    /\ NoDup drawn
    /\ (forall q, q ∈ drawn ->
          q ∈ pool /\ Question.difficulty q ∈ entries.*1)
    /\ Forall
         (fun e =>
            length (List.filter (Question.of_difficulty e.1) drawn)
            = Nat.min (Z.to_nat (needed count e.2))
                (length (List.filter (Question.of_difficulty e.1) pool)))
         entries.
Proof.
  intros Hpool Hcount Hpct Hkeys.
  induction entries as [|[d p] entries IH]; intros questions rnd.
  - exists [], rnd. cbn [Question.draw_buckets Question.ret].
    rewrite app_nil_r. split; [reflexivity |]. split; [constructor |].
    split; [intros q Hq; inversion Hq | constructor].
  - apply Forall_cons in Hpct as [Hp Hpct]. cbn [snd] in Hp.
    cbn [fmap list_fmap fst] in Hkeys. apply NoDup_cons in Hkeys as [Hd Hkeys].
    specialize (IH Hpct Hkeys).
    cbn [Question.draw_buckets]. unfold Question.bind. fold (needed count p).
    destruct (sample_spec (List.filter (Question.of_difficulty d) pool)
                (needed count p) rnd (needed_nonneg _ _ Hcount Hp))
      as (b & rnd1 & -> & Hsub & Hlen).
    destruct (IH (questions ++ b) rnd1) as (drawn & rnd' & -> & Hnd & Hin & Hcnt).
    assert (Hb : forall q, q ∈ b -> q ∈ pool /\ Question.difficulty q = d).
    { intros q Hq. apply (elem_of_submseteq _ _ _ Hq) in Hsub.
      apply bfilter_elem in Hsub as [Hdq Hqp].
      apply of_difficulty_true in Hdq. tauto. }
    exists (b ++ drawn), rnd'. rewrite app_assoc.
    split; [reflexivity |]. split; [| split].
    + apply NoDup_app. split; [| split; [| exact Hnd]].
      * eapply submseteq_NoDup_l; [exact Hsub |].
        apply bfilter_NoDup. exact Hpool.
      * intros q Hq1 Hq2. apply Hb in Hq1 as [_ <-].
        apply Hin in Hq2 as [_ Hq2]. contradiction.
    + intros q Hq. apply elem_of_app in Hq as [Hq | Hq].
      * apply Hb in Hq as [Hqp <-]. split; [exact Hqp | left].
      * apply Hin in Hq as [Hqp Hqd]. split; [exact Hqp | right; exact Hqd].
    + constructor.
      * cbn [fst snd]. rewrite List.filter_app, length_app.
        rewrite (bfilter_all _ b), (bfilter_none _ drawn), Hlen; [cbn; lia | |].
        -- intros q Hq. apply of_difficulty_false. intros Heq.
           apply Hin in Hq as [_ Hq]. rewrite Heq in Hq. contradiction.
        -- intros q Hq. apply of_difficulty_true. apply Hb in Hq. tauto.
      * rewrite Forall_forall in Hcnt |- *. intros e He.
        rewrite List.filter_app, length_app, (bfilter_none _ b);
          [cbn [length]; rewrite Nat.add_0_l; apply Hcnt; exact He |].
        intros q Hq. apply of_difficulty_false. apply Hb in Hq as [_ ->].
        intros ->. apply Hd. apply list_elem_of_fmap. exists e. tauto.
Qed.

(** *** The fill of a short draw *)

Lemma unused_length (pool qs : list Question.t) :
  NoDup (Question._id <$> pool) -> NoDup qs ->
  (forall q, q ∈ qs -> q ∈ pool) ->
  length (List.filter (Question.not_used (Question._id <$> qs)) pool)
  = (length pool - length qs)%nat.
Proof.
  intros Hids Hqs Hin.
  destruct (submseteq_Permutation _ _ (NoDup_submseteq _ _ Hqs Hin)) as [k Hk].
  rewrite (bfilter_perm_length _ _ _ Hk), Hk, List.filter_app, !length_app.
  rewrite Hk, fmap_app in Hids. apply NoDup_app in Hids as (_ & Hdisj & _).
  rewrite (bfilter_none _ qs), (bfilter_all _ k); [cbn [length]; lia | |].
  - intros x Hx. unfold Question.not_used. apply negb_true_iff.
    apply bool_decide_eq_false. intros Hid.
    apply (Hdisj _ Hid). apply list_elem_of_fmap_2. exact Hx.
  - intros x Hx. unfold Question.not_used. apply negb_false_iff.
    apply bool_decide_eq_true. apply list_elem_of_fmap_2. exact Hx.
Qed.

Lemma fill_remaining_spec (pool : list Question.t) (count : Z)
    (questions : list Question.t) (rnd : Random.tape) :
  NoDup (Question._id <$> pool) -> NoDup questions ->
  (forall q, q ∈ questions -> q ∈ pool) ->
  exists fill rnd',
    Question.fill_remaining pool count questions rnd
      = Some (questions ++ fill, rnd')
    /\ NoDup fill
    /\ (forall q, q ∈ fill -> q ∈ pool /\ q ∉ questions)
    /\ length fill
       = if Z.of_nat (length questions) <? count
         then Nat.min (Z.to_nat (count - Z.of_nat (length questions)))
                (length pool - length questions)
         else 0%nat.
Proof.
  intros Hids Hnd Hin. unfold Question.fill_remaining.
  destruct (Z.ltb_spec (Z.of_nat (length questions)) count) as [Hlt | Hge].
  - unfold Question.bind.
    destruct (sample_spec
                (List.filter (Question.not_used (Question._id <$> questions)) pool)
                (count - Z.of_nat (length questions)) rnd ltac:(lia))
      as (fill & rnd' & -> & Hsub & Hlen).
    exists fill, rnd'. split; [reflexivity |]. split; [| split].
    + eapply submseteq_NoDup_l; [exact Hsub |].
      apply bfilter_NoDup. eapply NoDup_fmap_1. exact Hids.
    + intros q Hq. apply (elem_of_submseteq _ _ _ Hq) in Hsub.
      apply bfilter_elem in Hsub as [Hu Hqp]. split; [exact Hqp |].
      intros Hqq. unfold Question.not_used in Hu.
      apply negb_true_iff, bool_decide_eq_false in Hu. apply Hu.
      apply list_elem_of_fmap_2. exact Hqq.
    + rewrite Hlen, unused_length by assumption. reflexivity.
  - exists [], rnd. rewrite app_nil_r. split; [reflexivity |].
    split; [constructor |]. split; [intros q Hq; inversion Hq | reflexivity].
Qed.

(** *** The selector *)

Lemma eligible_elem (cats : list string) (excl : list nat)
    (bank : list Question.t) (q : Question.t) :
  q ∈ Question.eligible cats excl bank <->
  q ∈ bank
  /\ Question.status q = "Active"%string
  /\ Question.isApproved q = true
  /\ (Question._id q ∉ excl)
  /\ (cats = [] \/ Question.category q ∈ cats).
Proof.
  unfold Question.eligible, Question.base_match. rewrite bfilter_elem.
  rewrite !andb_true_iff, orb_true_iff, negb_true_iff, bool_decide_eq_false,
    !bool_decide_eq_true. tauto.
Qed.

Lemma bfilter_ids_NoDup (p : Question.t -> bool) (l : list Question.t) :
  NoDup (Question._id <$> l) -> NoDup (Question._id <$> List.filter p l).
Proof.
  induction l as [|x l IH]; cbn [fmap list_fmap List.filter]; [tauto |].
  intros H. apply NoDup_cons in H as [Hx Hl]. specialize (IH Hl).
  destruct (p x); [| exact IH]. cbn [fmap list_fmap]. apply NoDup_cons.
  split; [| exact IH]. intros Hin. apply Hx.
  apply list_elem_of_fmap in Hin as (y & Hy & Hyin).
  apply bfilter_elem in Hyin as [_ Hyin].
  apply list_elem_of_fmap. exists y. tauto.
Qed.

(** *** Every selection can be drawn *)

Lemma sample_any (docs d : list Question.t) (size : Z) :
  0 <= size -> NoDup d -> (forall q, q ∈ d -> q ∈ docs) ->
  length d = Nat.min (Z.to_nat size) (length docs) ->
  exists seg,
    forall rest, Question.sample docs size (seg ++ rest) = Some (d, rest).
Proof.
  intros Hsize Hnd Hin Hlen.
  destruct (submseteq_Permutation _ _ (NoDup_submseteq _ _ Hnd Hin)) as [k Hk].
  destruct (shuffle_any docs (d ++ k)) as (seg & Hch & Hseg);
    [symmetry; exact Hk |].
  assert (Htake : take (Z.to_nat size) (d ++ k) = d).
  { assert (Hlk : length docs = (length d + length k)%nat)
      by (rewrite Hk, length_app; reflexivity).
    destruct (Nat.le_ge_cases (Z.to_nat size) (length docs)).
    - rewrite Nat.min_l in Hlen by assumption. rewrite <- Hlen.
      apply take_app_length.
    - rewrite Nat.min_r in Hlen by assumption.
      assert (Hknil : k = []) by (apply nil_length_inv; lia).
      subst k. rewrite app_nil_r. apply take_ge. lia. }
  exists seg. intros rest. unfold Question.sample.
  destruct (Z.ltb_spec size 0); [lia |].
  rewrite shuffle_app by (apply choices_length; exact Hch).
  rewrite Hseg, Htake. reflexivity.
Qed.

Lemma draw_buckets_any (pool : list Question.t) (count : Z)
    (entries : list (string * Z)) (draws : list (list Question.t)) :
  0 <= count -> Forall (fun e => 0 <= e.2) entries ->
  Forall2 (bucket_draw pool count) entries draws ->
  exists seg,
    forall questions rest,
      Question.draw_buckets pool count entries questions (seg ++ rest)
      = Some (questions ++ concat draws, rest).
Proof.
  intros Hcount Hpct H.
  induction H as [|[d p] dr entries draws (Hnd & Hin & Hlen) _ IH].
  - exists []. intros questions rest. cbn. rewrite app_nil_r. reflexivity.
  - apply Forall_cons in Hpct as [Hp Hpct]. cbn [fst snd] in *.
    destruct (IH Hpct) as [seg2 Hseg2].
    destruct (sample_any (List.filter (Question.of_difficulty d) pool) dr
                (needed count p)) as [seg1 Hseg1].
    + apply needed_nonneg; assumption.
    + exact Hnd.
    + intros q Hq. apply bfilter_elem. destruct (Hin q Hq) as [Hqp Hqd].
      split; [apply of_difficulty_true; exact Hqd | exact Hqp].
    + exact Hlen.
    + exists (seg1 ++ seg2). intros questions rest.
      cbn [Question.draw_buckets]. unfold Question.bind.
      fold (needed count p).
      rewrite <- app_assoc, Hseg1, Hseg2. cbn [concat].
      rewrite app_assoc. reflexivity.
Qed.

Lemma ids_inj (l : list Question.t) (x y : Question.t) :
  NoDup (Question._id <$> l) -> x ∈ l -> y ∈ l ->
  Question._id x = Question._id y -> x = y.
Proof.
  intros Hnd Hx Hy Heq.
  apply list_elem_of_lookup in Hx as [i Hi].
  apply list_elem_of_lookup in Hy as [j Hj].
  assert (Hij : i = j).
  { eapply (NoDup_lookup _ i j (Question._id x)); [exact Hnd | |].
    - rewrite list_lookup_fmap, Hi. reflexivity.
    - rewrite list_lookup_fmap, Hj, Heq. reflexivity. }
  subst j. congruence.
Qed.

Lemma fill_any (pool drawn fill : list Question.t) (count : Z) :
  NoDup (Question._id <$> pool) -> NoDup drawn ->
  (forall q, q ∈ drawn -> q ∈ pool) ->
  fill_draw pool count drawn fill ->
  exists seg,
    forall rest,
      Question.fill_remaining pool count drawn (seg ++ rest)
      = Some (drawn ++ fill, rest).
Proof.
  intros Hids Hnd Hin (Hfnd & Hfin & Hflen). unfold Question.fill_remaining.
  destruct (Z.ltb_spec (Z.of_nat (length drawn)) count) as [Hlt | Hge].
  - destruct (sample_any
                (List.filter (Question.not_used (Question._id <$> drawn)) pool)
                fill (count - Z.of_nat (length drawn))) as [seg Hseg].
    + lia.
    + exact Hfnd.
    + intros q Hq. destruct (Hfin q Hq) as [Hqp Hqd].
      apply bfilter_elem. split; [| exact Hqp].
      unfold Question.not_used. apply negb_true_iff, bool_decide_eq_false.
      intros Hid. apply list_elem_of_fmap in Hid as (q' & Heq & Hq').
      assert (Hsame : q = q')
        by (eapply ids_inj; [exact Hids | exact Hqp | apply Hin, Hq' | exact Heq]).
      subst q'. contradiction.
    + rewrite Hflen, unused_length by assumption. reflexivity.
    + exists seg. intros rest. unfold Question.bind. rewrite Hseg.
      reflexivity.
  - exists []. intros rest. apply nil_length_inv in Hflen. subst fill.
    rewrite app_nil_r. reflexivity.
Qed.

(** C9.  [getRandomQuestions] on a bank with unique ids, for a
    non-negative count and a distribution of non-negative percentages over
    distinct difficulties.  The pool is the active, approved, non-excluded
    questions (of the given categories, when some are given).  Each bucket
    draws round(count * percentage / 100) distinct questions of its
    difficulty from the pool, or all of them when there are fewer; a short
    draw is filled with distinct pool questions not yet selected, of any
    difficulty; the result is a random order of the draws cut to [count],
    without repetition, and has exactly [count] questions whenever the pool
    has at least [count].  The choice is open and even: whatever each
    bucket may draw (any questions of the pool of its difficulty, none
    twice, as many as asked for or all there are), whatever the fill may
    then draw, and in whatever order, some tape makes the selector return
    just that; a [$sample] is the first [size] documents of a random
    order, and the orders of a list and the tapes of bounded choices
    correspond one to one, so that no order is favoured. *)
Theorem getRandomQuestions_selects (bank : list Question.t)
    (c : Question.Criteria.t) (rnd : Random.tape) :
  let count := default 30 (Question.Criteria.count c) in
  let difficulty :=
    default Question.default_difficulty (Question.Criteria.difficulty c) in
  let categories := default [] (Question.Criteria.categories c) in
  let excludeIds := default [] (Question.Criteria.excludeIds c) in
  let pool := Question.eligible categories excludeIds bank in
  NoDup (Question._id <$> bank) ->
  0 <= count ->
  Forall (fun e => 0 <= e.2) difficulty ->
  NoDup difficulty.*1 ->
  (forall q, q ∈ pool <->
     q ∈ bank /\ Question.status q = "Active"%string
     /\ Question.isApproved q = true /\ (Question._id q ∉ excludeIds)
     /\ (categories = [] \/ Question.category q ∈ categories))
  /\ (exists drawn fill all result rnd',
      Question.getRandomQuestions bank c rnd = Some (result, rnd')
      /\ Forall
           (fun e =>
              length (List.filter (Question.of_difficulty e.1) drawn)
              = Nat.min (Z.to_nat (needed count e.2))
                  (length (List.filter (Question.of_difficulty e.1) pool)))
           difficulty
      /\ (forall q, q ∈ drawn ->
            q ∈ pool /\ Question.difficulty q ∈ difficulty.*1)
      /\ (forall q, q ∈ fill -> q ∈ pool /\ q ∉ drawn)
      /\ length fill
         = (if Z.of_nat (length drawn) <? count
            then Nat.min (Z.to_nat (count - Z.of_nat (length drawn)))
                   (length pool - length drawn)
            else 0%nat)
      /\ NoDup (drawn ++ fill)
      /\ all ≡ₚ drawn ++ fill
      /\ result = take (Z.to_nat count) all
      /\ NoDup result
      /\ (forall q, q ∈ result -> q ∈ pool)
      /\ (count <= Z.of_nat (length pool) ->
          Z.of_nat (length result) = count))
  /\ (forall draws fill all,
        Forall2 (bucket_draw pool count) difficulty draws ->
        fill_draw pool count (concat draws) fill ->
        all ≡ₚ concat draws ++ fill ->
        exists rnd0,
          fst <$> Question.getRandomQuestions bank c rnd0
          = Some (take (Z.to_nat count) all))
  /\ (forall docs : list Question.t,
        NoDup docs ->
        (forall size rnd0,
            0 <= size ->
            fst <$> Question.sample docs size rnd0
            = Some (take (Z.to_nat size) (fst (Random.shuffle docs rnd0))))
        /\ (forall order,
              order ≡ₚ docs ->
              exists rnd0,
                choices (length docs) rnd0
                /\ fst (Random.shuffle docs rnd0) = order)
        /\ (forall r1 r2,
              choices (length docs) r1 -> choices (length docs) r2 ->
              fst (Random.shuffle docs r1) = fst (Random.shuffle docs r2) ->
              r1 = r2)).
Proof.
  intros count difficulty categories excludeIds pool Hids Hcount Hpct Hkeys.
  split; [intros q; apply eligible_elem |].
  assert (Hpids : NoDup (Question._id <$> pool))
    by (apply bfilter_ids_NoDup; exact Hids).
  assert (Hpool : NoDup pool) by (eapply NoDup_fmap_1; exact Hpids).
  destruct (draw_buckets_spec pool count difficulty Hpool Hcount Hpct Hkeys [] rnd)
    as (drawn & rnd1 & Hdraw & Hnd & Hin & Hcnt).
  cbn [app] in Hdraw.
  destruct (fill_remaining_spec pool count drawn rnd1 Hpids Hnd
              (fun q Hq => proj1 (Hin q Hq)))
    as (fill & rnd2 & Hfill & Hfnd & Hfin & Hflen).
  pose proof (shuffle_perm (drawn ++ fill) rnd2) as Hperm.
  destruct (Random.shuffle (drawn ++ fill) rnd2) as [all rnd'] eqn:Hsh.
  cbn [fst] in Hperm.
  assert (Hall : NoDup (drawn ++ fill)).
  { apply NoDup_app. split; [exact Hnd |]. split; [| exact Hfnd].
    intros q Hq1 Hq2. apply Hfin in Hq2 as [_ Hq2]. contradiction. }
  split; [| split].
  2:{ intros draws fill0 all0 Hdraws Hfill0 Hperm0.
      destruct (draw_buckets_any pool count difficulty draws Hcount Hpct Hdraws)
        as [seg1 Hseg1].
      destruct (draw_buckets_spec pool count difficulty Hpool Hcount Hpct Hkeys
                  [] (seg1 ++ []))
        as (dr & r1 & Hd & Hnd0 & Hin0 & _).
      rewrite Hseg1 in Hd. cbn [app] in Hd.
      assert (Hdr : dr = concat draws) by congruence. subst dr.
      destruct (fill_any pool (concat draws) fill0 count Hpids Hnd0
                  (fun q Hq => proj1 (Hin0 q Hq)) Hfill0) as [seg2 Hseg2].
      destruct (shuffle_any (concat draws ++ fill0) all0 Hperm0)
        as (seg3 & Hch3 & Hseg3).
      exists (seg1 ++ seg2 ++ seg3).
      unfold Question.getRandomQuestions. fold count difficulty categories
        excludeIds. fold pool. unfold Question.bind.
      rewrite Hseg1. cbn [app]. cbv beta iota. rewrite Hseg2. cbv beta iota.
      rewrite <- (app_nil_r seg3), shuffle_app
        by (apply choices_length; exact Hch3).
      rewrite Hseg3. unfold JS.slice0.
      destruct (Z.leb_spec 0 count); [reflexivity | lia]. }
  2:{ intros docs Hdocs. split; [| split].
      - intros size rnd0 Hsize. unfold Question.sample.
        destruct (Z.ltb_spec size 0); [lia |].
        destruct (Random.shuffle docs rnd0). reflexivity.
      - intros order Hord. apply shuffle_any. exact Hord.
      - intros r1 r2. apply shuffle_inj. exact Hdocs. }
  exists drawn, fill, all, (take (Z.to_nat count) all), rnd'.
  split.
  { unfold Question.getRandomQuestions. fold count difficulty categories
      excludeIds. fold pool. unfold Question.bind.
    rewrite Hdraw, Hfill, Hsh. unfold JS.slice0.
    destruct (Z.leb_spec 0 count); [reflexivity | lia]. }
  split; [exact Hcnt |]. split; [exact Hin |]. split; [exact Hfin |].
  split; [exact Hflen |]. split; [exact Hall |]. split; [exact Hperm |].
  split; [reflexivity |].
  assert (Hsubl : take (Z.to_nat count) all ⊆+ drawn ++ fill).
  { rewrite <- Hperm. apply sublist_submseteq, sublist_take. }
  split; [eapply submseteq_NoDup_l; eassumption |].
  split.
  - intros q Hq. apply (elem_of_submseteq _ _ _ Hq) in Hsubl.
    apply elem_of_app in Hsubl as [Hq' | Hq'].
    + apply Hin. exact Hq'.
    + apply Hfin. exact Hq'.
  - intros Henough. rewrite length_take, Hperm, length_app, Hflen.
    pose proof (submseteq_length _ _
                  (NoDup_submseteq _ _ Hnd (fun q Hq => proj1 (Hin q Hq)))).
    destruct (Z.ltb_spec (Z.of_nat (length drawn)) count); lia.
Qed.

(** Ten questions at 30/30/40 from a bank with a single hard question: the
    hard bucket yields one question and the result still has ten. *)
Lemma getRandomQuestions_selects_witness :
  exists result rnd',
    Question.getRandomQuestions one_hard_bank (ten_of []) some_tape
      = Some (result, rnd')
    /\ length result = 10%nat.
Proof.
  destruct (getRandomQuestions_selects one_hard_bank (ten_of []) some_tape)
    as (_ & (drawn & fill & all & result & rnd' & Hrun & _ & _ & _ & _ & _ & _
             & _ & _ & _ & Hlen) & _).
  - apply (bool_decide_unpack _); vm_compute; exact I.
  - vm_compute. discriminate.
  - apply (bool_decide_unpack _); vm_compute; exact I.
  - apply (bool_decide_unpack _); vm_compute; exact I.
  - exists result, rnd'. split; [exact Hrun |].
    apply Nat2Z.inj. apply Hlen. vm_compute. discriminate.
Defined.

End QuestionSelector.

(** ** Test sessions *)

Section TestSessions.

Import Routes Sessions.

(** *** What the hook and the methods keep *)

Ltac hook := unfold Test.pre_save; repeat case_match; reflexivity.

Lemma pre_save_status now r d :
  Test.status (Test.pre_save now r d) = Test.status d.
Proof. hook. Qed.

Lemma pre_save_score now r d : Test.score (Test.pre_save now r d) = Test.score d.
Proof. hook. Qed.

Lemma pre_save_questions now r d :
  Test.questions (Test.pre_save now r d) = Test.questions d.
Proof. hook. Qed.

Lemma pre_save_proctoring now r d :
  Test.proctoring (Test.pre_save now r d) = Test.proctoring d.
Proof. hook. Qed.

Lemma pre_save_user now r d : Test.user (Test.pre_save now r d) = Test.user d.
Proof. hook. Qed.

Lemma pre_save_isPassed now r d :
  Test.isPassed (Test.pre_save now r d) = Test.isPassed d.
Proof. hook. Qed.

Lemma pre_save_testConfig now r d :
  Test.testConfig (Test.pre_save now r d) = Test.testConfig d.
Proof. hook. Qed.

Lemma Some_eq {A} (x y : A) : Some x = Some y -> x = y.
Proof. congruence. Qed.

(** What validation asks of the document. *)
Lemma valid_iff d :
  Test.valid d = true <->
  Test.testId d <> EmptyString
  /\ Test.Score.percentage (Test.score d) <> JS.NaN.
Proof.
  unfold Test.valid.
  rewrite andb_true_iff, !negb_true_iff, !bool_decide_eq_false. reflexivity.
Qed.

(** [save] goes through exactly for a valid document, which the hook is
    then applied to. *)
Lemma save_Some now r d d' :
  Test.save now r d = Some d' ->
  d' = Test.pre_save now r d /\ Test.valid d = true.
Proof.
  unfold Test.save. destruct (Test.valid d); [| discriminate].
  intros H. apply Some_eq in H. split; [symmetry; exact H | reflexivity].
Qed.

Lemma save_valid now r d :
  Test.valid d = true -> Test.save now r d = Some (Test.pre_save now r d).
Proof. intros H. unfold Test.save. rewrite H. reflexivity. Qed.

(** The hook keeps the identifier of a document that has one, and a
    saved document can be saved again. *)
Lemma pre_save_testId now r d :
  Test.testId d <> EmptyString ->
  Test.testId (Test.pre_save now r d) = Test.testId d.
Proof.
  intros H. unfold Test.pre_save. rewrite bool_decide_eq_false_2 by exact H.
  repeat case_match; reflexivity.
Qed.

Lemma valid_pre_save now r d :
  Test.valid d = true -> Test.valid (Test.pre_save now r d) = true.
Proof.
  intros H. apply valid_iff in H as [Hid Hp]. apply valid_iff.
  rewrite pre_save_testId, pre_save_score by exact Hid. split; assumption.
Qed.

(** The document [start] builds has no identifier, and is refused. *)
Lemma save_new_test now r c user testConfig questions :
  Test.save now r (new_test c user testConfig questions) = None.
Proof. reflexivity. Qed.

(** A plain object is refused by the log. *)
Lemma push_Entry a log :
  Test.Proctoring.push (Test.Proctoring.Entry a) log = None.
Proof. reflexivity. Qed.

(** [completeTest] succeeds on a session in progress that has an
    identifier and whose percentage is a number or infinite; the session
    is then evaluated, with the score block of [calculateScore], the
    questions untouched. *)
Lemma calculateAnalytics_frame d :
  exists a, Test.calculateAnalytics d = Test.set_analytics a d.
Proof.
  unfold Test.calculateAnalytics.
  destruct (List.filter Test.Slot.answered (Test.questions d));
    eexists; reflexivity.
Qed.

Ltac setters :=
  cbn [Test.testId Test.user Test.testConfig Test.questions Test.startTime
       Test.endTime Test.submittedAt Test.timeRemaining Test.status
       Test.score Test.isPassed Test.analytics Test.proctoring
       Test.attemptNumber Test.isRetake
       Test.set_testId Test.set_questions Test.set_startTime
       Test.set_endTime Test.set_submittedAt Test.set_actualDurationMinutes
       Test.set_timeRemaining Test.set_status Test.set_score
       Test.set_isPassed Test.set_analytics Test.set_proctoring
       Test.set_isExpired] in *.

Lemma completeTest_inv now r d d' :
  Test.completeTest now r d = Some d' ->
  Test.status d = Test.InProgress
  /\ Test.testId d <> EmptyString
  /\ Test.Score.percentage
       (Test.compute_score (Test.Config.negativeMarking (Test.testConfig d))
          (Test.questions d)) <> JS.NaN
  /\ Test.status d' = Test.Evaluated
  /\ Test.score d'
     = Test.compute_score (Test.Config.negativeMarking (Test.testConfig d))
         (Test.questions d)
  /\ Test.questions d' = Test.questions d
  /\ Test.proctoring d' = Test.proctoring d
  /\ Test.user d' = Test.user d.
Proof.
  unfold Test.completeTest. case_bool_decide as Hs; [| discriminate].
  intros H. apply save_Some in H as [-> Hv]. apply valid_iff in Hv as [Hid Hp].
  rewrite pre_save_status, pre_save_score, pre_save_questions,
    pre_save_proctoring, pre_save_user.
  destruct (calculateAnalytics_frame
              (Test.calculateScore
                 (Test.set_status Test.Completed
                    (Test.set_submittedAt (Some now)
                       (Test.set_endTime (Some now) d))))) as [a Ha].
  rewrite Ha in *. unfold Test.calculateScore in *. setters.
  repeat split; assumption.
Qed.

Lemma completeTest_Some now r d :
  Test.status d = Test.InProgress ->
  Test.testId d <> EmptyString ->
  Test.Score.percentage
    (Test.compute_score (Test.Config.negativeMarking (Test.testConfig d))
       (Test.questions d)) <> JS.NaN ->
  exists d',
    Test.completeTest now r d = Some d'
    /\ Test.status d' = Test.Evaluated
    /\ Test.score d'
       = Test.compute_score (Test.Config.negativeMarking (Test.testConfig d))
           (Test.questions d)
    /\ Test.questions d' = Test.questions d
    /\ Test.proctoring d' = Test.proctoring d
    /\ Test.user d' = Test.user d.
Proof.
  intros H Hid Hp.
  destruct (Test.completeTest now r d) as [d' |] eqn:E.
  - exists d'. split; [reflexivity |].
    apply completeTest_inv in E. tauto.
  - exfalso. revert E. unfold Test.completeTest.
    rewrite bool_decide_eq_true_2 by exact H.
    rewrite save_valid; [discriminate |].
    apply valid_iff.
    destruct (calculateAnalytics_frame
                (Test.calculateScore
                   (Test.set_status Test.Completed
                      (Test.set_submittedAt (Some now)
                         (Test.set_endTime (Some now) d))))) as [a Ha].
    rewrite Ha. unfold Test.calculateScore. setters.
    split; assumption.
Qed.

Lemma completeTest_None now r d :
  Test.status d <> Test.InProgress -> Test.completeTest now r d = None.
Proof.
  intros H. unfold Test.completeTest.
  rewrite bool_decide_eq_false_2 by exact H. reflexivity.
Qed.

Lemma expired_elapsed c t :
  expired c t <-> (inject_Z (timeLimit t) < timeElapsed c t)%Q.
Proof.
  unfold expired, timeLimit, timeElapsed, Qlt, Qdiv, Qmult, Qinv, inject_Z.
  cbn. lia.
Qed.

Lemma tests_store id t w : tests (store id t w) !! id = Some t.
Proof. apply lookup_insert_eq. Qed.

Lemma tests_store_ne id id' t w :
  id <> id' -> tests (store id t w) !! id' = tests w !! id'.
Proof. intros H. apply lookup_insert_ne. exact H. Qed.

(** *** The middleware *)

Lemma protectTest_None c w : protectTest c w = None <-> Steps.allowed c w.
Proof.
  unfold protectTest, Steps.allowed. split.
  - destruct (users w !! uid c) as [u |]; [| discriminate].
    destruct (User.canAttempt _) eqn:E; [| discriminate].
    intros _. exists u. split; [reflexivity | exact E].
  - intros (u & -> & ->). reflexivity.
Qed.

Lemma protectTest_Some c w reply :
  protectTest c w = Some reply ->
  success reply = false /\ (code reply = 401 \/ code reply = 403).
Proof.
  unfold protectTest. destruct (users w !! uid c) as [u |].
  - destruct (User.canAttempt _); [discriminate |].
    intros H. apply Some_eq in H. subst reply. split; [reflexivity | right; reflexivity].
  - intros H. apply Some_eq in H. subst reply. split; [reflexivity | left; reflexivity].
Qed.

(** A request the middleware lets through is handled; any other is
    answered as a failure and changes nothing. *)
Lemma protected_allowed c handler w :
  Steps.allowed c w -> protected c handler w = handler w.
Proof.
  intros H. apply protectTest_None in H. unfold protected. rewrite H.
  reflexivity.
Qed.

Lemma protected_cases c handler w :
  (Steps.allowed c w /\ protected c handler w = handler w)
  \/ (~ Steps.allowed c w
      /\ fst (protected c handler w) = w
      /\ success (snd (protected c handler w)) = false).
Proof.
  unfold protected. destruct (protectTest c w) as [reply |] eqn:E.
  - right. split; [| split; [reflexivity |]].
    + intros H. apply protectTest_None in H. congruence.
    + apply protectTest_Some in E. tauto.
  - left. split; [apply protectTest_None; exact E | reflexivity].
Qed.

(** *** The creation of a session *)

(** [start] never gets past the save of the new document, which has no
    identifier: it answers a failure and leaves the collections as they
    are. *)
Lemma start_fails c w :
  fst (start c w) = w
  /\ success (snd (start c w)) = false
  /\ code (snd (start c w)) <> 201.
Proof.
  unfold start. rewrite ?save_new_test.
  repeat case_match; cbn [fst snd success code err];
    try (split; [reflexivity | split; [reflexivity | discriminate]]).
  all: match goal with
       | H : Test.save _ _ (new_test _ _ _ _) = Some _ |- _ =>
           rewrite save_new_test in H; discriminate H
       end.
Qed.

(** *** Time enforcement *)

(** C1, as stated, fails: one millisecond after the limit, a submission is
    accepted (and evaluates the session), and a review flag is accepted
    and leaves the session in progress. *)
Lemma timeout_not_enforced_everywhere :
  snd (handle late (Submit "TEST000001001") world_in_progress)
    = ok 200 "Test submitted successfully"
  /\ snd (handle late (Flag "TEST000001001" 1 true) world_in_progress)
     = ok 200 "Question flagged for review"
  /\ (Test.status
        <$> tests (fst (handle late (Flag "TEST000001001" 1 true)
                          world_in_progress)) !! "TEST000001001"%string)
     = Some Test.InProgress
  /\ ~ timeout_enforced_everywhere.
Proof.
  split; [vm_compute; reflexivity |].
  split; [vm_compute; reflexivity |].
  split; [vm_compute; reflexivity |].
  intros H.
  destruct (H late (Submit "TEST000001001") world_in_progress
              "TEST000001001"%string Scoring.ten_questions) as [Hreply _].
  - reflexivity.
  - reflexivity.
  - vm_compute. reflexivity.
  - reflexivity.
  - vm_compute. reflexivity.
  - vm_compute in Hreply. discriminate Hreply.
Qed.

(** C1, amended.  On a session in progress that can be saved once scored
    (it has an identifier, and its percentage is not [NaN]), after the
    limit, for a candidate the middleware lets through: an answer that
    passes validation is rejected with the expiry error, and the session
    is completed and scored (status [Evaluated]) with no answer recorded;
    a submission is not rejected as expired, it completes and scores the
    session as at any other time. *)
Theorem timeout_answer_and_submit (c : Ctx) (w : World) (id : string)
    (t : Test.t) :
  Steps.allowed c w ->
  findOne w id (uid c) = Some t ->
  Test.status t = Test.InProgress ->
  Test.testId t <> EmptyString ->
  Test.Score.percentage
    (Test.compute_score (Test.Config.negativeMarking (Test.testConfig t))
       (Test.questions t)) <> JS.NaN ->
  expired c t ->
  exists t',
    Test.completeTest (now c) (r0 c) t = Some t'
    /\ Test.status t' = Test.Evaluated
    /\ Test.score t'
       = Test.compute_score (Test.Config.negativeMarking (Test.testConfig t))
           (Test.questions t)
    /\ Test.questions t' = Test.questions t
    /\ (forall questionNumber ans timeSpent,
          valid_answer questionNumber ans timeSpent = true ->
          handle c (Answer id questionNumber ans timeSpent) w
          = (store id t' w, expired_reply)
          /\ timeout_enforced c (Answer id questionNumber ans timeSpent) w id)
    /\ tests (fst (handle c (Submit id) w)) !! id = Some t'
    /\ snd (handle c (Submit id) w) <> expired_reply
    /\ (services_ok c = true ->
        snd (handle c (Submit id) w) = ok 200 "Test submitted successfully").
Proof.
  intros Hgate Hfind Hst Hid Hpct Hexp.
  destruct (completeTest_Some (now c) (r0 c) t Hst Hid Hpct)
    as (t' & Hct & Hst' & Hsc & Hqs & _).
  exists t'. split; [exact Hct |]. split; [exact Hst' |].
  split; [exact Hsc |]. split; [exact Hqs |].
  split; [| split; [| split]].
  - intros n ans ts Hvalid.
    assert (Heq : handle c (Answer id n ans ts) w = (store id t' w, expired_reply)).
    { cbn [handle]. rewrite protected_allowed by exact Hgate.
      unfold answer. rewrite Hvalid, Hfind, Hst.
      rewrite bool_decide_eq_true_2 by reflexivity. cbn [negb].
      destruct (Qlt_le_dec (inject_Z (timeLimit t)) (timeElapsed c t)) as [_ | Hle].
      - rewrite Hct. reflexivity.
      - apply expired_elapsed in Hexp. exfalso.
        exact (Qlt_not_le _ _ Hexp Hle). }
    split; [exact Heq |]. unfold timeout_enforced. rewrite Heq.
    split; [reflexivity |]. exists t'. split; [apply tests_store | exact Hst'].
  - cbn [handle]. rewrite protected_allowed by exact Hgate.
    unfold submit. rewrite Hfind, Hst.
    rewrite bool_decide_eq_true_2 by reflexivity. cbn [negb]. rewrite Hct.
    repeat case_match; cbn [fst]; apply tests_store.
  - cbn [handle]. rewrite protected_allowed by exact Hgate.
    unfold submit. rewrite Hfind, Hst.
    rewrite bool_decide_eq_true_2 by reflexivity. cbn [negb]. rewrite Hct.
    repeat case_match; cbn [snd]; discriminate.
  - intros Hok. cbn [handle]. rewrite protected_allowed by exact Hgate.
    destruct Hgate as (u & Hu & _).
    unfold submit. rewrite Hfind, Hst.
    rewrite bool_decide_eq_true_2 by reflexivity. cbn [negb]. rewrite Hct.
    cbn [users store]. rewrite Hu, Hok. reflexivity.
Qed.

(** The ten-question session, one millisecond after its thirty minutes. *)
Lemma timeout_answer_and_submit_witness :
  timeout_enforced late (Answer "TEST000001001" 1 "a" None) world_in_progress
    "TEST000001001".
Proof.
  destruct (timeout_answer_and_submit late world_in_progress "TEST000001001"
              Scoring.ten_questions) as (t' & _ & _ & _ & _ & Hans & _).
  - exists candidate. split; vm_compute; reflexivity.
  - vm_compute. reflexivity.
  - reflexivity.
  - vm_compute. discriminate.
  - vm_compute. discriminate.
  - vm_compute. reflexivity.
  - apply (Hans 1 "a"%string None). reflexivity.
Defined.

(** *** At-most-once scoring *)

Lemma findOne_at w id t u :
  tests w !! id = Some t -> findOne w id u = Some t \/ findOne w id u = None.
Proof. intros H. unfold findOne. rewrite H. case_match; tauto. Qed.

Ltac no_push :=
  match goal with
  | H : Test.Proctoring.push (Test.Proctoring.Entry _) _ = Some _ |- _ =>
      rewrite push_Entry in H; discriminate H
  end.

Ltac other_session :=
  repeat case_match; try no_push; cbn [fst store store_user tests];
  rewrite ?lookup_insert_ne by assumption; reflexivity.

(** A request on a session does not touch the other sessions. *)
Lemma handle_other_session c req w i id :
  target req = Some i -> i <> id ->
  tests (fst (handle c req w)) !! id = tests w !! id.
Proof.
  intros Ht Hne.
  destruct req; cbn [target] in Ht; try discriminate; injection Ht as ->;
    cbn [handle]; unfold protected;
    (destruct (protectTest c w); [reflexivity |]).
  - unfold begin. other_session.
  - unfold answer. other_session.
  - unfold flag. other_session.
  - unfold submit. other_session.
  - unfold get_status. other_session.
  - unfold report. other_session.
Qed.

(** A request on an evaluated session changes nothing at all, and is
    refused unless it only reads the status. *)
Lemma handle_evaluated c req w id t :
  tests w !! id = Some t -> Test.status t = Test.Evaluated ->
  target req = Some id ->
  fst (handle c req w) = w
  /\ (success (snd (handle c req w)) = true -> req = Status id).
Proof.
  intros Hl Hs Ht.
  destruct req; cbn [target] in Ht; try discriminate; injection Ht as ->;
    cbn [handle]; unfold protected;
    (destruct (protectTest c w) as [reply |] eqn:Hgate;
     [apply protectTest_Some in Hgate as [Hgate _]; cbn [fst snd];
      rewrite Hgate; split; [reflexivity | discriminate] |]).
  - unfold begin. destruct (findOne_at w id t (uid c) Hl) as [-> | ->];
      rewrite ?Hs; cbn; split; [reflexivity | discriminate | reflexivity | discriminate].
  - unfold answer. destruct (findOne_at w id t (uid c) Hl) as [-> | ->];
      rewrite ?Hs; case_match; cbn; split; try reflexivity; discriminate.
  - unfold flag. destruct (findOne_at w id t (uid c) Hl) as [-> | ->];
      rewrite ?Hs; case_match; cbn; split; try reflexivity; discriminate.
  - unfold submit. destruct (findOne_at w id t (uid c) Hl) as [-> | ->];
      rewrite ?Hs; cbn; split; try reflexivity; discriminate.
  - unfold get_status. destruct (findOne_at w id t (uid c) Hl) as [-> | ->];
      rewrite ?Hs; cbn; split; reflexivity.
  - unfold report. destruct (findOne_at w id t (uid c) Hl) as [-> | ->];
      rewrite ?Hs; case_match; cbn; split; try reflexivity; discriminate.
Qed.

Lemma evaluated_step c req w id t :
  tests w !! id = Some t -> Test.status t = Test.Evaluated ->
  tests (fst (handle c req w)) !! id = Some t.
Proof.
  intros Hl Hs. destruct (target req) as [i |] eqn:Ht.
  - destruct (decide (i = id)) as [-> | Hne].
    + destruct (handle_evaluated c req w id t Hl Hs Ht) as [-> _]. exact Hl.
    + rewrite (handle_other_session c req w i id Ht Hne). exact Hl.
  - destruct req; try discriminate. cbn [handle].
    destruct (start_fails c w) as [-> _]. exact Hl.
Qed.

Lemma evaluated_run reqs w id t :
  tests w !! id = Some t -> Test.status t = Test.Evaluated ->
  tests (run reqs w) !! id = Some t.
Proof.
  revert w. induction reqs as [|[c req] reqs IH]; intros w Hl Hs; [exact Hl |].
  unfold run. cbn [fold_left fst snd]. apply IH; [| exact Hs].
  apply evaluated_step; assumption.
Qed.

Lemma findOne_user w id u t : findOne w id u = Some t -> Test.user t = u.
Proof.
  unfold findOne. destruct (tests w !! id) as [t0 |]; [| discriminate].
  case_bool_decide; [| discriminate]. intros [= <-]. assumption.
Qed.

Lemma findOne_lookup w id u t : findOne w id u = Some t -> tests w !! id = Some t.
Proof.
  unfold findOne. destruct (tests w !! id) as [t0 |]; [| discriminate].
  case_bool_decide; [| discriminate]. intros [= <-]. reflexivity.
Qed.

Lemma findOne_found w id t :
  tests w !! id = Some t -> findOne w id (Test.user t) = Some t.
Proof.
  intros H. unfold findOne. rewrite H.
  rewrite bool_decide_eq_true_2 by reflexivity. reflexivity.
Qed.

(** A submission the middleware lets through, of a session in progress
    that can be saved once scored, evaluates it, whenever it comes. *)
Lemma submit_evaluates c w id t :
  Steps.allowed c w ->
  findOne w id (uid c) = Some t -> Test.status t = Test.InProgress ->
  Test.testId t <> EmptyString ->
  Test.Score.percentage
    (Test.compute_score (Test.Config.negativeMarking (Test.testConfig t))
       (Test.questions t)) <> JS.NaN ->
  exists t',
    tests (fst (handle c (Submit id) w)) !! id = Some t'
    /\ Test.status t' = Test.Evaluated
    /\ Test.score t'
       = Test.compute_score (Test.Config.negativeMarking (Test.testConfig t))
           (Test.questions t)
    /\ Test.user t' = Test.user t.
Proof.
  intros Hgate Hfind Hst Hid Hpct.
  destruct (completeTest_Some (now c) (r0 c) t Hst Hid Hpct)
    as (t' & Hct & Hst' & Hsc & _ & _ & Hu).
  exists t'. split; [| tauto].
  cbn [handle]. rewrite protected_allowed by exact Hgate.
  unfold submit. rewrite Hfind, Hst.
  rewrite bool_decide_eq_true_2 by reflexivity. cbn [negb]. rewrite Hct.
  repeat case_match; cbn [fst]; apply tests_store.
Qed.

(** A submission of an evaluated session by its candidate. *)
Lemma submit_again w id t c :
  tests w !! id = Some t -> Test.status t = Test.Evaluated ->
  uid c = Test.user t ->
  fst (handle c (Submit id) w) = w
  /\ success (snd (handle c (Submit id) w)) = false
  /\ (Steps.allowed c w ->
      snd (handle c (Submit id) w) = err 400 "Test is not in progress").
Proof.
  intros Hl Hs Hu. cbn [handle].
  assert (Hsub : submit c id w = (w, err 400 "Test is not in progress")).
  { unfold submit. rewrite Hu, (findOne_found _ _ _ Hl), Hs. reflexivity. }
  destruct (protected_cases c (submit c id) w) as [[Hgate ->] | (Hno & Hw & Hf)].
  - rewrite Hsub. split; [reflexivity |]. split; [reflexivity |].
    intros _. reflexivity.
  - split; [exact Hw |]. split; [exact Hf |]. intros Hgate. contradiction.
Qed.

(** C2.  An evaluated session is final: whatever requests follow, its
    document (score block and evaluation outcomes of the slots included)
    stays as it is; [completeTest], the only caller of the scoring, refuses
    it; every request on it leaves the whole store unchanged and, unless it
    only reads the status, is answered with an error.  In particular a
    submission of the candidate on it fails and changes nothing (with
    "Test is not in progress" when the middleware lets it through), and so
    does a second submission after a first one that went through. *)
Theorem evaluated_is_final (w : World) (id : string) (t : Test.t) :
  tests w !! id = Some t ->
  Test.status t = Test.Evaluated ->
  (forall reqs, tests (run reqs w) !! id = Some t)
  /\ (forall now r, Test.completeTest now r t = None)
  /\ (forall c req, target req = Some id ->
        fst (handle c req w) = w
        /\ (mutating req = true -> success (snd (handle c req w)) = false))
  /\ (forall c, uid c = Test.user t ->
        fst (handle c (Submit id) w) = w
        /\ success (snd (handle c (Submit id) w)) = false
        /\ (Steps.allowed c w ->
            snd (handle c (Submit id) w) = err 400 "Test is not in progress"))
  /\ (forall c0 w0 t0,
        Steps.allowed c0 w0 ->
        findOne w0 id (uid c0) = Some t0 ->
        Test.status t0 = Test.InProgress ->
        Test.testId t0 <> EmptyString ->
        Test.Score.percentage
          (Test.compute_score
             (Test.Config.negativeMarking (Test.testConfig t0))
             (Test.questions t0)) <> JS.NaN ->
        let w1 := fst (handle c0 (Submit id) w0) in
        exists t1,
          tests w1 !! id = Some t1
          /\ Test.status t1 = Test.Evaluated
          /\ Test.score t1
             = Test.compute_score
                 (Test.Config.negativeMarking (Test.testConfig t0))
                 (Test.questions t0)
          /\ forall c2 reqs, uid c2 = uid c0 ->
               fst (handle c2 (Submit id) w1) = w1
               /\ success (snd (handle c2 (Submit id) w1)) = false
               /\ (Steps.allowed c2 w1 ->
                   snd (handle c2 (Submit id) w1)
                   = err 400 "Test is not in progress")
               /\ tests (run reqs w1) !! id = Some t1).
Proof.
  intros Hl Hs.
  split; [intros reqs; apply evaluated_run; assumption |].
  split; [intros now r; apply completeTest_None; rewrite Hs; discriminate |].
  split.
  { intros c req Ht.
    destruct (handle_evaluated c req w id t Hl Hs Ht) as [Hw Hok].
    split; [exact Hw |]. intros Hm.
    destruct (success (snd (handle c req w))) eqn:E; [| reflexivity].
    rewrite (Hok eq_refl) in Hm. discriminate Hm. }
  split; [intros c Hu; apply (submit_again w id t c Hl Hs Hu) |].
  intros c0 w0 t0 Hgate Hf0 Hs0 Hid0 Hp0 w1.
  destruct (submit_evaluates c0 w0 id t0 Hgate Hf0 Hs0 Hid0 Hp0)
    as (t1 & Hl1 & Hs1 & Hsc1 & Hu1).
  exists t1. split; [exact Hl1 |]. split; [exact Hs1 |]. split; [exact Hsc1 |].
  intros c2 reqs Hu2.
  assert (Hown : uid c2 = Test.user t1).
  { rewrite Hu2, Hu1. symmetry. eapply findOne_user. exact Hf0. }
  destruct (submit_again w1 id t1 c2 Hl1 Hs1 Hown) as (Ha & Hb & Hc).
  split; [exact Ha |]. split; [exact Hb |]. split; [exact Hc |].
  apply evaluated_run; assumption.
Qed.

(** The session submitted one millisecond late stays as evaluated through
    a second submission, a flag and an answer. *)
Lemma evaluated_is_final_witness :
  tests (run [(Sessions.late, Submit "TEST000001001");
              (Sessions.late, Flag "TEST000001001" 1 true);
              (Sessions.late, Answer "TEST000001001" 2 "a" None)]
           Finished.world_evaluated) !! "TEST000001001"%string
  = Some Finished.evaluated_session.
Proof.
  refine (proj1 (evaluated_is_final Finished.world_evaluated "TEST000001001"
                   Finished.evaluated_session _ _) _).
  - vm_compute. reflexivity.
  - vm_compute. reflexivity.
Defined.

(** *** The attempt record *)





(** *** Violation reports *)

(** The push of the entry throws before anything is saved. *)
Lemma report_unchanged c id ty de tm w :
  fst (report c id ty de tm w) = w
  /\ success (snd (report c id ty de tm w)) = false.
Proof. unfold report. repeat case_match; try no_push; split; reflexivity. Qed.

(** C10.  A violation report is never recorded.  The handler pushes a
    plain object onto [suspiciousActivities], which the schema declares
    as an array of strings; the push throws, and the handler answers 500
    before it saves anything.  So for every report, of any kind, on any
    session: the store stays exactly as it was (no entry in the log, no
    counter raised, no session completed) and the reply is a failure; on
    a session in progress of the candidate, with a kind the validator
    accepts and the middleware letting the request through, the reply is
    500 "Failed to record violation".  The counters the handler computes
    before the push move for a tab switch or a full-screen exit only. *)
Theorem report_never_records (c : Ctx) (w : World) (id violationType : string)
    (description : option string) (timestamp : option Z) :
  let req := Report id violationType description timestamp in
  fst (handle c req w) = w
  /\ success (snd (handle c req w)) = false
  /\ (forall t,
        Steps.allowed c w ->
        valid_violationType violationType = true ->
        findOne w id (uid c) = Some t ->
        Test.status t = Test.InProgress ->
        snd (handle c req w) = err 500 "Failed to record violation")
  /\ (forall p,
        count_violation "suspicious_activity" p
        = (Test.Proctoring.tabSwitchViolations p,
           Test.Proctoring.fullScreenViolations p)
        /\ count_violation "tab_switch" p
           = (Test.Proctoring.tabSwitchViolations p + 1,
              Test.Proctoring.fullScreenViolations p)
        /\ count_violation "full_screen_exit" p
           = (Test.Proctoring.tabSwitchViolations p,
              Test.Proctoring.fullScreenViolations p + 1))
  /\ handle (at_time 2000)
       (Report "TEST000001001" "suspicious_activity" None None)
       world_in_progress
     = (world_in_progress, err 500 "Failed to record violation").
Proof.
  intros req.
  pose proof (report_unchanged c id violationType description timestamp w)
    as Hrep.
  split; [| split; [| split; [| split]]].
  - unfold req. cbn [handle].
    destruct (protected_cases c (report c id violationType description timestamp) w)
      as [[_ ->] | (_ & Hw & _)]; [apply Hrep | exact Hw].
  - unfold req. cbn [handle].
    destruct (protected_cases c (report c id violationType description timestamp) w)
      as [[_ ->] | (_ & _ & Hf)]; [apply Hrep | exact Hf].
  - intros t Hgate Hvalid Hfind Hst. unfold req. cbn [handle].
    rewrite protected_allowed by exact Hgate.
    unfold report. rewrite Hvalid, Hfind, Hst.
    rewrite bool_decide_eq_true_2 by reflexivity. cbn [negb].
    destruct (count_violation _ _). reflexivity.
  - intros p. repeat split; reflexivity.
  - vm_compute. reflexivity.
Qed.

End TestSessions.

(** * Further properties *)

(** ** The counters of a question *)

Section QuestionCounters.

Import QuestionDoc Bank.

Lemma Math_round_Z (z : Z) : JS.Math_round (inject_Z z) = z.
Proof.
  unfold JS.Math_round.
  assert (H : (inject_Z z + (1 # 2) == (2 * z + 1) # 2)%Q).
  { unfold Qeq, Qplus, inject_Z. cbn. lia. }
  rewrite H. unfold Qfloor. cbn [Qnum Qden]. symmetry.
  apply Z.div_unique with (r := 1); lia.
Qed.

Lemma Math_round_between (x : Q) (lo hi : Z) :
  (inject_Z lo <= x)%Q -> (x <= inject_Z hi)%Q ->
  lo <= JS.Math_round x <= hi.
Proof.
  intros Hlo Hhi. split.
  - rewrite <- (Math_round_Z lo). apply Math_round_mono. exact Hlo.
  - rewrite <- (Math_round_Z hi). apply Math_round_mono. exact Hhi.
Qed.

Lemma successRate_range (q : t) :
  0 <= correctAttempts q <= totalAttempts q -> 0 <= successRate q <= 100.
Proof.
  intros [H0 H1]. unfold successRate.
  destruct (Z.eqb_spec (totalAttempts q) 0); [lia |].
  apply Math_round_between.
  - apply (percent_ge_0 (correctAttempts q) (totalAttempts q)); lia.
  - apply (percent_le_100 (correctAttempts q) (totalAttempts q)); lia.
Qed.

(** X1.  The success rate of a question whose right answers do not exceed
    its attempts is between 0 and 100, and it is 0, without a division,
    for a question never attempted; the difficulty read off it is "Easy"
    from 70 up, "Moderate" from 40 up and "Hard" below. *)
Theorem successRate_bounds (q : t) :
  0 <= correctAttempts q <= totalAttempts q ->
  0 <= successRate q <= 100
  /\ (totalAttempts q = 0 -> successRate q = 0 /\ actualDifficulty q = "Hard"%string)
  /\ (actualDifficulty q = "Easy"%string <-> 70 <= successRate q)
  /\ (actualDifficulty q = "Moderate"%string <-> 40 <= successRate q < 70)
  /\ (actualDifficulty q = "Hard"%string <-> successRate q < 40).
Proof.
  intros H. split; [apply successRate_range; exact H |].
  split.
  { intros H0. unfold actualDifficulty, successRate. rewrite H0. split; reflexivity. }
  unfold actualDifficulty.
  destruct (Z.leb_spec 70 (successRate q)); [| destruct (Z.leb_spec 40 (successRate q))];
    repeat split; intros; try lia; try discriminate; reflexivity.
Qed.

Lemma successRate_bounds_witness :
  0 <= successRate used_question <= 100.
Proof.
  apply (successRate_bounds used_question). vm_compute. split; discriminate.
Defined.

Lemma Qle_div_l (lo t d : Z) :
  0 < d -> lo * d <= t -> (inject_Z lo <= inject_Z t / inject_Z d)%Q.
Proof.
  intros Hd H. destruct d as [|p|p]; try lia.
  unfold Qle, Qdiv, Qmult, Qinv, inject_Z. cbn. nia.
Qed.

Lemma Qle_div_r (hi t d : Z) :
  0 < d -> t <= hi * d -> (inject_Z t / inject_Z d <= inject_Z hi)%Q.
Proof.
  intros Hd H. destruct d as [|p|p]; try lia.
  unfold Qle, Qdiv, Qmult, Qinv, inject_Z. cbn. nia.
Qed.







Lemma find_head_filter {A} (p : A -> bool) (l : list A) :
  List.find p l = head (List.filter p l).
Proof.
  induction l as [|x l IH]; [reflexivity |]. cbn [List.find List.filter].
  destruct (p x); [reflexivity | exact IH].
Qed.

(** X3.  A multiple-choice question that passes the pre-save check has one
    correct option, and an answer recorded on the slot made of it is
    evaluated as right exactly when it is the text of that option; the
    points earned are the points of the question for a right answer, minus
    its negative points for a wrong one under negative marking, 0
    otherwise. *)
Theorem validated_question_answer (base : Question.t) (index : nat)
    (negativeMarking : bool) (now : Z) (answer : string) (timeSpent : Z) :
  multiple_choice base ->
  well_formed base ->
  exists o q',
    List.filter Question.isCorrect (Question.options base) = [o]
    /\ Test.record_answer negativeMarking now answer timeSpent
         (Routes.make_slot index base) = Some q'
    /\ Test.Slot.isCorrect q' = Some (bool_decide (Question.text o = answer))
    /\ Test.Slot.answered q' = true
    /\ Test.Response.selectedAnswer (Test.Slot.userResponse q') = answer
    /\ Test.Slot.pointsEarned q'
       = if bool_decide (Question.text o = answer) then Question.points base
         else if negativeMarking then - Question.negativePoints base else 0.
Proof.
  intros Hm Hwf. destruct (Hwf Hm) as [_ Hone].
  destruct (List.filter Question.isCorrect (Question.options base))
    as [|o [|o' rest]] eqn:Hf; try discriminate Hone.
  exists o. unfold Test.record_answer, Routes.make_slot.
  cbn [Test.Slot.questionType Test.Slot.options Test.Slot.correctAnswer
       Test.Slot.userResponse Test.Slot.points Test.Slot.negativePoints].
  unfold multiple_choice in Hm. rewrite Hm.
  rewrite bool_decide_eq_true_2 by reflexivity.
  rewrite find_head_filter, Hf. cbn [head].
  eexists. split; [reflexivity |]. split; [reflexivity |].
  cbn. repeat split; destruct (bool_decide _); reflexivity.
Qed.

Lemma validated_question_answer_witness :
  exists o,
    List.filter Question.isCorrect
      (Question.options (Selector.bank_question 1 "Easy")) = [o].
Proof.
  destruct (validated_question_answer (Selector.bank_question 1 "Easy") 0 true
              1000 "a" 5) as (o & q' & Hf & _).
  - reflexivity.
  - intros _. vm_compute. split; [lia | reflexivity].
  - exists o. exact Hf.
Defined.

Lemma cooldown_days (now last d : Z) :
  (inject_Z (now - last) / inject_Z day_ms < inject_Z d)%Q
  <-> now < last + d * day_ms.
Proof.
  change day_ms with 86400000.
  unfold Qlt, Qdiv, Qmult, Qinv, inject_Z. cbn [Qnum Qden]. lia.
Qed.

(** X4.  After [updateStats] at some instant, an active and approved
    question with a positive cooldown (in days) cannot be used before that
    many days have passed since the instant, and can be used from then on;
    without a positive cooldown it can be used at once; a question that is
    not active or not approved can never be used. *)
Theorem canBeUsed_after_updateStats (now : Z) (isCorrect : bool)
    (timeSpent : Z) (q q' : t) (later : Z) :
  updateStats now isCorrect timeSpent q = inr q' ->
  (Question.status (question q) = "Active"%string
   /\ Question.isApproved (question q) = true ->
   (0 < cooldownPeriod q ->
    (canBeUsed later q' = None <-> now + cooldownPeriod q * day_ms <= later))
   /\ (cooldownPeriod q <= 0 -> canBeUsed later q' = None))
  /\ (Question.status (question q) <> "Active"%string
      \/ Question.isApproved (question q) = false ->
      canBeUsed later q' = Some "Question is not active or approved"%string).
Proof.
  intros Hup.
  assert (Hq : question q' = question q /\ lastUsed q' = Some now
               /\ cooldownPeriod q' = cooldownPeriod q).
  { unfold updateStats, pre_save in Hup.
    repeat case_match; try discriminate; injection Hup as <-; repeat split. }
  destruct Hq as (Hb & Hl & Hc). unfold canBeUsed. rewrite Hb, Hl, Hc.
  split.
  - intros [Ha Hp]. rewrite Ha, Hp.
    rewrite bool_decide_eq_true_2 by reflexivity. cbn [negb orb].
    split.
    + intros Hpos. destruct (Z.ltb_spec 0 (cooldownPeriod q)); [| lia].
      destruct (Qlt_le_dec _ _) as [Hlt | Hle].
      * apply cooldown_days in Hlt. split; [discriminate | intros; exfalso; lia].
      * split; [intros _ | reflexivity].
        destruct (Z.le_gt_cases (now + cooldownPeriod q * day_ms) later) as [|Hgt];
          [assumption |].
        exfalso.
        assert (Hlt : later < now + cooldownPeriod q * day_ms) by lia.
        apply cooldown_days in Hlt. exact (Qlt_not_le _ _ Hlt Hle).
    + intros Hnp. destruct (Z.ltb_spec 0 (cooldownPeriod q)); [lia | reflexivity].
  - intros [Ha | Hp].
    + rewrite bool_decide_eq_false_2 by exact Ha. reflexivity.
    + rewrite Hp. rewrite orb_true_r. reflexivity.
Qed.

Lemma canBeUsed_after_updateStats_witness :
  exists q',
    updateStats 1000 true 30 used_question = inr q'
    /\ canBeUsed (1000 + 2 * day_ms) q' = None.
Proof.
  destruct (updateStats 1000 true 30 used_question) as [msg | q'] eqn:Hup;
    [vm_compute in Hup; discriminate Hup |].
  exists q'. split; [reflexivity |].
  refine (proj2 (proj1 (proj1
    (canBeUsed_after_updateStats 1000 true 30 used_question q'
       (1000 + 2 * day_ms) Hup)
    (conj eq_refl eq_refl)) _) _).
  - reflexivity.
  - vm_compute. discriminate.
Defined.

End QuestionCounters.

(** ** One-time passwords *)

Section OneTimePasswords.

Import Otp Passwords.

Lemma pretty_N_go_nonempty (x : N) (s : string) :
  s <> EmptyString -> pretty_N_go x s <> EmptyString.
Proof.
  revert s. induction (N.lt_wf_0 x) as [x _ IH]; intros s Hs.
  destruct (decide (x = 0)%N) as [-> | Hx].
  - rewrite pretty_N_go_0. exact Hs.
  - rewrite pretty_N_go_step by lia.
    apply IH; [apply N.div_lt; lia | discriminate].
Qed.

Lemma pretty_Z_nonempty (z : Z) : 0 < z -> pretty z <> EmptyString.
Proof.
  intros Hz. destruct z as [|p|p]; try lia.
  change (pretty (Z.pos p)) with (pretty (N.pos p)).
  unfold pretty, pretty_N. rewrite decide_False by discriminate.
  rewrite pretty_N_go_step by lia.
  apply pretty_N_go_nonempty. discriminate.
Qed.

Lemma verifyOTP_wrong (now : Z) (entered : string) (a : account) (o : otp_t) :
  otp a = Some o -> code o <> EmptyString ->
  now <= expiresAt o -> entered <> code o ->
  verifyOTP now entered a
  = (false,
     if 5 <=? attempts o then a
     else mkAccount (Some (mkOtp (code o) (expiresAt o) (attempts o + 1)))
            (isVerified a)).
Proof.
  intros Ho Hc Ht He. unfold verifyOTP. rewrite Ho.
  rewrite bool_decide_eq_false_2 by exact Hc.
  destruct (Z.ltb_spec (expiresAt o) now); [lia |].
  destruct (5 <=? attempts o); [reflexivity |].
  rewrite bool_decide_eq_false_2 by congruence. reflexivity.
Qed.

Lemma verifyOTP_locked (now : Z) (entered : string) (a : account) (o : otp_t) :
  otp a = Some o -> 5 <= attempts o -> verifyOTP now entered a = (false, a).
Proof.
  intros Ho Ha. unfold verifyOTP. rewrite Ho.
  repeat case_match; try reflexivity; lia.
Qed.

(** X5.  Five tries per password: when the wrong codes entered before the
    deadline bring the count of attempts to five, every one of them is
    refused, the account is no more verified than before, and from then on
    every code is refused, the right one included, at any instant. *)
Theorem verifyOTP_lockout (a : account) (o : otp_t) (entries : list (Z * string)) :
  otp a = Some o ->
  code o <> EmptyString ->
  Forall (wrong_before (code o) (expiresAt o)) entries ->
  5 <= attempts o + Z.of_nat (length entries) ->
  Forall (fun b => b = false) (fst (verify_all entries a))
  /\ isVerified (snd (verify_all entries a)) = isVerified a
  /\ forall now entered,
       verifyOTP now entered (snd (verify_all entries a))
       = (false, snd (verify_all entries a)).
Proof.
  revert a o. induction entries as [|[now e] entries IH];
    intros a o Ho Hc Hall Hfive.
  - cbn [verify_all fst snd length] in *. split; [constructor |].
    split; [reflexivity |]. intros now entered.
    eapply verifyOTP_locked; [exact Ho | lia].
  - apply Forall_cons in Hall as [[Ht He] Hall]. cbn [fst snd] in Ht, He.
    cbn [verify_all]. rewrite (verifyOTP_wrong now e a o Ho Hc Ht He).
    destruct (Z.leb_spec 5 (attempts o)) as [Hlock | Hopen].
    + specialize (IH a o Ho Hc Hall ltac:(lia)).
      destruct (verify_all entries a) as [bs a']. cbn [fst snd] in *.
      destruct IH as (Hbs & Hv & Hlocked).
      split; [constructor; [reflexivity | exact Hbs] | tauto].
    + specialize (IH (mkAccount (Some (mkOtp (code o) (expiresAt o) (attempts o + 1)))
                        (isVerified a))
                     (mkOtp (code o) (expiresAt o) (attempts o + 1))
                     eq_refl Hc Hall).
      cbn [attempts length] in IH, Hfive. specialize (IH ltac:(lia)).
      destruct (verify_all entries _) as [bs a']. cbn [fst snd] in *.
      destruct IH as (Hbs & Hv & Hlocked).
      split; [constructor; [reflexivity | exact Hbs] | tauto].
Qed.

Lemma verifyOTP_lockout_witness :
  verifyOTP 5000 "123456"
    (snd (verify_all [(1000, "000000"); (1100, "111111"); (1200, "222222");
                      (1300, "333333"); (1400, "444444")]%string
            (mkAccount (Some (mkOtp "123456" 600000 0)) false)))
  = (false,
     snd (verify_all [(1000, "000000"); (1100, "111111"); (1200, "222222");
                      (1300, "333333"); (1400, "444444")]%string
            (mkAccount (Some (mkOtp "123456" 600000 0)) false))).
Proof.
  refine (proj2 (proj2
    (verifyOTP_lockout (mkAccount (Some (mkOtp "123456" 600000 0)) false)
       (mkOtp "123456" 600000 0) _ eq_refl _ _ _)) 5000 "123456"%string).
  - discriminate.
  - repeat constructor; cbn; try lia; discriminate.
  - vm_compute. discriminate.
Defined.

(** X6.  A generated password is the decimal text of a number of six
    digits; entered within ten minutes it is accepted, the account becomes
    verified and the password is cleared, so that entering it again is
    refused; after the ten minutes every code is refused and the account
    stays as it is; a verified account is never unverified. *)
Theorem generateOTP_verifyOTP (now : Z) (r : nat) (a : account) :
  let code := fst (generateOTP now r a) in
  let a1 := snd (generateOTP now r a) in
  (exists n, 100000 <= n < 1000000 /\ code = pretty n)
  /\ isVerified a1 = isVerified a
  /\ (forall at_, at_ <= now + 10 * 60 * 1000 ->
        verifyOTP at_ code a1 = (true, mkAccount None true))
  /\ (forall at_ entered,
        verifyOTP at_ entered (mkAccount None true) = (false, mkAccount None true))
  /\ (forall at_ entered, now + 10 * 60 * 1000 < at_ ->
        verifyOTP at_ entered a1 = (false, a1))
  /\ (forall at_ entered b,
        isVerified b = true -> isVerified (snd (verifyOTP at_ entered b)) = true).
Proof.
  cbn zeta. unfold generateOTP. cbn [fst snd].
  set (n := 100000 + Z.of_nat r mod 900000).
  assert (Hn : 100000 <= n < 1000000).
  { unfold n. pose proof (Z.mod_pos_bound (Z.of_nat r) 900000 ltac:(lia)). lia. }
  split; [exists n; split; [exact Hn | reflexivity] |].
  split; [reflexivity |].
  split.
  { intros at_ Hat. unfold verifyOTP. cbn [otp code expiresAt attempts].
    rewrite bool_decide_eq_false_2 by (apply pretty_Z_nonempty; lia).
    destruct (Z.ltb_spec (now + 10 * 60 * 1000) at_); [lia |].
    cbn. rewrite bool_decide_eq_true_2 by reflexivity. reflexivity. }
  split; [reflexivity |].
  split.
  { intros at_ entered Hat. unfold verifyOTP. cbn [otp code expiresAt attempts].
    rewrite bool_decide_eq_false_2 by (apply pretty_Z_nonempty; lia).
    destruct (Z.ltb_spec (now + 10 * 60 * 1000) at_); [reflexivity | lia]. }
  intros at_ entered b Hb. unfold verifyOTP.
  repeat case_match; cbn [snd isVerified]; try exact Hb; reflexivity.
Qed.

End OneTimePasswords.

(** ** The proctoring service: counts, reports, end of a session *)

Section ProctoringReports.

Import ProctoringService ProctoringReport Watch.

Lemma count_severity_total (vs : list violation) :
  count_severity critical vs + count_severity major vs + count_severity minor vs
  + unclassed vs
  = Z.of_nat (length vs).
Proof.
  unfold count_severity, unclassed. induction vs as [|v vs IH]; [reflexivity |].
  cbn [List.filter length]. destruct (severity v);
    repeat (rewrite ?bool_decide_eq_true_2 by reflexivity;
            rewrite ?bool_decide_eq_false_2 by discriminate);
    cbn [length]; lia.
Qed.

Lemma unclassed_app (vs : list violation) (v : violation) :
  unclassed (vs ++ [v])
  = unclassed vs + (match severity v with inherited _ => 1 | _ => 0 end).
Proof.
  unfold unclassed. rewrite List.filter_app, length_app. cbn [List.filter].
  destruct (severity v); cbn [length]; lia.
Qed.

(** A kind the table lists, or one that is no member of
    [Object.prototype], gets one of the three words; a kind named like a
    member gets the member. *)
Lemma getViolationSeverity_cases (violationType : string) :
  (JS.is_inherited violationType = true
   /\ getViolationSeverity violationType = inherited violationType)
  \/ (JS.is_inherited violationType = false
      /\ (getViolationSeverity violationType = minor
          \/ getViolationSeverity violationType = major
          \/ getViolationSeverity violationType = critical)).
Proof.
  unfold getViolationSeverity.
  repeat (case_bool_decide as E;
          [subst violationType; right; split; [reflexivity | tauto] | clear E]).
  destruct (JS.is_inherited violationType); [left | right]; tauto.
Qed.

Lemma count_severity_nonneg (s : severity_t) (vs : list violation) :
  0 <= count_severity s vs.
Proof. unfold count_severity. lia. Qed.

Lemma count_severity_app_le (s : severity_t) (vs extra : list violation) :
  count_severity s vs <= count_severity s (vs ++ extra).
Proof.
  unfold count_severity. rewrite List.filter_app, length_app. lia.
Qed.

(** One call keeps the settings, keeps every other session, and leaves a
    known session with its violations extended. *)
Lemma recordViolation_grows now id ty svc :
  violationThreshold (fst (recordViolation now id ty svc)) = violationThreshold svc
  /\ forall id' s,
       activeTestSessions svc !! id' = Some s ->
       exists s',
         activeTestSessions (fst (recordViolation now id ty svc)) !! id' = Some s'
         /\ exists extra, violations s' = violations s ++ extra
         /\ (id' <> id -> s' = s).
Proof.
  unfold recordViolation.
  destruct (activeTestSessions svc !! id) as [s0 |] eqn:H0; cbn [fst].
  - split; [reflexivity |]. intros id' s Hs. cbn [activeTestSessions].
    destruct (decide (id' = id)) as [-> | Hne].
    + rewrite lookup_insert_eq. rewrite H0 in Hs. injection Hs as ->.
      eexists. split; [reflexivity |]. cbn [violations].
      eexists. split; [reflexivity | intros H; contradiction].
    + rewrite lookup_insert_ne by congruence. exists s. split; [exact Hs |].
      exists []. rewrite app_nil_r. split; [reflexivity | reflexivity].
  - split; [reflexivity |]. intros id' s Hs. exists s. split; [exact Hs |].
    exists []. rewrite app_nil_r. split; reflexivity.
Qed.

Lemma record_all_grows calls svc :
  violationThreshold (record_all calls svc) = violationThreshold svc
  /\ forall id s,
       activeTestSessions svc !! id = Some s ->
       exists s' extra,
         activeTestSessions (record_all calls svc) !! id = Some s'
         /\ violations s' = violations s ++ extra.
Proof.
  revert svc. induction calls as [|[[now id0] ty] calls IH]; intros svc.
  - split; [reflexivity |]. intros id s Hs. exists s, [].
    rewrite app_nil_r. split; [exact Hs | reflexivity].
  - unfold record_all. cbn [fold_left fst snd].
    fold (record_all calls (fst (recordViolation now id0 ty svc))).
    destruct (recordViolation_grows now id0 ty svc) as [Hthr Hstep].
    destruct (IH (fst (recordViolation now id0 ty svc))) as [Hthr' Hrest].
    split; [congruence |]. intros id s Hs.
    destruct (Hstep id s Hs) as (s1 & Hs1 & extra1 & Hv1 & _).
    destruct (Hrest id s1 Hs1) as (s' & extra & Hs' & Hv').
    exists s', (extra1 ++ extra). split; [exact Hs' |].
    rewrite Hv', Hv1, app_assoc. reflexivity.
Qed.

(** X7.  What [recordViolation] answers for a known session: the total is
    one more than before, and it is the sum of the three counts by
    severity and of the number of violations whose severity is none of the
    three words.  A kind named like a member of [Object.prototype] gets
    such a severity, and is counted in the total only; when no violation
    of the session has one, the three counts add up to the total.  And the
    decision to terminate is never taken back: once the critical or the
    major violations of a session are over the threshold, every later call
    for that session, after any other calls, says so again. *)
Theorem recordViolation_counts (svc : t) (id : string) (s : session)
    (calls : list (Z * string * string)) (now : Z) (violationType : string) :
  activeTestSessions svc !! id = Some s ->
  (exists o,
      snd (recordViolation now id violationType svc) = Some o
      /\ totalViolations o = Z.of_nat (length (violations s)) + 1
      /\ criticalCount o + majorCount o + minorCount o
         + unclassed (violations s ++ [recorded o])
         = totalViolations o
      /\ (JS.is_inherited violationType = true ->
          severity (recorded o) = inherited violationType
          /\ criticalCount o + majorCount o + minorCount o < totalViolations o)
      /\ (JS.is_inherited violationType = false ->
          unclassed (violations s) = 0 ->
          criticalCount o + majorCount o + minorCount o = totalViolations o))
  /\ (over_threshold (violationThreshold svc) (violations s) ->
      exists o,
        snd (recordViolation now id violationType (record_all calls svc)) = Some o
        /\ shouldTerminate o = true).
Proof.
  intros Hs. split.
  - unfold recordViolation. rewrite Hs. cbn [snd]. eexists.
    split; [reflexivity |].
    cbn [totalViolations criticalCount majorCount minorCount recorded severity].
    pose proof (count_severity_total
                  (violations s
                   ++ [mkViolation violationType now
                         (getViolationSeverity violationType)])) as Hsum.
    rewrite length_app in Hsum |- *. cbn [length] in Hsum |- *.
    split; [lia |]. split; [lia |].
    rewrite unclassed_app in Hsum. cbn [severity] in Hsum.
    assert (H0 : 0 <= unclassed (violations s)) by (unfold unclassed; lia).
    destruct (getViolationSeverity_cases violationType)
      as [[Hin Hsev] | [Hin Hsev]]; rewrite Hin.
    + split; [| intros H; discriminate H].
      intros _. split; [exact Hsev |]. rewrite Hsev in Hsum |- *. lia.
    + split; [intros H; discriminate H |].
      intros _ Hnone. destruct Hsev as [Hsev | [Hsev | Hsev]];
        rewrite Hsev in Hsum |- *; lia.
  - intros Hover.
    destruct (record_all_grows calls svc) as [Hthr Hgrow].
    destruct (Hgrow id s Hs) as (s' & extra & Hs' & Hv').
    unfold recordViolation. rewrite Hs'. cbn [snd]. eexists.
    split; [reflexivity |]. cbn [shouldTerminate].
    rewrite Hthr, Hv', <- app_assoc. apply orb_true_iff.
    destruct Hover as [Hc | Hm]; [left | right]; apply Z.leb_le.
    + pose proof (count_severity_app_le critical (violations s)
                    (extra ++ [mkViolation violationType now
                                 (getViolationSeverity violationType)])). lia.
    + pose proof (count_severity_app_le major (violations s)
                    (extra ++ [mkViolation violationType now
                                 (getViolationSeverity violationType)])). lia.
Qed.

(** A violation of the kind [toString] on a session just started: it
    makes the total 1, and the three counts stay at 0. *)
Lemma recordViolation_counts_witness :
  exists o,
    snd (recordViolation 2000 "TEST000001001" "toString" Monitor.one_session)
      = Some o
    /\ totalViolations o = 1
    /\ criticalCount o + majorCount o + minorCount o < 1.
Proof.
  destruct (recordViolation_counts Monitor.one_session "TEST000001001"
              (mkSession "TEST000001001" 7 1000 [] true) [] 2000 "toString")
    as [(o & Ho & Ht & _ & Hin & _) _].
  - vm_compute. reflexivity.
  - exists o. split; [exact Ho |]. split; [exact Ht |].
    pose proof (proj2 (Hin eq_refl)) as Hlt. rewrite Ht in Hlt. exact Hlt.
Defined.

(** X8.  Sessions do not interfere: a call for a session the service does
    not know fails and changes nothing, and a call for a session leaves
    every other session exactly as it was. *)
Theorem recordViolation_isolated (svc : t) (now : Z) (id violationType : string) :
  (activeTestSessions svc !! id = None ->
   recordViolation now id violationType svc = (svc, None))
  /\ (forall id', id' <> id ->
        activeTestSessions (fst (recordViolation now id violationType svc)) !! id'
        = activeTestSessions svc !! id')
  /\ proctoringEnabled (fst (recordViolation now id violationType svc))
     = proctoringEnabled svc
  /\ (forall userId,
        proctoringEnabled svc = false ->
        startProctoring now id userId svc = (svc, false)).
Proof.
  unfold recordViolation, startProctoring. split; [intros ->; reflexivity |].
  split.
  - intros id' Hne. destruct (activeTestSessions svc !! id); cbn [fst];
      [| reflexivity].
    cbn [activeTestSessions]. apply lookup_insert_ne. congruence.
  - split; [destruct (activeTestSessions svc !! id); reflexivity |].
    intros userId ->. reflexivity.
Qed.

Lemma tally_fold_lookup {K} `{Countable K} (keys : list K) (acc : gmap K Z) (k : K) :
  fold_left (fun acc k => <[k := default 0 (acc !! k) + 1]> acc) keys acc !! k
  = if occurrences k keys =? 0 then acc !! k
    else Some (default 0 (acc !! k) + occurrences k keys).
Proof.
  revert acc. induction keys as [|x keys IH]; intros acc; [reflexivity |].
  cbn [fold_left]. rewrite IH. unfold occurrences. cbn [List.filter].
  destruct (decide (x = k)) as [-> | Hne].
  - rewrite bool_decide_eq_true_2 by reflexivity. cbn [length].
    rewrite lookup_insert_eq. cbn [default].
    generalize (length (List.filter (fun x => bool_decide (x = k)) keys)).
    intros n. destruct (Z.eqb_spec (Z.of_nat n) 0);
      destruct (Z.eqb_spec (Z.of_nat (S n)) 0); try lia; apply f_equal;
      unfold id; lia.
  - rewrite bool_decide_eq_false_2 by exact Hne.
    rewrite lookup_insert_ne by exact Hne. reflexivity.
Qed.

Lemma tally_lookup {K} `{Countable K} (keys : list K) (k : K) :
  tally keys !! k
  = if occurrences k keys =? 0 then None else Some (occurrences k keys).
Proof.
  unfold tally. rewrite tally_fold_lookup, lookup_empty. cbn [default].
  destruct (_ =? 0); [reflexivity | apply f_equal; lia].
Qed.

Lemma tally_step_ne (acc : gmap string cell) (x k : string) :
  x <> k -> tally_step acc x !! k = acc !! k.
Proof.
  intros Hne. unfold tally_step.
  repeat case_match; rewrite ?lookup_insert_ne by exact Hne; reflexivity.
Qed.

Lemma occurrences_cons {K} `{EqDecision K} (k x : K) (keys : list K) :
  occurrences k (x :: keys)
  = (if bool_decide (x = k) then 1 else 0) + occurrences k keys.
Proof.
  unfold occurrences. cbn [List.filter].
  destruct (bool_decide (x = k)); cbn [length]; lia.
Qed.

Lemma occurrences_nonneg {K} `{EqDecision K} (k : K) (keys : list K) :
  0 <= occurrences k keys.
Proof. unfold occurrences. lia. Qed.

(** Under a kind that is no member of [Object.prototype] the accumulator
    counts. *)
Lemma tally_types_fold_count (kinds : list string) (acc : gmap string cell)
    (k : string) (n : Z) :
  JS.is_inherited k = false ->
  acc !! k = (if n =? 0 then None else Some (Count n)) -> 0 <= n ->
  fold_left tally_step kinds acc !! k
  = if n + occurrences k kinds =? 0 then None
    else Some (Count (n + occurrences k kinds)).
Proof.
  intros Hk. revert acc n.
  induction kinds as [|x kinds IH]; intros acc n Hacc Hn.
  - cbn [fold_left]. unfold occurrences. cbn. rewrite Z.add_0_r. exact Hacc.
  - cbn [fold_left]. rewrite occurrences_cons.
    pose proof (occurrences_nonneg k kinds) as Hocc.
    destruct (decide (x = k)) as [-> | Hne].
    + rewrite bool_decide_eq_true_2 by reflexivity.
      rewrite (IH _ (n + 1)); [f_equal; try lia | | lia].
      * replace (n + 1 + occurrences k kinds)
          with (n + (1 + occurrences k kinds)) by lia. reflexivity.
      * unfold tally_step. rewrite Hacc.
        destruct (Z.eqb_spec (n + 1) 0); [lia |].
        destruct (Z.eqb_spec n 0) as [Hn0 | Hn0].
        -- case_bool_decide as Hp; [subst k; discriminate Hk |].
           rewrite Hk, Hn0. apply lookup_insert_eq.
        -- apply lookup_insert_eq.
    + rewrite bool_decide_eq_false_2 by exact Hne.
      rewrite (IH _ n); [reflexivity | | exact Hn].
      rewrite tally_step_ne by exact Hne. exact Hacc.
Qed.

(** Under a member of [Object.prototype] it never does. *)
Lemma tally_types_fold_text (kinds : list string) (acc : gmap string cell)
    (k : string) :
  JS.is_inherited k = true ->
  (forall n, acc !! k <> Some (Count n)) ->
  forall n, fold_left tally_step kinds acc !! k <> Some (Count n).
Proof.
  intros Hk. revert acc.
  induction kinds as [|x kinds IH]; intros acc Hacc; [exact Hacc |].
  cbn [fold_left]. apply IH. intros n.
  destruct (decide (x = k)) as [-> | Hne].
  - unfold tally_step. destruct (acc !! k) as [[m | s] |] eqn:E.
    + exfalso. exact (Hacc m eq_refl).
    + rewrite lookup_insert_eq. discriminate.
    + case_bool_decide; [rewrite E; discriminate |].
      rewrite Hk, lookup_insert_eq. discriminate.
  - rewrite tally_step_ne by exact Hne. apply Hacc.
Qed.

Lemma occurrences_severity (sev : severity_t) (vs : list violation) :
  occurrences sev (severity <$> vs) = count_severity sev vs.
Proof.
  unfold occurrences, count_severity. f_equal.
  induction vs as [|v vs IH]; [reflexivity |].
  cbn [fmap list_fmap List.filter]. fold (fmap severity vs).
  destruct (bool_decide _); cbn [length]; rewrite IH; reflexivity.
Qed.

(** X9.  [stopProctoring] on a known session gives its report and forgets
    the session.  The report counts every violation once, by severity as
    the counts of the service do (a severity that did not occur has no
    entry), and by kind for every kind that is not named like a member of
    [Object.prototype]; under such a name the report never holds a count.
    Its risk level is HIGH exactly from two critical violations on, when
    it also recommends invalidation, and it is never below MEDIUM for a
    session over a termination threshold of at least three.
    Afterwards the session has no status, a violation for it is refused, a
    second stop fails, and the other sessions are as they were. *)
Theorem stopProctoring_report (svc : t) (now : Z) (id : string) (s : session) :
  activeTestSessions svc !! id = Some s ->
  let svc' := fst (stopProctoring now id svc) in
  (exists r,
      snd (stopProctoring now id svc) = Some r
      /\ r_totalViolations r = Z.of_nat (length (violations s))
      /\ (forall sev,
            violationsBySeverity r !! sev
            = if count_severity sev (violations s) =? 0 then None
              else Some (count_severity sev (violations s)))
      /\ (forall ty,
            JS.is_inherited ty = false ->
            violationsByType r !! ty
            = if occurrences ty (type <$> violations s) =? 0 then None
              else Some (Count (occurrences ty (type <$> violations s))))
      /\ (forall ty n,
            JS.is_inherited ty = true ->
            violationsByType r !! ty <> Some (Count n))
      /\ r_duration r
         = JS.Math_round (inject_Z (now - startTime s) / 1000 / 60)%Q
      /\ (riskLevel r = HIGH <-> 2 <= count_severity critical (violations s))
      /\ (riskLevel r = HIGH <->
          "High-risk session - recommend test invalidation"%string
            ∈ recommendations r)
      /\ (over_threshold (violationThreshold svc) (violations s) ->
          3 <= violationThreshold svc ->
          riskLevel r = HIGH \/ riskLevel r = MEDIUM))
  /\ getSessionStatus id svc' = None
  /\ (forall at_ ty, recordViolation at_ id ty svc' = (svc', None))
  /\ (forall at_, stopProctoring at_ id svc' = (svc', None))
  /\ (forall id', id' <> id ->
        activeTestSessions svc' !! id' = activeTestSessions svc !! id').
Proof.
  intros Hs svc'.
  assert (Hsvc' : svc' = mk (delete id (activeTestSessions svc))
                           (violationThreshold svc) (proctoringEnabled svc)).
  { unfold svc', stopProctoring. rewrite Hs. reflexivity. }
  assert (Hgone : activeTestSessions svc' !! id = None).
  { rewrite Hsvc'. cbn. apply lookup_delete_eq. }
  split.
  - unfold stopProctoring, generateProctoringReport. rewrite Hs. cbn [snd].
    eexists. split; [reflexivity |].
    cbn [r_totalViolations violationsBySeverity violationsByType r_duration
         riskLevel recommendations default].
    split; [reflexivity |].
    split; [intros sev; rewrite tally_lookup, occurrences_severity; reflexivity |].
    split.
    { intros ty Hty. unfold tally_types.
      rewrite (tally_types_fold_count _ _ ty 0 Hty); [reflexivity | | lia].
      apply lookup_empty. }
    split.
    { intros ty n Hty. unfold tally_types.
      apply tally_types_fold_text; [exact Hty |].
      intros m. rewrite lookup_empty. discriminate. }
    split; [reflexivity |].
    pose proof (count_severity_nonneg critical (violations s)) as Hc0.
    pose proof (count_severity_nonneg major (violations s)) as Hm0.
    assert (Hrisk : calculateRiskLevel (violations s) = HIGH
                    <-> 2 <= count_severity critical (violations s)).
    { unfold calculateRiskLevel.
      destruct (Z.leb_spec 2 (count_severity critical (violations s)));
        [tauto |].
      repeat case_match; split; intros; try discriminate; lia. }
    split; [exact Hrisk |].
    split.
    { rewrite Hrisk. unfold generateRecommendations.
      rewrite !elem_of_app.
      destruct (Z.leb_spec 2 (count_severity critical (violations s))).
      - split; [intros _ | tauto]. right; right; right. left.
      - split; [lia |]. intros Hin. exfalso.
        repeat case_match;
          repeat match goal with
                 | H : _ \/ _ |- _ => destruct H
                 | H : _ ∈ [] |- _ => inversion H
                 | H : _ ∈ [_] |- _ => apply list_elem_of_singleton in H; discriminate H
                 end. }
    intros Hover Hthr. unfold calculateRiskLevel.
    destruct (Z.leb_spec 2 (count_severity critical (violations s)));
      [left; reflexivity |].
    right. destruct Hover as [? | Hmaj]; [lia |].
    destruct (Z.leb_spec 1 (count_severity critical (violations s)));
      [reflexivity |].
    destruct (Z.leb_spec 3 (count_severity major (violations s)));
      [reflexivity | lia].
  - split; [unfold getSessionStatus; rewrite Hgone; reflexivity |].
    split; [intros at_ ty; unfold recordViolation; rewrite Hgone; reflexivity |].
    split; [intros at_; unfold stopProctoring; rewrite Hgone; reflexivity |].
    intros id' Hne. rewrite Hsvc'. cbn. apply lookup_delete_ne. congruence.
Qed.

Lemma stopProctoring_report_witness :
  getSessionStatus "TEST000001001"
    (fst (stopProctoring 9000 "TEST000001001" Monitor.one_session)) = None.
Proof.
  refine (proj1 (proj2
    (stopProctoring_report Monitor.one_session 9000 "TEST000001001"
       (mkSession "TEST000001001" 7 1000 [] true) _))).
  vm_compute. reflexivity.
Defined.

End ProctoringReports.

(** ** Recording an answer *)

Section RecordingAnswers.

Import Scoring.

Lemma update_first_insert {A} (p : A -> bool) (x' : A) (l : list A) (q : A) :
  List.find p l = Some q ->
  exists i,
    l !! i = Some q
    /\ p q = true
    /\ (forall j x, (j < i)%nat -> l !! j = Some x -> p x = false)
    /\ Test.update_first p x' l = <[i := x']> l.
Proof.
  induction l as [|x l IH]; [discriminate |].
  cbn [List.find Test.update_first]. destruct (p x) eqn:Hp.
  - intros [= ->]. exists 0%nat. repeat split; try assumption.
    intros j y Hj. lia.
  - intros Hf. destruct (IH Hf) as (i & Hi & Hq & Hfirst & Hup).
    exists (S i). split; [exact Hi |]. split; [exact Hq |]. split.
    + intros [|j] y Hj Hy; [injection Hy as <-; exact Hp |].
      apply (Hfirst j y); [lia | exact Hy].
    + cbn. rewrite Hup. reflexivity.
Qed.

Lemma count_insert {A} (p : A -> bool) (l : list A) (i : nat) (q q' : A) :
  l !! i = Some q ->
  count p (<[i := q']> l)
  = count p l - (if p q then 1 else 0) + (if p q' then 1 else 0).
Proof.
  unfold count. revert i. induction l as [|x l IH]; intros i Hi; [discriminate |].
  destruct i as [|i]; cbn [lookup list_lookup] in Hi.
  - apply Some_eq in Hi. subst x. cbn [insert list_insert List.filter].
    destruct (p q), (p q'); cbn [length]; lia.
  - change (<[S i := q']> (x :: l)) with (x :: <[i := q']> l).
    cbn [List.filter]. specialize (IH i Hi).
    destruct (p x), (p q), (p q'); cbn [length]; lia.
Qed.

Lemma record_answer_answered nm now a ts q q' :
  Test.record_answer nm now a ts q = Some q' ->
  Test.Slot.answered q' = true
  /\ Test.Response.selectedAnswer (Test.Slot.userResponse q') = a
  /\ Test.Response.timeSpent (Test.Slot.userResponse q') = ts
  /\ Test.Response.flaggedForReview (Test.Slot.userResponse q')
     = Test.Response.flaggedForReview (Test.Slot.userResponse q)
  /\ Test.Slot.questionNumber q' = Test.Slot.questionNumber q
  /\ Test.Slot.points q' = Test.Slot.points q
  /\ Test.Slot.negativePoints q' = Test.Slot.negativePoints q
  /\ Test.Slot.pointsEarned q'
     = (if Test.Slot.correct q' then Test.Slot.points q'
        else if nm then - Test.Slot.negativePoints q' else 0)
  /\ Test.record_answer nm now a ts q' = Some q'.
Proof.
  unfold Test.record_answer.
  destruct (bool_decide (Test.Slot.questionType q = "Multiple Choice"%string))
    eqn:Hmc.
  - intros H. apply Some_eq in H. subst q'. unfold Test.Slot.correct, Test.Slot.answered.
    cbn [Test.Slot.userResponse Test.Slot.isCorrect Test.Slot.questionType
         Test.Slot.options Test.Slot.questionNumber Test.Slot.points
         Test.Slot.negativePoints Test.Slot.pointsEarned Test.Slot.correctAnswer
         Test.Response.isAnswered Test.Response.selectedAnswer
         Test.Response.timeSpent Test.Response.flaggedForReview
         Test.Slot.questionId Test.Slot.questionText Test.Slot.category
         Test.Slot.difficulty].
    rewrite Hmc. repeat split.
    destruct (List.find Question.isCorrect (Test.Slot.options q)) as [o |];
      [destruct (bool_decide (Question.text o = a)) |]; reflexivity.
  - destruct (Test.Slot.correctAnswer q) as [c |] eqn:Hc; [| discriminate].
    intros H. apply Some_eq in H. subst q'. unfold Test.Slot.correct, Test.Slot.answered.
    cbn [Test.Slot.userResponse Test.Slot.isCorrect Test.Slot.questionType
         Test.Slot.options Test.Slot.questionNumber Test.Slot.points
         Test.Slot.negativePoints Test.Slot.pointsEarned Test.Slot.correctAnswer
         Test.Response.isAnswered Test.Response.selectedAnswer
         Test.Response.timeSpent Test.Response.flaggedForReview
         Test.Response.selectedOption
         Test.Slot.questionId Test.Slot.questionText Test.Slot.category
         Test.Slot.difficulty].
    rewrite Hmc. repeat split.
    destruct (bool_decide (JS.trim (JS.toLowerCase c) = _)); reflexivity.
Qed.

(** X10.  [submitAnswer] overwrites and does not duplicate.  When it
    succeeds, the questions are the same list with the first slot of the
    given number replaced by the recorded answer: the length is kept, the
    other slots are untouched, the number of answered questions goes up by
    one for a first answer and stays for a new answer to the same
    question, status and score block are as before; and the same call once
    more leaves the questions as they are.  Without a slot of that number
    it throws. *)
Theorem submitAnswer_overwrites (now : Z) (r : nat) (questionNumber : Z)
    (answer : string) (timeSpent : Z) (d d' : Test.t) :
  Test.submitAnswer now r questionNumber answer timeSpent d = Some d' ->
  (exists i q q',
      Test.questions d !! i = Some q
      /\ Test.Slot.questionNumber q = questionNumber
      /\ (forall j x, (j < i)%nat -> Test.questions d !! j = Some x ->
            Test.Slot.questionNumber x <> questionNumber)
      /\ Test.questions d' = <[i := q']> (Test.questions d)
      /\ Test.Slot.answered q' = true
      /\ Test.Response.selectedAnswer (Test.Slot.userResponse q') = answer
      /\ count Test.Slot.answered (Test.questions d')
         = count Test.Slot.answered (Test.questions d)
           + (if Test.Slot.answered q then 0 else 1))
  /\ length (Test.questions d') = length (Test.questions d)
  /\ Test.status d' = Test.status d
  /\ Test.score d' = Test.score d
  /\ (exists d'',
        Test.submitAnswer now r questionNumber answer timeSpent d' = Some d''
        /\ Test.questions d'' = Test.questions d').
Proof.
  unfold Test.submitAnswer.
  destruct (List.find (Test.has_number questionNumber) (Test.questions d))
    as [q |] eqn:Hfind; [| discriminate].
  destruct (Test.record_answer (Test.Config.negativeMarking (Test.testConfig d))
              now answer timeSpent q) as [q' |] eqn:Hrec; [| discriminate].
  intros H. apply save_Some in H as [-> Hv].
  rewrite pre_save_questions, pre_save_status, pre_save_score,
    pre_save_testConfig.
  cbn [Test.questions Test.set_questions Test.status Test.score Test.testConfig].
  destruct (update_first_insert _ q' _ _ Hfind) as (i & Hi & Hq & Hfirst & Hup).
  destruct (record_answer_answered _ _ _ _ _ _ Hrec)
    as (Hans & Hsel & _ & _ & Hnum & _ & _ & _ & Hagain).
  unfold Test.has_number in Hq. apply bool_decide_eq_true in Hq.
  rewrite Hup.
  split; [| split; [apply length_insert |]; split; [reflexivity |];
            split; [reflexivity |]].
  - exists i, q, q'. split; [exact Hi |]. split; [exact Hq |].
    split.
    { intros j x Hj Hx. specialize (Hfirst j x Hj Hx).
      unfold Test.has_number in Hfirst.
      apply bool_decide_eq_false in Hfirst. exact Hfirst. }
    split; [reflexivity |]. split; [exact Hans |]. split; [exact Hsel |].
    rewrite (count_insert _ _ _ q q' Hi), Hans.
    destruct (Test.Slot.answered q); lia.
  - assert (Hfind' : List.find (Test.has_number questionNumber)
                       (<[i := q']> (Test.questions d)) = Some q').
    { rewrite <- Hup. clear -Hfind Hnum Hrec.
      assert (Hq' : Test.has_number questionNumber q' = true).
      { apply List.find_some in Hfind as [_ Hq]. unfold Test.has_number in *.
        apply bool_decide_eq_true in Hq. apply bool_decide_eq_true.
        destruct (record_answer_answered _ _ _ _ _ _ Hrec)
          as (_ & _ & _ & _ & Hn & _). congruence. }
      revert Hfind. induction (Test.questions d) as [|x l IH];
        [discriminate |].
      cbn [List.find Test.update_first].
      destruct (Test.has_number questionNumber x) eqn:Hx.
      - intros _. cbn [List.find]. rewrite Hq'. reflexivity.
      - intros Hf. cbn [List.find]. rewrite Hx. apply IH. exact Hf. }
    rewrite Hfind', Hagain.
    assert (Hv' : forall qs d0, Test.valid (Test.set_questions qs d0)
                                = Test.valid d0) by reflexivity.
    rewrite save_valid
      by (rewrite Hv'; apply valid_pre_save; rewrite Hv' in Hv |- *; exact Hv).
    eexists. split; [reflexivity |].
    rewrite pre_save_questions. cbn [Test.questions Test.set_questions].
    destruct (update_first_insert _ q' _ _ Hfind') as (i' & Hi' & _ & _ & ->).
    apply list_insert_id. exact Hi'.
Qed.

Lemma submitAnswer_overwrites_witness :
  exists d',
    Test.submitAnswer 2000 0 1 "a" 5 ten_questions = Some d'
    /\ length (Test.questions d') = 10%nat.
Proof.
  destruct (Test.submitAnswer 2000 0 1 "a" 5 ten_questions) as [d' |] eqn:H;
    [| vm_compute in H; discriminate H].
  exists d'. split; [reflexivity |].
  rewrite (proj1 (proj2 (submitAnswer_overwrites 2000 0 1 "a" 5 ten_questions d' H))).
  reflexivity.
Defined.

End RecordingAnswers.

(** ** The score block and the analytics *)

Section ScoreBlock.

Import Scoring Breakdown Timing.

Lemma count_sumZ {A} (p : A -> bool) (l : list A) :
  count p l = sumZ (fun x => if p x then 1 else 0) l.
Proof.
  unfold count. induction l as [|x l IH]; [reflexivity |].
  rewrite sumZ_cons, <- IH. cbn [List.filter].
  destruct (p x); cbn [length]; lia.
Qed.

Lemma sumZ_filter {A} (f : A -> Z) (p : A -> bool) (l : list A) :
  sumZ f (List.filter p l) = sumZ (fun x => if p x then f x else 0) l.
Proof.
  induction l as [|x l IH]; [reflexivity |].
  rewrite sumZ_cons, <- IH. cbn [List.filter].
  destruct (p x); [rewrite sumZ_cons |]; lia.
Qed.

Lemma sumZ_plus {A} (f g : A -> Z) (l : list A) :
  sumZ (fun x => f x + g x) l = sumZ f l + sumZ g l.
Proof.
  induction l as [|x l IH]; [reflexivity |]. rewrite !sumZ_cons, IH. lia.
Qed.

Lemma sumZ_ext {A} (f g : A -> Z) (l : list A) :
  (forall x, x ∈ l -> f x = g x) -> sumZ f l = sumZ g l.
Proof.
  induction l as [|x l IH]; intros H; [reflexivity |].
  rewrite !sumZ_cons, IH, (H x) by (intros; try apply H; set_solver).
  reflexivity.
Qed.

Lemma sumZ_zero {A} (l : list A) : sumZ (fun _ => 0) l = 0.
Proof. induction l as [|x l IH]; [reflexivity |]. rewrite sumZ_cons, IH. lia. Qed.

Lemma sumZ_length {A} (l : list A) : sumZ (fun _ => 1) l = Z.of_nat (length l).
Proof.
  induction l as [|x l IH]; [reflexivity |].
  rewrite sumZ_cons, IH. cbn [length]. lia.
Qed.

Lemma sumZ_fmap {A B} (f : B -> Z) (g : A -> B) (l : list A) :
  sumZ f (g <$> l) = sumZ (fun x => f (g x)) l.
Proof.
  induction l as [|x l IH]; [reflexivity |].
  rewrite fmap_cons, !sumZ_cons, IH. reflexivity.
Qed.

Lemma fold_left_sumZ {A} (f : A -> Z) (l : list A) (a : Z) :
  fold_left (fun sum x => sum + f x) l a = a + sumZ f l.
Proof.
  revert a. induction l as [|x l IH]; intros a; cbn [fold_left].
  - cbn. lia.
  - rewrite IH, sumZ_cons. lia.
Qed.

(** The indicator of one key, summed over keys without repetition. *)
Lemma sumZ_indicator (ks : list string) (k : string) (v : Z) :
  NoDup ks -> k ∈ ks ->
  sumZ (fun k' => if bool_decide (k = k') then v else 0) ks = v.
Proof.
  induction 1 as [|x ks Hx Hnd IH]; intros Hk; [set_solver |].
  rewrite sumZ_cons. destruct (bool_decide_reflect (k = x)) as [-> | Hne].
  - rewrite (sumZ_ext _ (fun _ => 0)), sumZ_zero; [lia |].
    intros y Hy. rewrite bool_decide_eq_false_2; [reflexivity |].
    intros ->. contradiction.
  - rewrite IH; [lia |].
    apply elem_of_cons in Hk as [-> | Hk]; [contradiction | exact Hk].
Qed.

Lemma sumZ_by_key (key_of : Test.Slot.t -> string) (f : Test.Slot.t -> Z)
    (ks : list string) (qs : list Test.Slot.t) :
  NoDup ks -> (forall q, q ∈ qs -> key_of q ∈ ks) ->
  sumZ (fun k => sumZ (fun q => if bool_decide (key_of q = k) then f q else 0) qs) ks
  = sumZ f qs.
Proof.
  intros Hnd. induction qs as [|q qs IH]; intros Hin.
  - cbn [sumZ foldr]. apply sumZ_zero.
  - rewrite (sumZ_ext _
      (fun k => (if bool_decide (key_of q = k) then f q else 0)
                + sumZ (fun q => if bool_decide (key_of q = k) then f q else 0) qs)).
    2:{ intros k _. apply sumZ_cons. }
    rewrite sumZ_plus, IH, sumZ_cons by (intros; apply Hin; set_solver).
    rewrite sumZ_indicator; [reflexivity | exact Hnd | apply Hin; set_solver].
Qed.

Lemma uniq_elem (l : list string) (x : string) : x ∈ JS.uniq l <-> x ∈ l.
Proof.
  induction l as [|y l IH]; [reflexivity |].
  cbn [JS.uniq]. rewrite !elem_of_cons, bfilter_elem, IH.
  destruct (decide (x = y)) as [-> | Hne].
  - tauto.
  - rewrite bool_decide_eq_false_2 by exact Hne. cbn [negb]. tauto.
Qed.

Lemma uniq_NoDup (l : list string) : NoDup (JS.uniq l).
Proof.
  induction l as [|y l IH]; [constructor |].
  cbn [JS.uniq]. constructor.
  - rewrite bfilter_elem. intros [H _].
    rewrite bool_decide_eq_true_2 in H by reflexivity. discriminate.
  - apply bfilter_NoDup. exact IH.
Qed.

Lemma group_score_fields (key_of : Test.Slot.t -> string)
    (qs : list Test.Slot.t) (k : string) :
  let g := Test.group_score key_of qs k in
  Test.Group.name g = k
  /\ Test.Group.totalQuestions g
     = sumZ (fun q => if bool_decide (key_of q = k) then 1 else 0) qs
  /\ Test.Group.correctAnswers g
     = sumZ (fun q => if bool_decide (key_of q = k)
                      then (if Test.Slot.correct q then 1 else 0) else 0) qs
  /\ Test.Group.points g
     = sumZ (fun q => if bool_decide (key_of q = k) then charged q else 0) qs
  /\ Test.Group.percentage g
     = JS.round_percent (Test.Group.correctAnswers g) (Test.Group.totalQuestions g)
  /\ Test.Group.correctAnswers g <= Test.Group.totalQuestions g.
Proof.
  unfold Test.group_score.
  cbn [Test.Group.name Test.Group.totalQuestions Test.Group.correctAnswers
       Test.Group.points Test.Group.percentage].
  split; [reflexivity |]. split.
  { rewrite <- sumZ_length, sumZ_filter. reflexivity. }
  split.
  { fold (count Test.Slot.correct
            (List.filter (fun q => bool_decide (key_of q = k)) qs)).
    rewrite count_sumZ, sumZ_filter. reflexivity. }
  split.
  { unfold Test.group_points.
    rewrite (fold_left_sumZ charged), sumZ_filter. lia. }
  split; [reflexivity |].
  apply inj_le. rewrite (bfilter_eq Test.Slot.correct). apply length_filter.
Qed.

Lemma breakdown_splits (key_of : Test.Slot.t -> string) (qs : list Test.Slot.t) :
  splits key_of qs (Test.group_score key_of qs <$> JS.uniq (key_of <$> qs)).
Proof.
  set (ks := JS.uniq (key_of <$> qs)).
  assert (Hnd : NoDup ks) by apply uniq_NoDup.
  assert (Hin : forall q, q ∈ qs -> key_of q ∈ ks).
  { intros q Hq. apply uniq_elem, list_elem_of_fmap. eauto. }
  assert (Hnames : Test.Group.name <$> (Test.group_score key_of qs <$> ks) = ks).
  { rewrite <- list_fmap_compose. rewrite <- (list_fmap_id ks) at 2.
    apply list_fmap_ext. intros i k _. reflexivity. }
  unfold splits. rewrite Hnames.
  split; [exact Hnd |]. split.
  { intros k. unfold ks. rewrite uniq_elem, list_elem_of_fmap.
    split; intros (q & H1 & H2); exists q; auto. }
  split.
  { apply Forall_fmap, Forall_forall. intros k Hk.
    destruct (group_score_fields key_of qs k) as (_ & Htot & Hcor & _ & Hpct & Hle).
    cbn zeta in *. unfold group_ok, compose.
    assert (H1 : 1 <= Test.Group.totalQuestions (Test.group_score key_of qs k)).
    { rewrite Htot. apply uniq_elem, list_elem_of_fmap in Hk as (q & -> & Hq).
      clear -Hq. induction qs as [|x qs IH]; [set_solver |].
      rewrite sumZ_cons. apply elem_of_cons in Hq as [<- | Hq].
      - rewrite bool_decide_eq_true_2 by reflexivity.
        assert (0 <= sumZ (fun q0 => if bool_decide (key_of q0 = key_of q)
                                     then 1 else 0) qs); [| lia].
        apply sumZ_nonneg, Forall_forall. intros y _.
        destruct (bool_decide _); lia.
      - specialize (IH Hq). destruct (bool_decide _); lia. }
    assert (H0 : 0 <= Test.Group.correctAnswers (Test.group_score key_of qs k)).
    { rewrite Hcor. apply sumZ_nonneg, Forall_forall. intros y _.
      destruct (bool_decide _), (Test.Slot.correct y); lia. }
    split; [exact H1 |]. split; [lia |].
    rewrite Hpct.
    assert (Hpos : 0 < Test.Group.totalQuestions (Test.group_score key_of qs k))
      by lia.
    destruct (round_percent_le_100 _ _ Hpos Hle) as (p & Hp & Hp100).
    destruct (round_percent_ge_0 _ _ Hpos H0) as (p' & Hp' & Hp0).
    exists p. split; [exact Hp |]. rewrite Hp in Hp'.
    injection Hp' as ->. lia. }
  rewrite !sumZ_fmap.
  split; [| split].
  - rewrite (sumZ_ext _ (fun k => sumZ (fun q => if bool_decide (key_of q = k)
                                                 then 1 else 0) qs)).
    2:{ intros k _. apply (group_score_fields key_of qs k). }
    rewrite sumZ_by_key by assumption. apply sumZ_length.
  - rewrite (sumZ_ext _ (fun k => sumZ (fun q => if bool_decide (key_of q = k)
        then (if Test.Slot.correct q then 1 else 0) else 0) qs)).
    2:{ intros k _. apply (group_score_fields key_of qs k). }
    rewrite sumZ_by_key by assumption. symmetry. apply count_sumZ.
  - rewrite (sumZ_ext _ (fun k => sumZ (fun q => if bool_decide (key_of q = k)
        then charged q else 0) qs)).
    2:{ intros k _. apply (group_score_fields key_of qs k). }
    apply sumZ_by_key; assumption.
Qed.

Lemma count_nonneg {A} (p : A -> bool) (l : list A) : 0 <= count p l.
Proof. unfold count. lia. Qed.

Lemma count_split {A} (p r : A -> bool) (l : list A) :
  count p l = count (fun x => p x && r x) l + count (fun x => p x && negb (r x)) l.
Proof.
  rewrite !count_sumZ, <- sumZ_plus. apply sumZ_ext. intros x _.
  destruct (p x), (r x); reflexivity.
Qed.

(** X11.  The counters of [calculateScore] add up, for any document: the
    score block counts every question once as attempted or unanswered and
    every attempted one once as right or wrong; without negative marking
    nothing is deducted and the net score is the points earned; [isPassed]
    compares the percentage with the pass mark; the questions and the
    status are left as they are. *)
Theorem calculateScore_counts (d : Test.t) :
  let d' := Test.calculateScore d in
  let s := Test.score d' in
  Test.Score.totalQuestions s = Z.of_nat (length (Test.questions d))
  /\ Test.Score.attemptedQuestions s + Test.Score.unansweredQuestions s
     = Test.Score.totalQuestions s
  /\ Test.Score.correctAnswers s + Test.Score.wrongAnswers s
     = Test.Score.attemptedQuestions s
  /\ 0 <= Test.Score.correctAnswers s
  /\ 0 <= Test.Score.wrongAnswers s
  /\ 0 <= Test.Score.unansweredQuestions s
  /\ (Test.Config.negativeMarking (Test.testConfig d) = false ->
      Test.Score.negativePoints s = 0
      /\ Test.Score.netScore s = Test.Score.pointsEarned s)
  /\ Test.isPassed d'
     = JS.geb (Test.Score.percentage s)
         (JS.Num (Test.Config.passingPercentage (Test.testConfig d)))
  /\ Test.Score.grade s = Test.grade_of (Test.Score.percentage s)
  /\ Test.questions d' = Test.questions d
  /\ Test.status d' = Test.status d.
Proof.
  cbn zeta. unfold Test.calculateScore, Test.compute_score.
  cbn [Test.score Test.set_isPassed Test.set_score Test.isPassed
       Test.questions Test.status Test.testConfig
       Test.Score.totalQuestions Test.Score.attemptedQuestions
       Test.Score.unansweredQuestions Test.Score.correctAnswers
       Test.Score.wrongAnswers Test.Score.negativePoints Test.Score.netScore
       Test.Score.pointsEarned Test.Score.percentage Test.Score.grade].
  rewrite tally_questions_eq.
  cbn [Test.t_attempted Test.t_correct Test.t_wrong Test.t_unanswered
       Test.t_totalPoints Test.t_pointsEarned Test.t_negativePoints].
  split; [reflexivity |]. split.
  { rewrite <- sumZ_length, !count_sumZ, <- sumZ_plus. apply sumZ_ext.
    intros q _. unfold unanswered. destruct (Test.Slot.answered q); reflexivity. }
  split.
  { symmetry. apply (count_split Test.Slot.answered Test.Slot.correct). }
  split; [apply count_nonneg |]. split; [apply count_nonneg |].
  split; [apply count_nonneg |]. split.
  { intros ->. split; [reflexivity | lia]. }
  repeat split.
Qed.

(** X12.  The two breakdowns of [calculateScore] split the questions: one
    group for each category (difficulty) that occurs and none twice; each
    group has at least one question, no more right answers than
    questions, and a percentage between 0 and 100; the questions and the
    right answers of the groups add up to those of the test, and their
    points to the sum of what each question is charged, a wrong answer
    being charged whatever the negative-marking setting is. *)
Theorem calculateScore_breakdown (d : Test.t) :
  let s := Test.score (Test.calculateScore d) in
  splits Test.Slot.category (Test.questions d) (Test.Score.categoryWiseScore s)
  /\ splits Test.Slot.difficulty (Test.questions d)
       (Test.Score.difficultyWiseScore s).
Proof.
  cbn zeta. unfold Test.calculateScore, Test.compute_score.
  cbn [Test.score Test.set_isPassed Test.set_score
       Test.Score.categoryWiseScore Test.Score.difficultyWiseScore].
  split; apply breakdown_splits.
Qed.

(** X13.  With negative marking on, and only answered questions marked
    right, the points of the groups of either breakdown add up to the net
    score. *)
Theorem calculateScore_group_points (d : Test.t) :
  Test.Config.negativeMarking (Test.testConfig d) = true ->
  marked (Test.questions d) ->
  let s := Test.score (Test.calculateScore d) in
  sumZ Test.Group.points (Test.Score.categoryWiseScore s) = Test.Score.netScore s
  /\ sumZ Test.Group.points (Test.Score.difficultyWiseScore s)
     = Test.Score.netScore s.
Proof.
  intros Hnm Hmarked. cbn zeta.
  unfold Test.calculateScore, Test.compute_score.
  cbn [Test.score Test.set_isPassed Test.set_score Test.Score.netScore
       Test.Score.categoryWiseScore Test.Score.difficultyWiseScore].
  destruct (breakdown_splits Test.Slot.category (Test.questions d))
    as (_ & _ & _ & _ & _ & Hc).
  destruct (breakdown_splits Test.Slot.difficulty (Test.questions d))
    as (_ & _ & _ & _ & _ & Hd).
  rewrite Hc, Hd. clear Hc Hd.
  assert (Hnet : Test.t_pointsEarned (Test.tally_questions
                   (Test.Config.negativeMarking (Test.testConfig d))
                   (Test.questions d))
                 - Test.t_negativePoints (Test.tally_questions
                   (Test.Config.negativeMarking (Test.testConfig d))
                   (Test.questions d))
                 = sumZ charged (Test.questions d)).
  { rewrite tally_questions_eq, Hnm.
    cbn [Test.t_pointsEarned Test.t_negativePoints].
    rewrite !sumZ_filter.
    induction Hmarked as [|q qs Hq _ IH]; [reflexivity |].
    rewrite !sumZ_cons. unfold charged at 1, answered_correct at 1,
      answered_wrong at 1.
    revert Hq. destruct (Test.Slot.correct q), (Test.Slot.answered q);
      cbn [andb negb]; intros Hq;
      [lia | specialize (Hq eq_refl); discriminate | lia | lia]. }
  rewrite Hnet. split; reflexivity.
Qed.

Lemma calculateScore_group_points_witness :
  sumZ Test.Group.points
    (Test.Score.categoryWiseScore (Test.score (Test.calculateScore six_two_two)))
  = Test.Score.netScore (Test.score (Test.calculateScore six_two_two)).
Proof.
  pose proof (calculateScore_group_points six_two_two) as H.
  cbv zeta in H.
  destruct H as [Hc _];
    [ vm_compute; reflexivity
    | apply (bool_decide_unpack _); vm_compute; exact I
    | exact Hc ].
Defined.


Lemma insert_by_time_perm (q : Test.Slot.t) (l : list Test.Slot.t) :
  Test.insert_by_time q l ≡ₚ q :: l.
Proof.
  induction l as [|x l IH]; [reflexivity |].
  cbn [Test.insert_by_time].
  destruct (Test.timeSpent_of q <=? Test.timeSpent_of x); [reflexivity |].
  rewrite IH. apply Permutation_swap.
Qed.

Lemma sort_by_time_perm (l : list Test.Slot.t) : Test.sort_by_time l ≡ₚ l.
Proof.
  unfold Test.sort_by_time. induction l as [|x l IH]; [reflexivity |].
  cbn [foldr]. rewrite insert_by_time_perm, IH. reflexivity.
Qed.

Lemma insert_by_time_sorted (q : Test.Slot.t) (l : list Test.Slot.t) :
  StronglySorted by_time l -> StronglySorted by_time (Test.insert_by_time q l).
Proof.
  induction 1 as [|x l Hs IH Hx]; cbn [Test.insert_by_time].
  - repeat constructor.
  - destruct (Z.leb_spec (Test.timeSpent_of q) (Test.timeSpent_of x)).
    + constructor; [constructor; assumption |].
      constructor; [assumption |].
      eapply Forall_impl; [exact Hx |]. unfold by_time. intros y Hy. lia.
    + constructor; [exact IH |].
      rewrite insert_by_time_perm. constructor; [| exact Hx].
      unfold by_time. lia.
Qed.

Lemma sort_by_time_sorted (l : list Test.Slot.t) :
  StronglySorted by_time (Test.sort_by_time l).
Proof.
  unfold Test.sort_by_time. induction l as [|x l IH]; [constructor |].
  cbn [foldr]. apply insert_by_time_sorted, IH.
Qed.

Lemma sorted_head (l : list Test.Slot.t) (x : Test.Slot.t) :
  StronglySorted by_time l -> head l = Some x ->
  x ∈ l /\ forall y, y ∈ l -> Test.timeSpent_of x <= Test.timeSpent_of y.
Proof.
  intros Hs Hh. destruct l as [|x' l]; [discriminate |].
  apply Some_eq in Hh. subst x'. split; [left |].
  apply StronglySorted_inv in Hs as [_ Hx].
  intros y Hy. apply elem_of_cons in Hy as [-> | Hy]; [lia |].
  rewrite Forall_forall in Hx. apply Hx, Hy.
Qed.

Lemma sorted_last (l : list Test.Slot.t) (z : Test.Slot.t) :
  StronglySorted by_time l -> last l = Some z ->
  z ∈ l /\ forall y, y ∈ l -> Test.timeSpent_of y <= Test.timeSpent_of z.
Proof.
  induction 1 as [|x l Hs IH Hx]; [discriminate |].
  destruct l as [|x' l'].
  - intros Hl. apply Some_eq in Hl. subst z. split; [left |].
    intros y Hy. apply list_elem_of_singleton in Hy. subst y. lia.
  - change (last (x :: x' :: l')) with (last (x' :: l')).
    intros Hl. destruct (IH Hl) as [Hz Hmax]. split; [right; exact Hz |].
    intros y Hy. apply elem_of_cons in Hy as [-> | Hy]; [| apply Hmax, Hy].
    rewrite Forall_forall in Hx. apply Hx, Hz.
Qed.

Lemma sumZ_bounds {A} (f : A -> Z) (l : list A) (lo hi : Z) :
  (forall x, x ∈ l -> lo <= f x <= hi) ->
  lo * Z.of_nat (length l) <= sumZ f l <= hi * Z.of_nat (length l).
Proof.
  induction l as [|x l IH]; intros H; [cbn; lia |].
  rewrite sumZ_cons. cbn [length].
  specialize (H x ltac:(left)) as Hx.
  specialize (IH ltac:(intros y Hy; apply H; right; exact Hy)). lia.
Qed.

Lemma count_in_range_sumZ (lo : Z) (hi : option Z) (l : list Test.Slot.t) :
  Test.count_in_range lo hi l
  = sumZ (fun q => if (lo <=? Test.timeSpent_of q)
                      && match hi with
                         | Some h => Test.timeSpent_of q <? h
                         | None => true
                         end
                   then 1 else 0) l.
Proof. unfold Test.count_in_range. apply (count_sumZ _ l). Qed.

(** X14.  [calculateAnalytics] leaves questions, status and score alone.
    Without an answered question it only sets the average to 0.
    Otherwise the fastest and the slowest entries are those of answered
    questions, no answered question took less than the fastest or more
    than the slowest, the average lies between the two, and when no time
    is negative the four ranges of the distribution count every answered
    question once. *)
Theorem calculateAnalytics_summary (d : Test.t) :
  let d' := Test.calculateAnalytics d in
  let a := Test.analytics d' in
  Test.questions d' = Test.questions d
  /\ Test.status d' = Test.status d
  /\ Test.score d' = Test.score d
  /\ Test.Analytics.attemptPattern a
     = Test.Analytics.attemptPattern (Test.analytics d)
  /\ (answeredQuestions d = [] ->
      a = Test.Analytics.mk 0
            (Test.Analytics.fastestQuestion (Test.analytics d))
            (Test.Analytics.slowestQuestion (Test.analytics d))
            (Test.Analytics.timeDistribution (Test.analytics d))
            (Test.Analytics.attemptPattern (Test.analytics d)))
  /\ (answeredQuestions d <> [] ->
      exists fastest slowest,
        fastest ∈ answeredQuestions d
        /\ slowest ∈ answeredQuestions d
        /\ Test.Analytics.fastestQuestion a = Some (entry fastest)
        /\ Test.Analytics.slowestQuestion a = Some (entry slowest)
        /\ (forall q, q ∈ answeredQuestions d ->
              Test.timeSpent_of fastest <= Test.timeSpent_of q
              <= Test.timeSpent_of slowest)
        /\ Test.timeSpent_of fastest <= Test.Analytics.avgTimePerQuestion a
           <= Test.timeSpent_of slowest
        /\ fst <$> Test.Analytics.timeDistribution a
           = ["0-30s"; "30-60s"; "60-120s"; "120s+"]%string
        /\ (Forall (fun q => 0 <= Test.timeSpent_of q) (answeredQuestions d) ->
            sumZ snd (Test.Analytics.timeDistribution a)
            = Z.of_nat (length (answeredQuestions d)))).
Proof.
  cbn zeta. unfold Test.calculateAnalytics, answeredQuestions.
  destruct (List.filter Test.Slot.answered (Test.questions d)) as [|q0 l] eqn:Hans.
  - cbn [Test.analytics Test.set_analytics Test.questions Test.status
         Test.score Test.Analytics.attemptPattern].
    repeat split; try reflexivity. intros H. contradiction.
  - set (ans := q0 :: l) in *.
    cbn [Test.analytics Test.set_analytics Test.questions Test.status
         Test.score Test.Analytics.attemptPattern
         Test.Analytics.fastestQuestion Test.Analytics.slowestQuestion
         Test.Analytics.avgTimePerQuestion Test.Analytics.timeDistribution].
    do 4 (split; [reflexivity |]). split; [discriminate |]. intros _.
    assert (Hperm := sort_by_time_perm ans).
    assert (Hsorted := sort_by_time_sorted ans).
    destruct (head (Test.sort_by_time ans)) as [qf |] eqn:Hhead.
    2:{ apply head_None in Hhead. rewrite Hhead in Hperm.
        symmetry in Hperm. apply Permutation_nil_r in Hperm. discriminate. }
    destruct (last (Test.sort_by_time ans)) as [qs |] eqn:Hlast.
    2:{ apply last_None in Hlast. rewrite Hlast in Hperm.
        symmetry in Hperm. apply Permutation_nil_r in Hperm. discriminate. }
    destruct (sorted_head _ _ Hsorted Hhead) as [Hf Hmin].
    destruct (sorted_last _ _ Hsorted Hlast) as [Hs Hmax].
    assert (Hbounds : forall q, q ∈ ans ->
              Test.timeSpent_of qf <= Test.timeSpent_of q
              <= Test.timeSpent_of qs).
    { intros q Hq. rewrite <- Hperm in Hq. split; [apply Hmin | apply Hmax]; exact Hq. }
    exists qf, qs. rewrite Hperm in Hf, Hs.
    split; [exact Hf |]. split; [exact Hs |].
    split; [reflexivity |]. split; [reflexivity |].
    split; [exact Hbounds |]. split.
    { rewrite (fold_left_sumZ Test.timeSpent_of).
      destruct (sumZ_bounds Test.timeSpent_of ans _ _ Hbounds) as [Hlo Hhi].
      assert (Hn : 0 < Z.of_nat (length ans)) by (unfold ans; cbn [length]; lia).
      apply Math_round_between.
      - apply Qle_div_l; [exact Hn | lia].
      - apply Qle_div_r; [exact Hn | lia]. }
    split; [reflexivity |].
    intros Hpos. cbn [sumZ foldr snd].
    rewrite !count_in_range_sumZ, Z.add_0_r, <- !sumZ_plus, <- sumZ_length.
    apply sumZ_ext. intros q Hq. rewrite Forall_forall in Hpos.
    specialize (Hpos q Hq).
    destruct (Z.leb_spec 0 (Test.timeSpent_of q)),
             (Z.leb_spec 30 (Test.timeSpent_of q)),
             (Z.leb_spec 60 (Test.timeSpent_of q)),
             (Z.leb_spec 120 (Test.timeSpent_of q)),
             (Z.ltb_spec (Test.timeSpent_of q) 30),
             (Z.ltb_spec (Test.timeSpent_of q) 60),
             (Z.ltb_spec (Test.timeSpent_of q) 120); cbn [andb]; lia.
Qed.

End ScoreBlock.

(** ** The endpoints, request by request *)

Section SessionSteps.

Import Routes Sessions Steps Scoring.

Ltac saved := unfold Test.pre_save; repeat case_match; reflexivity.

Lemma pre_save_startTime now r d :
  Test.startTime (Test.pre_save now r d) = Test.startTime d.
Proof. saved. Qed.

Lemma pre_save_attemptNumber now r d :
  Test.attemptNumber (Test.pre_save now r d) = Test.attemptNumber d.
Proof. saved. Qed.

Lemma pre_save_timeRemaining now r d :
  Test.timeRemaining (Test.pre_save now r d) = Test.timeRemaining d.
Proof. saved. Qed.

Lemma pre_save_analytics now r d :
  Test.analytics (Test.pre_save now r d) = Test.analytics d.
Proof. saved. Qed.

Lemma pre_save_endTime now r d :
  Test.endTime (Test.pre_save now r d) = Test.endTime d.
Proof. saved. Qed.

Lemma pre_save_isRetake now r d :
  Test.isRetake (Test.pre_save now r d) = Test.isRetake d.
Proof. saved. Qed.

(** The fields the hook and the setters leave alone, read through them. *)
Ltac fields :=
  repeat progress
    (rewrite ?pre_save_status, ?pre_save_score, ?pre_save_questions,
       ?pre_save_proctoring, ?pre_save_user, ?pre_save_isPassed,
       ?pre_save_testConfig, ?pre_save_startTime, ?pre_save_attemptNumber,
       ?pre_save_timeRemaining, ?pre_save_analytics, ?pre_save_endTime,
       ?pre_save_isRetake;
     cbn [Test.testId Test.user Test.testConfig Test.questions Test.startTime
          Test.endTime Test.submittedAt Test.timeRemaining Test.status
          Test.score Test.isPassed Test.analytics Test.proctoring
          Test.attemptNumber Test.isRetake
          Test.set_testId Test.set_questions Test.set_startTime
          Test.set_endTime Test.set_submittedAt Test.set_actualDurationMinutes
          Test.set_timeRemaining Test.set_status Test.set_score
          Test.set_isPassed Test.set_analytics Test.set_proctoring
          Test.set_isExpired]).

(** A saved document has the identifier it had, which is not empty. *)
Lemma save_testId now r d d' :
  Test.save now r d = Some d' ->
  Test.testId d <> EmptyString /\ Test.testId d' = Test.testId d.
Proof.
  intros H. apply save_Some in H as [-> Hv]. apply valid_iff in Hv as [Hid _].
  split; [exact Hid | apply pre_save_testId; exact Hid].
Qed.

Lemma startTest_inv now r d d' :
  Test.startTest now r d = Some d' ->
  Test.status d = Test.Scheduled
  /\ Test.testId d <> EmptyString
  /\ d' = Test.pre_save now r
            (Test.set_timeRemaining
               (inject_Z (Test.Config.durationMinutes (Test.testConfig d) * 60))
               (Test.set_startTime now (Test.set_status Test.InProgress d))).
Proof.
  unfold Test.startTest. case_bool_decide as Hs; [| discriminate].
  intros H. pose proof (save_testId _ _ _ _ H) as [Hid _].
  apply save_Some in H as [-> _].
  split; [exact Hs |]. split; [exact Hid | reflexivity].
Qed.

Lemma complete_fields now r d d' :
  Test.completeTest now r d = Some d' ->
  Test.status d = Test.InProgress
  /\ Test.status d' = Test.Evaluated
  /\ Test.user d' = Test.user d
  /\ Test.testConfig d' = Test.testConfig d
  /\ Test.attemptNumber d' = Test.attemptNumber d
  /\ Test.questions d' = Test.questions d
  /\ Test.startTime d' = Test.startTime d
  /\ Test.proctoring d' = Test.proctoring d
  /\ Test.score d'
     = Test.compute_score (Test.Config.negativeMarking (Test.testConfig d))
         (Test.questions d)
  /\ Test.isPassed d'
     = JS.geb (Test.Score.percentage (Test.score d'))
         (JS.Num (Test.Config.passingPercentage (Test.testConfig d)))
  /\ Test.endTime d' = Some now
  /\ Test.testId d' = Test.testId d
  /\ Test.testId d <> EmptyString.
Proof.
  unfold Test.completeTest. case_bool_decide as Hs; [| discriminate].
  intros H. pose proof (save_testId _ _ _ _ H) as [Hid Hid'].
  apply save_Some in H as [Hd' _]. split; [exact Hs |].
  destruct (calculateAnalytics_frame
              (Test.calculateScore
                 (Test.set_status Test.Completed
                    (Test.set_submittedAt (Some now)
                       (Test.set_endTime (Some now) d))))) as [a Ha].
  rewrite Ha in Hd', Hid, Hid'. unfold Test.calculateScore in Hd', Hid, Hid'.
  cbn [Test.testId Test.set_analytics Test.set_isPassed Test.set_score
       Test.set_status Test.set_submittedAt Test.set_endTime] in Hid, Hid'.
  subst d'. fields. repeat split; assumption.
Qed.

Lemma submitAnswer_inv now r n a ts d d' :
  Test.submitAnswer now r n a ts d = Some d' ->
  exists q q',
    List.find (Test.has_number n) (Test.questions d) = Some q
    /\ Test.record_answer (Test.Config.negativeMarking (Test.testConfig d))
         now a ts q = Some q'
    /\ Test.testId d <> EmptyString
    /\ Test.valid d = true
    /\ d' = Test.pre_save now r
              (Test.set_questions
                 (Test.update_first (Test.has_number n) q' (Test.questions d)) d).
Proof.
  unfold Test.submitAnswer.
  destruct (List.find _ _) as [q |] eqn:Hq; [| discriminate].
  destruct (Test.record_answer _ _ _ _ q) as [q' |] eqn:Hr; [| discriminate].
  intros H. pose proof (save_testId _ _ _ _ H) as [Hid _].
  apply save_Some in H as [-> Hv]. exists q, q'.
  split; [reflexivity |]. split; [exact Hr |]. split; [exact Hid |].
  split; [exact Hv | reflexivity].
Qed.

Lemma record_answer_frozen nm now a ts q q' :
  Test.record_answer nm now a ts q = Some q' -> frozen q' = frozen q.
Proof.
  unfold Test.record_answer.
  destruct (bool_decide (Test.Slot.questionType q = "Multiple Choice"%string)).
  - intros H. apply Some_eq in H. subst q'. reflexivity.
  - destruct (Test.Slot.correctAnswer q) as [c |] eqn:Hc; [| discriminate].
    intros H. apply Some_eq in H. subst q'. unfold frozen.
    cbn [Test.Slot.questionId Test.Slot.questionNumber Test.Slot.questionText
         Test.Slot.questionType Test.Slot.category Test.Slot.difficulty
         Test.Slot.points Test.Slot.negativePoints Test.Slot.options
         Test.Slot.correctAnswer].
    rewrite Hc. reflexivity.
Qed.

Lemma slot_steps_refl qs : Forall2 slot_step qs qs.
Proof. apply Forall_Forall2_diag, Forall_forall. intros q _. split; auto. Qed.

Lemma slot_steps_update p q q' qs :
  List.find p qs = Some q -> slot_step q q' ->
  Forall2 slot_step qs (Test.update_first p q' qs).
Proof.
  intros Hf Hstep.
  destruct (update_first_insert p q' qs q Hf) as (i & Hi & _ & _ & ->).
  rewrite <- (list_insert_id qs i q Hi) at 1.
  apply Forall2_insert; [apply slot_steps_refl | exact Hstep].
Qed.

Lemma slot_steps_trans qs1 qs2 qs3 :
  Forall2 slot_step qs1 qs2 -> Forall2 slot_step qs2 qs3 ->
  Forall2 slot_step qs1 qs3.
Proof.
  intros H12 H23. eapply Forall2_trans; [| exact H12 | exact H23].
  intros x y z [Hf1 Ha1] [Hf2 Ha2]. split; [congruence | auto].
Qed.

Lemma follows_refl s : follows s s.
Proof. left. reflexivity. Qed.

Lemma follows_trans s1 s2 s3 : follows s1 s2 -> follows s2 s3 -> follows s1 s3.
Proof. unfold follows. intros H1 H2. intuition (subst; auto; try discriminate). Qed.

Lemma session_step_refl t : session_step t t.
Proof.
  unfold session_step. repeat split; try reflexivity; try lia.
  - apply slot_steps_refl.
  - apply follows_refl.
Qed.

Lemma session_step_trans t1 t2 t3 :
  session_step t1 t2 -> session_step t2 t3 -> session_step t1 t3.
Proof.
  intros (Hu1 & Hc1 & Hn1 & Hq1 & Hf1 & Hs1 & Hl1 & Ht1 & Hx1 & He1)
         (Hu2 & Hc2 & Hn2 & Hq2 & Hf2 & Hs2 & Hl2 & Ht2 & Hx2 & He2).
  unfold session_step.
  split; [congruence |]. split; [congruence |]. split; [congruence |].
  split; [eapply slot_steps_trans; eassumption |].
  split; [eapply follows_trans; eassumption |].
  split.
  { intros Hns. rewrite Hs2, Hs1; [reflexivity | exact Hns |].
    intros Hs. apply Hns. unfold follows in Hf1.
    destruct Hf1 as [H | [[H _] | [[H _] | [H1 H]]]]; congruence. }
  split; [etransitivity; eassumption |].
  split; [lia |]. split; [lia |].
  intros Hne.
  assert (Hne2 : Test.status t2 <> Test.Evaluated).
  { intros Hs. apply Hne. unfold follows in Hf2.
    destruct Hf2 as [H | [[H _] | [[H _] | [H _]]]]; congruence. }
  destruct (He1 Hne2) as [<- <-]. apply He2, Hne.
Qed.

Lemma complete_step now r d d' :
  Test.completeTest now r d = Some d' -> session_step d d'.
Proof.
  intros H. apply complete_fields in H
    as (Hs & Hs' & Hu & Hc & Hn & Hq & Hst & Hp & _).
  unfold session_step. rewrite Hu, Hc, Hn, Hq, Hst, Hp, Hs, Hs'.
  split; [reflexivity |]. split; [reflexivity |]. split; [reflexivity |].
  split; [apply slot_steps_refl |].
  split; [right; right; right; split; reflexivity |].
  split; [reflexivity |]. split; [reflexivity |].
  split; [lia |]. split; [lia |]. intros Hne. contradiction.
Qed.

Lemma set_flag_step flagged q : slot_step q (Test.Slot.set_flag flagged q).
Proof. split; [reflexivity |]. intros H. exact H. Qed.

(** A step that keeps the status and touches the questions only. *)
Lemma questions_step t t' :
  Test.user t' = Test.user t ->
  Test.testConfig t' = Test.testConfig t ->
  Test.attemptNumber t' = Test.attemptNumber t ->
  Forall2 slot_step (Test.questions t) (Test.questions t') ->
  Test.status t' = Test.status t ->
  Test.startTime t' = Test.startTime t ->
  Test.proctoring t' = Test.proctoring t ->
  Test.score t' = Test.score t ->
  Test.isPassed t' = Test.isPassed t ->
  session_step t t'.
Proof.
  intros Hu Hc Hn Hq Hs Hst Hp Hsc Hip. unfold session_step.
  rewrite Hu, Hc, Hn, Hs, Hst, Hp, Hsc, Hip.
  split; [reflexivity |]. split; [reflexivity |]. split; [reflexivity |].
  split; [exact Hq |]. split; [apply follows_refl |].
  split; [reflexivity |]. split; [reflexivity |].
  split; [lia |]. split; [lia |]. intros _. split; reflexivity.
Qed.

Lemma record_step_of now r n a ts t t' :
  Test.submitAnswer now r n a ts t = Some t' -> session_step t t'.
Proof.
  intros Hs. apply submitAnswer_inv in Hs as (q & q' & Hq & Hr & _ & _ & ->).
  apply questions_step; fields; try reflexivity.
  apply slot_steps_update with (q := q); [exact Hq |].
  split; [eapply record_answer_frozen; exact Hr |].
  intros _. apply (record_answer_answered _ _ _ _ _ _ Hr).
Qed.

Lemma timed_step c t t' :
  Test.save (now c) (r0 c) (timed_doc c t) = Some t' -> session_step t t'.
Proof.
  intros H. apply save_Some in H as [-> _]. unfold timed_doc.
  apply questions_step; fields; try reflexivity. apply slot_steps_refl.
Qed.

Lemma op_step c t t' : op c t t' -> session_step t t'.
Proof.
  intros [t1 Hb | t1 Hc | t1 Hst Hc | n a ts t1 Hst Hs | n a ts t1 t2 Hst Hs Hsv
         | n f q t1 Hst Hq Hsv].
  - apply startTest_inv in Hb as (Hs & _ & ->).
    unfold session_step. fields.
    split; [reflexivity |]. split; [reflexivity |]. split; [reflexivity |].
    split; [apply slot_steps_refl |].
    split; [right; left; split; [exact Hs | reflexivity] |].
    split; [intros Hne; contradiction |]. split; [reflexivity |].
    split; [lia |]. split; [lia |]. intros _. split; reflexivity.
  - eapply complete_step. exact Hc.
  - eapply session_step_trans; [| eapply complete_step; exact Hc].
    unfold timed_doc. apply questions_step; fields; try reflexivity.
    apply slot_steps_refl.
  - eapply record_step_of. exact Hs.
  - eapply session_step_trans;
      [eapply record_step_of; exact Hs | eapply timed_step; exact Hsv].
  - apply save_Some in Hsv as [-> _]. unfold flagged_doc.
    apply questions_step; fields; try reflexivity.
    apply slot_steps_update with (q := q); [exact Hq | apply set_flag_step].
Qed.

Ltac same := left; reflexivity.

Ltac loaded id t Hf :=
  right; eexists id, t, _;
  split; [reflexivity |]; split; [exact Hf |].

(** What a request does to the sessions: nothing, or one of the
    operations on the session it names, which it loaded for its
    candidate. *)
Lemma handle_ops c req w :
  tests (fst (handle c req w)) = tests w
  \/ (exists id t t',
        target req = Some id
        /\ findOne w id (uid c) = Some t
        /\ tests (fst (handle c req w)) = <[id := t']> (tests w)
        /\ op c t t').
Proof.
  destruct req as [| id | id n a ts | id n f | id | id | id ty de tm];
    cbn [handle];
    try (unfold protected; destruct (protectTest c w); [same |]).
  - destruct (start_fails c w) as [-> _]. same.
  - unfold begin. destruct (findOne w id (uid c)) as [t |] eqn:Hf; [| same].
    case_match; [same |].
    destruct (Test.startTest _ _ t) as [t' |] eqn:Hs; [| same].
    loaded id t Hf. split; [reflexivity |]. apply op_begin. exact Hs.
  - unfold answer. case_match; [same |].
    destruct (findOne w id (uid c)) as [t |] eqn:Hf; [| same].
    case_bool_decide as Hst; cbn [negb]; [| same].
    destruct (Qlt_le_dec _ _).
    + destruct (Test.completeTest _ _ t) as [t' |] eqn:Hc; [| same].
      loaded id t Hf. split; [reflexivity |]. apply op_complete. exact Hc.
    + destruct (Test.submitAnswer _ _ _ _ _ t) as [t1 |] eqn:Hs; [| same].
      fold (timed_doc c t1).
      destruct (Test.save _ _ (timed_doc c t1)) as [t2 |] eqn:Hsv.
      * loaded id t Hf.
        split; [cbn [fst store tests]; apply insert_insert_eq |].
        eapply op_answer; [exact Hst | exact Hs | exact Hsv].
      * loaded id t Hf. split; [reflexivity |].
        eapply op_record; [exact Hst | exact Hs].
  - unfold flag. case_match; [same |].
    destruct (findOne w id (uid c)) as [t |] eqn:Hf; [| same].
    case_bool_decide as Hst; cbn [negb]; [| same].
    destruct (List.find _ _) as [q |] eqn:Hq; [| same].
    fold (flagged_doc c n f q t).
    destruct (Test.save _ _ (flagged_doc c n f q t)) as [t' |] eqn:Hsv; [| same].
    loaded id t Hf. split; [reflexivity |].
    apply (op_flag c t n f q t' Hst Hq Hsv).
  - unfold submit.
    destruct (findOne w id (uid c)) as [t |] eqn:Hf; [| same].
    case_bool_decide as Hst; cbn [negb]; [| same].
    destruct (Test.completeTest _ _ t) as [t' |] eqn:Hc; [| same].
    loaded id t Hf. split; [repeat case_match; reflexivity |].
    apply op_complete. exact Hc.
  - unfold get_status.
    destruct (findOne w id (uid c)) as [t |] eqn:Hf; [| same].
    case_bool_decide as Hst; [| same].
    destruct (Qlt_le_dec _ _); [same |].
    fold (timed_doc c t).
    destruct (Test.completeTest _ _ _) as [t' |] eqn:Hc; [| same].
    loaded id t Hf. split; [reflexivity |].
    apply (op_status_complete c t t' Hst Hc).
  - destruct (report_unchanged c id ty de tm w) as [-> _]. same.
Qed.

Lemma handle_session_step c req w id t :
  tests w !! id = Some t ->
  exists t', tests (fst (handle c req w)) !! id = Some t' /\ session_step t t'.
Proof.
  intros Hl.
  destruct (handle_ops c req w)
    as [Heq | (i & t0 & t1 & _ & Hf & Heq & Hop)].
  - exists t. rewrite Heq. split; [exact Hl | apply session_step_refl].
  - rewrite Heq. destruct (decide (i = id)) as [-> | Hne].
    + apply findOne_lookup in Hf. rewrite Hl in Hf. apply Some_eq in Hf.
      subst t0. exists t1. rewrite lookup_insert_eq.
      split; [reflexivity | eapply op_step; exact Hop].
    + exists t. rewrite lookup_insert_ne by exact Hne.
      split; [exact Hl | apply session_step_refl].
Qed.

Lemma run_cons cr reqs w :
  run (cr :: reqs) w = run reqs (fst (handle (fst cr) (snd cr) w)).
Proof. reflexivity. Qed.

(** X15.  Whatever requests arrive, in whatever order and from whomever,
    a stored session is never removed, and what it later is keeps its
    candidate, its configuration, its attempt number and its questions
    (identity, number, text, options, points of every slot); no answer is
    withdrawn; its status only moves from scheduled to in progress to
    evaluated; once started its start instant is not reset; the log of
    suspicious activities only grows at its end and the two violation
    counters never decrease; and score and pass flag stay as they are
    until the session is evaluated. *)
Theorem sessions_only_advance (reqs : list (Ctx * request)) (w : World)
    (id : string) (t : Test.t) :
  tests w !! id = Some t ->
  exists t', tests (run reqs w) !! id = Some t' /\ session_step t t'.
Proof.
  revert w t. induction reqs as [|[c req] reqs IH]; intros w t Hl.
  - exists t. split; [exact Hl | apply session_step_refl].
  - rewrite run_cons. cbn [fst snd].
    destruct (handle_session_step c req w id t Hl) as (t1 & Hl1 & Hs1).
    destruct (IH _ _ Hl1) as (t2 & Hl2 & Hs2).
    exists t2. split; [exact Hl2 | eapply session_step_trans; eassumption].
Qed.

Lemma sessions_only_advance_witness :
  exists t',
    tests (run [(at_time 2000, Answer "TEST000001001" 1 "a" None);
                (at_time 3000, Report "TEST000001001" "tab_switch" None None);
                (late, Submit "TEST000001001")]
             world_in_progress) !! "TEST000001001"%string = Some t'
    /\ session_step ten_questions t'.
Proof.
  apply (sessions_only_advance _ world_in_progress "TEST000001001" ten_questions).
  reflexivity.
Defined.

(** *** What the endpoints keep of every session *)

Lemma slot_sound_answer now a ts q q' :
  Test.record_answer true now a ts q = Some q' -> slot_sound q'.
Proof.
  intros Hr.
  destruct (record_answer_answered _ _ _ _ _ _ Hr)
    as (Hans & _ & _ & _ & _ & _ & _ & Hpts & _).
  unfold slot_sound. rewrite Hans. exact Hpts.
Qed.

Lemma slot_sound_flag flagged q :
  slot_sound q -> slot_sound (Test.Slot.set_flag flagged q).
Proof. intros H. exact H. Qed.

Lemma slots_sound_update p q' qs :
  Forall slot_sound qs -> slot_sound q' ->
  Forall slot_sound (Test.update_first p q' qs).
Proof.
  intros Hqs Hq'. induction Hqs as [|x l Hx Hl IH]; [constructor |].
  simpl. destruct (p x); constructor; assumption.
Qed.

Lemma numbered_step qs qs' :
  Forall2 slot_step qs qs' -> numbered qs -> numbered qs'.
Proof.
  intros Hst Hn i q' Hi.
  destruct (Forall2_lookup_r _ _ _ _ _ Hst Hi) as (q & Hq & Hf & _).
  rewrite <- (Hn i q Hq). unfold frozen in Hf. congruence.
Qed.

Lemma complete_after now r d d' :
  Test.completeTest now r d = Some d' ->
  scored d'
  /\ Test.questions d' = Test.questions d
  /\ Test.testId d' = Test.testId d.
Proof.
  intros H. apply complete_fields in H
    as (_ & Hs' & _ & Hc & _ & Hq & _ & _ & Hsc & Hp & _ & Hid & _).
  unfold scored. rewrite Hc, Hq. repeat split; assumption.
Qed.

Lemma record_after now r n a ts t t' :
  Test.submitAnswer now r n a ts t = Some t' ->
  Test.status t' = Test.status t
  /\ Test.testId t' = Test.testId t
  /\ (Test.Config.negativeMarking (Test.testConfig t) = true ->
      Forall slot_sound (Test.questions t) ->
      Forall slot_sound (Test.questions t')).
Proof.
  intros Hs. apply submitAnswer_inv in Hs as (q & q' & Hq & Hr & Hid & _ & ->).
  fields. split; [reflexivity |].
  split; [rewrite pre_save_testId by exact Hid; reflexivity |].
  intros Hnm Hqs. rewrite Hnm in Hr.
  apply slots_sound_update; [exact Hqs | eapply slot_sound_answer; exact Hr].
Qed.

(** After an operation a session is in progress or evaluated; it keeps its
    identifier; its slots stay sound. *)
Lemma op_after c t t' :
  op c t t' ->
  (Test.status t' = Test.InProgress \/ scored t')
  /\ Test.testId t' = Test.testId t
  /\ (Test.Config.negativeMarking (Test.testConfig t) = true ->
      Forall slot_sound (Test.questions t) ->
      Forall slot_sound (Test.questions t')).
Proof.
  intros [t1 Hb | t1 Hc | t1 Hst Hc | n a ts t1 Hst Hs | n a ts t1 t2 Hst Hs Hsv
         | n f q t1 Hst Hq Hsv].
  - apply startTest_inv in Hb as (Hs & Hid & ->). fields.
    split; [left; reflexivity |].
    split; [rewrite pre_save_testId by exact Hid; reflexivity |].
    intros _ H. exact H.
  - destruct (complete_after _ _ _ _ Hc) as (H1 & H2 & H3).
    split; [right; exact H1 |]. split; [exact H3 |]. rewrite H2. auto.
  - destruct (complete_after _ _ _ _ Hc) as (H1 & H2 & H3).
    split; [right; exact H1 |]. split; [exact H3 |]. rewrite H2. auto.
  - destruct (record_after _ _ _ _ _ _ _ Hs) as (H1 & H2 & H3).
    split; [left; congruence |]. split; [exact H2 | exact H3].
  - destruct (record_after _ _ _ _ _ _ _ Hs) as (H1 & H2 & H3).
    pose proof (save_testId _ _ _ _ Hsv) as [_ Hid].
    apply save_Some in Hsv as [-> _]. unfold timed_doc in *. fields.
    cbn [Test.testId Test.set_timeRemaining] in Hid.
    split; [left; congruence |]. split; [congruence | exact H3].
  - pose proof (save_testId _ _ _ _ Hsv) as [_ Hid].
    apply save_Some in Hsv as [-> _]. unfold flagged_doc in *. fields.
    cbn [Test.testId Test.set_analytics Test.set_questions] in Hid.
    split; [left; exact Hst |]. split; [exact Hid |].
    intros _ Hqs. apply slots_sound_update; [exact Hqs |].
    apply slot_sound_flag. apply List.find_some in Hq as [Hin _].
    rewrite Forall_forall in Hqs. apply Hqs, list_elem_of_In, Hin.
Qed.

Lemma op_active c t t' : op c t t' -> active t /\ Test.user t' = Test.user t.
Proof.
  intros Hop. split; [| apply (op_step _ _ _ Hop)].
  destruct Hop as [t1 Hb | t1 Hc | t1 Hst Hc | ? ? ? t1 Hst Hs
                  | ? ? ? t1 t2 Hst Hs Hsv | ? ? ? t1 Hst Hq Hsv];
    try (right; exact Hst).
  - left. apply (startTest_inv _ _ _ _ Hb).
  - right. apply (complete_fields _ _ _ _ Hc).
Qed.

Lemma op_sound c t t' :
  op c t t' -> sound t -> sound t' /\ Test.testId t' = Test.testId t.
Proof.
  intros Hop (Hst & Hid & Hnm & Hnum & Hqs & Hsch & Hsc).
  destruct (op_step _ _ _ Hop) as (_ & Hc & _ & Hq & _ & _ & _ & _ & _ & Hkeep).
  destruct (op_after _ _ _ Hop) as (Hafter & Hid' & Hqs').
  destruct (op_active _ _ _ Hop) as [Hact _].
  split; [| exact Hid'].
  unfold sound. rewrite Hid', Hc.
  split; [destruct Hafter as [H | [H _]]; auto |].
  split; [exact Hid |]. split; [exact Hnm |].
  split; [eapply numbered_step; eassumption |].
  split; [apply Hqs'; assumption |].
  split; [intros Hs; destruct Hafter as [H | [H _]]; congruence |].
  destruct Hafter as [H | (H & H1 & H2)]; rewrite H.
  - rewrite bool_decide_eq_false_2 by discriminate.
    destruct Hkeep as [-> ->]; [congruence |].
    rewrite bool_decide_eq_false_2 in Hsc; [exact Hsc |].
    destruct Hact; congruence.
  - rewrite bool_decide_eq_true_2 by reflexivity.
    rewrite Hc in H1, H2. rewrite Hnm in H1. split; [exact H1 | exact H2].
Qed.

Lemma handle_sound c req w :
  sound_world w -> sound_world (fst (handle c req w)).
Proof.
  intros Hw id t Hl.
  destruct (handle_ops c req w)
    as [Heq | (i & t0 & t1 & _ & Hf & Heq & Hop)].
  - rewrite Heq in Hl. apply Hw, Hl.
  - rewrite Heq in Hl. destruct (decide (i = id)) as [-> | Hne].
    + rewrite lookup_insert_eq in Hl. apply Some_eq in Hl. subst t1.
      apply findOne_lookup in Hf. destruct (Hw _ _ Hf) as [Hs Hid].
      destruct (op_sound _ _ _ Hop Hs) as [Hs' Hid'].
      split; [exact Hs' | congruence].
    + rewrite lookup_insert_ne in Hl by exact Hne. apply Hw, Hl.
Qed.

Lemma net_score_slots qs :
  Forall slot_sound qs ->
  Test.Score.netScore (Test.compute_score true qs)
  = sumZ Test.Slot.pointsEarned qs.
Proof.
  intros Hqs. unfold Test.compute_score. cbn [Test.Score.netScore].
  rewrite tally_questions_eq.
  cbn [Test.t_pointsEarned Test.t_negativePoints]. rewrite !sumZ_filter.
  induction Hqs as [|q qs Hq _ IH]; [reflexivity |].
  rewrite !sumZ_cons. unfold slot_sound in Hq.
  unfold answered_correct at 1, answered_wrong at 1.
  destruct (Test.Slot.answered q).
  - rewrite Hq. destruct (Test.Slot.correct q); cbn [andb negb]; lia.
  - destruct Hq as [_ ->]. cbn [andb]. lia.
Qed.

(** The world with the ten-question session in progress is sound. *)
Lemma world_in_progress_sound : sound_world world_in_progress.
Proof.
  intros id t Hl. unfold world_in_progress in Hl. cbn [tests] in Hl.
  apply lookup_singleton_Some in Hl as [<- <-].
  split; [| reflexivity].
  unfold sound.
  split; [right; left; reflexivity |].
  split; [discriminate |]. split; [reflexivity |].
  split.
  { intros i q Hi.
    do 10 (destruct i as [|i];
           [apply Some_eq in Hi; subst q; reflexivity |]).
    discriminate Hi. }
  split.
  { unfold ten_questions, session_of. cbn [Test.questions fmap list_fmap].
    repeat (constructor; [split; reflexivity |]). constructor. }
  split; [intros H; discriminate H |].
  rewrite bool_decide_eq_false_2 by discriminate. split; reflexivity.
Qed.

(** X16.  The endpoints keep the stored sessions sound.  Say that a
    session is sound when it has a non-empty identifier; is scheduled, in
    progress or evaluated; has negative marking on; has its slots
    numbered 1, 2, ... in order; has every unanswered slot unmarked and
    earning 0, and every answered one earning its points if right and
    minus its negative points if not; has no answer while it is
    scheduled; and has the initial score block, not passed, until it is
    evaluated, and from then on the score block that [calculateScore]
    computes from its questions.  If every session of a world is sound
    and stored under its own identifier, then so is every session after
    any requests, and the net score of an evaluated one is the sum of the
    points earned by its slots. *)
Theorem sessions_stay_sound (reqs : list (Ctx * request)) (w : World)
    (id : string) (t : Test.t) :
  sound_world w ->
  tests (run reqs w) !! id = Some t ->
  sound t
  /\ Test.testId t = id
  /\ (Test.status t = Test.Evaluated ->
      Test.Score.netScore (Test.score t)
      = sumZ Test.Slot.pointsEarned (Test.questions t)).
Proof.
  assert (Hrun : forall reqs w, sound_world w -> sound_world (run reqs w)).
  { clear. induction reqs as [|[c req] reqs IH]; intros w Hw; [exact Hw |].
    rewrite run_cons. apply IH, handle_sound, Hw. }
  intros Hw Hl.
  destruct (Hrun reqs _ Hw id t Hl) as [Hs Hid].
  split; [exact Hs |]. split; [exact Hid |].
  destruct Hs as (_ & _ & _ & _ & Hqs & _ & Hsc). intros He.
  rewrite bool_decide_eq_true_2 in Hsc by exact He.
  destruct Hsc as [-> _]. apply net_score_slots, Hqs.
Qed.

(** The ten-question session after a right answer, a wrong one and a
    submission: 3 points earned and 1 lost. *)
Lemma sessions_stay_sound_witness :
  exists t,
    tests (run [(at_time 2000, Answer "TEST000001001" 1 "a" None);
                (at_time 3000, Answer "TEST000001001" 2 "b" None);
                (at_time 4000, Submit "TEST000001001")]
             world_in_progress) !! "TEST000001001"%string = Some t
    /\ Test.status t = Test.Evaluated
    /\ Test.Score.netScore (Test.score t) = 2
    /\ sumZ Test.Slot.pointsEarned (Test.questions t) = 2.
Proof.
  destruct (tests (run [(at_time 2000, Answer "TEST000001001" 1 "a" None);
                        (at_time 3000, Answer "TEST000001001" 2 "b" None);
                        (at_time 4000, Submit "TEST000001001")]
                     world_in_progress) !! "TEST000001001"%string)
    as [t |] eqn:Hl; [| vm_compute in Hl; discriminate Hl].
  destruct (sessions_stay_sound _ _ _ _ world_in_progress_sound Hl)
    as (_ & _ & Hnet).
  assert (Hst : Test.status t = Test.Evaluated).
  { vm_compute in Hl. apply Some_eq in Hl. subst t. reflexivity. }
  assert (Hsum : Test.Score.netScore (Test.score t) = 2).
  { vm_compute in Hl. apply Some_eq in Hl. subst t. reflexivity. }
  exists t. split; [reflexivity |]. split; [exact Hst |].
  split; [exact Hsum |]. rewrite <- (Hnet Hst). exact Hsum.
Defined.

(** *** One active session for each candidate *)

Lemma is_active_spec user t :
  is_active user t = true <-> Test.user t = user /\ active t.
Proof.
  unfold is_active, active.
  rewrite andb_true_iff, orb_true_iff, !bool_decide_eq_true. reflexivity.
Qed.

Lemma find_active_None w user :
  find_active w user = None <->
  forall id t, tests w !! id = Some t -> Test.user t = user -> ~ active t.
Proof.
  unfold find_active. rewrite fmap_None. split.
  - intros Hnone id t Hl Hu Ha.
    assert (Hin : In (id, t) (map_to_list (tests w))).
    { apply list_elem_of_In, elem_of_map_to_list, Hl. }
    apply (List.find_none _ _ Hnone) in Hin. cbn [snd] in Hin.
    assert (Htrue : is_active user t = true) by (apply is_active_spec; auto).
    congruence.
  - intros H.
    destruct (List.find _ _) as [[id t] |] eqn:Hf; [| reflexivity].
    apply List.find_some in Hf as [Hin Hact]. cbn [snd] in Hact.
    apply list_elem_of_In, elem_of_map_to_list in Hin.
    apply is_active_spec in Hact as [Hu Ha].
    destruct (H id t Hin Hu Ha).
Qed.

Lemma handle_single_active c req w :
  single_active w -> single_active (fst (handle c req w)).
Proof.
  intros Hw.
  destruct (handle_ops c req w)
    as [Heq | (i & t0 & t1 & _ & Hf & Heq & Hop)];
    unfold single_active.
  - rewrite Heq. exact Hw.
  - rewrite Heq. apply findOne_lookup in Hf.
    destruct (op_active _ _ _ Hop) as [Hact0 Hu0].
    assert (Hback : forall id t, <[i := t1]> (tests w) !! id = Some t ->
              active t ->
              exists t', tests w !! id = Some t'
                         /\ Test.user t' = Test.user t /\ active t').
    { intros id t Hl Ha. destruct (decide (i = id)) as [-> | Hne].
      - rewrite lookup_insert_eq in Hl. apply Some_eq in Hl. subst t.
        exists t0. auto.
      - rewrite lookup_insert_ne in Hl by exact Hne. exists t. auto. }
    intros id1 id2 x1 x2 Hl1 Hl2 Hu Ha1 Ha2.
    destruct (Hback _ _ Hl1 Ha1) as (y1 & Hy1 & Hu1 & Hb1).
    destruct (Hback _ _ Hl2 Ha2) as (y2 & Hy2 & Hu2 & Hb2).
    apply (Hw id1 id2 y1 y2 Hy1 Hy2); [congruence | exact Hb1 | exact Hb2].
Qed.

(** X17.  No candidate ever has two active sessions: if no candidate has
    two sessions that are scheduled or in progress, this is still so
    after any requests; and [start] for a candidate who has such a
    session is refused and creates nothing. *)
Theorem one_active_session (reqs : list (Ctx * request)) (w : World) :
  single_active w ->
  single_active (run reqs w)
  /\ (forall c u id t,
        users (run reqs w) !! uid c = Some u ->
        tests (run reqs w) !! id = Some t ->
        Test.user t = User._id u -> active t ->
        fst (handle c Start (run reqs w)) = run reqs w
        /\ success (snd (handle c Start (run reqs w))) = false).
Proof.
  intros Hw. split.
  - revert w Hw. induction reqs as [|[c req] reqs IH]; intros w Hw; [exact Hw |].
    rewrite run_cons. apply IH, handle_single_active, Hw.
  - generalize (run reqs w). clear. intros w c u id t Hu Hl Hut Ha.
    cbn [handle]. unfold start. rewrite Hu.
    destruct (negb _); [split; reflexivity |].
    destruct (find_active w (User._id u)) as [x |] eqn:Hf;
      [split; reflexivity |].
    rewrite find_active_None in Hf. destruct (Hf id t Hl Hut Ha).
Qed.

Lemma one_active_session_witness :
  single_active
    (run [(at_time 2000, Start);
          (at_time 3000, Answer "TEST000001001" 1 "a" None)]
       world_in_progress).
Proof.
  apply (one_active_session _ world_in_progress).
  intros id1 id2 t1 t2 Hl1 Hl2 _ _ _.
  unfold world_in_progress in Hl1, Hl2. cbn [tests] in Hl1, Hl2.
  apply lookup_singleton_Some in Hl1 as [<- _].
  apply lookup_singleton_Some in Hl2 as [<- _]. reflexivity.
Defined.

(** *** A session belongs to its candidate *)

Lemma findOne_other w id u t :
  tests w !! id = Some t -> Test.user t <> u -> findOne w id u = None.
Proof.
  intros Hl Hne. unfold findOne. rewrite Hl.
  rewrite bool_decide_eq_false_2 by exact Hne. reflexivity.
Qed.

Lemma handle_not_found c req w id :
  target req = Some id -> findOne w id (uid c) = None ->
  fst (handle c req w) = w /\ success (snd (handle c req w)) = false.
Proof.
  intros Ht Hf.
  destruct req as [| i | i n a ts | i n f | i | i | i ty de tm];
    cbn [target] in Ht; try discriminate; apply Some_eq in Ht; subst i;
    cbn [handle];
    (match goal with
     | |- context [protected c ?h w] =>
         destruct (protected_cases c h w) as [[_ ->] | (_ & Hw & Hs)];
         [| split; [exact Hw | exact Hs]]
     end).
  - unfold begin. rewrite Hf. split; reflexivity.
  - unfold answer. destruct (negb _); rewrite ?Hf; split; reflexivity.
  - unfold flag. destruct (negb _); rewrite ?Hf; split; reflexivity.
  - unfold submit. rewrite Hf. split; reflexivity.
  - unfold get_status. rewrite Hf. split; reflexivity.
  - apply report_unchanged.
Qed.

Lemma handle_other_user c req w id t :
  tests w !! id = Some t -> Test.user t <> uid c ->
  tests (fst (handle c req w)) !! id = Some t.
Proof.
  intros Hl Hne.
  destruct (handle_ops c req w)
    as [Heq | (i & t0 & t1 & _ & Hf & Heq & Hop)].
  - rewrite Heq. exact Hl.
  - rewrite Heq. destruct (decide (i = id)) as [-> | Hi].
    + rewrite (findOne_other w id (uid c) t Hl Hne) in Hf. discriminate.
    + rewrite lookup_insert_ne by exact Hi. exact Hl.
Qed.

(** X18.  A session belongs to its candidate.  A request of any other
    candidate that names the session is answered as a failure and changes
    nothing at all, whatever the state of the session; and no run of
    requests of other candidates, naming it or not, changes the stored
    session. *)
Theorem owner_only (w : World) (id : string) (t : Test.t) :
  tests w !! id = Some t ->
  (forall c req,
      uid c <> Test.user t -> target req = Some id ->
      fst (handle c req w) = w /\ success (snd (handle c req w)) = false)
  /\ (forall reqs,
        Forall (fun cr => uid (fst cr) <> Test.user t) reqs ->
        tests (run reqs w) !! id = Some t).
Proof.
  intros Hl. split.
  - intros c req Hne Ht. apply (handle_not_found c req w id Ht).
    apply (findOne_other w id (uid c) t Hl). congruence.
  - intros reqs Hreqs. revert w Hl.
    induction Hreqs as [|[c req] reqs Hne _ IH]; intros w Hl; [exact Hl |].
    rewrite run_cons. apply IH. cbn [fst snd] in *.
    apply handle_other_user; [exact Hl | congruence].
Qed.

Lemma owner_only_witness :
  tests (run [(mkCtx ten_env 2000 Selector.some_tape 8 true,
               Answer "TEST000001001" 1 "a" None);
              (mkCtx ten_env 3000 Selector.some_tape 8 true,
               Submit "TEST000001001")]
           world_in_progress) !! "TEST000001001"%string
  = Some ten_questions.
Proof.
  apply (proj2 (owner_only world_in_progress "TEST000001001" ten_questions
                  eq_refl)).
  repeat constructor; cbn; discriminate.
Defined.

(** *** What a successful request leaves behind *)

(** A request that succeeds went through the middleware. *)
Lemma success_allowed c handler w :
  success (snd (protected c handler w)) = true ->
  allowed c w /\ protected c handler w = handler w.
Proof.
  intros H.
  destruct (protected_cases c handler w) as [Hok | (_ & _ & Hf)];
    [exact Hok | congruence].
Qed.

Lemma store_store id t1 t2 w : store id t2 (store id t1 w) = store id t2 w.
Proof.
  unfold store. cbn [users tests questionBank]. rewrite insert_insert_eq.
  reflexivity.
Qed.

Lemma findOne_store w id u t t' :
  findOne w id u = Some t -> Test.user t' = Test.user t ->
  findOne (store id t' w) id u = Some t'.
Proof.
  intros Hf Hu. unfold findOne. rewrite tests_store.
  apply findOne_user in Hf. rewrite bool_decide_eq_true_2 by congruence.
  reflexivity.
Qed.

(** X19.  [begin] starts the clock once.  When it succeeds the session
    was scheduled and is now in progress, started at the instant of the
    request with the whole duration remaining, its questions untouched;
    and a second [begin] by the candidate fails and changes nothing: it is
    refused with status 400 when the middleware lets it through. *)
Theorem begin_starts_clock (c : Ctx) (w : World) (id : string) :
  success (snd (handle c (Begin id) w)) = true ->
  exists t t',
    findOne w id (uid c) = Some t
    /\ Test.status t = Test.Scheduled
    /\ fst (handle c (Begin id) w) = store id t' w
    /\ Test.status t' = Test.InProgress
    /\ Test.startTime t' = now c
    /\ Test.timeRemaining t' = inject_Z (timeLimit t)
    /\ Test.questions t' = Test.questions t
    /\ Test.score t' = Test.score t
    /\ forall c2,
         uid c2 = uid c ->
         fst (handle c2 (Begin id) (store id t' w)) = store id t' w
         /\ success (snd (handle c2 (Begin id) (store id t' w))) = false
         /\ (allowed c2 (store id t' w) ->
             snd (handle c2 (Begin id) (store id t' w))
             = err 400 "Test cannot be started in current state").
Proof.
  intros Hok.
  assert (Hagain : forall t t',
            findOne w id (uid c) = Some t ->
            Test.user t' = Test.user t ->
            Test.status t' = Test.InProgress ->
            forall c2,
              uid c2 = uid c ->
              fst (handle c2 (Begin id) (store id t' w)) = store id t' w
              /\ success (snd (handle c2 (Begin id) (store id t' w))) = false
              /\ (allowed c2 (store id t' w) ->
                  snd (handle c2 (Begin id) (store id t' w))
                  = err 400 "Test cannot be started in current state")).
  { intros t t' Hf Hu Hs c2 Hc2. cbn [handle].
    assert (Hbegin : begin c2 id (store id t' w)
                     = (store id t' w,
                        err 400 "Test cannot be started in current state")).
    { unfold begin. rewrite Hc2, (findOne_store _ _ _ _ _ Hf Hu), Hs.
      rewrite bool_decide_eq_false_2 by discriminate. reflexivity. }
    destruct (protected_cases c2 (begin c2 id) (store id t' w))
      as [[Hgate ->] | (Hno & Hw & Hfail)].
    - rewrite Hbegin. split; [reflexivity |]. split; [reflexivity |].
      intros _. reflexivity.
    - split; [exact Hw |]. split; [exact Hfail |]. intros Hgate.
      contradiction. }
  cbn [handle] in Hok |- *.
  pose proof (success_allowed _ _ _ Hok) as [_ Heq].
  rewrite Heq in Hok |- *. clear Heq. revert Hok. unfold begin at 1 2.
  destruct (findOne w id (uid c)) as [t |] eqn:Hf; [| discriminate].
  case_bool_decide as Hst; cbn [negb]; [| discriminate].
  destruct (Test.startTest _ _ t) as [t' |] eqn:Hs; [| discriminate].
  intros _. exists t, t'. apply startTest_inv in Hs as (_ & _ & ->).
  split; [reflexivity |]. split; [exact Hst |]. split; [reflexivity |].
  split; [fields; reflexivity |]. split; [fields; reflexivity |].
  split; [fields; reflexivity |]. split; [fields; reflexivity |].
  split; [fields; reflexivity |].
  apply (Hagain t _ eq_refl); fields; reflexivity.
Qed.

(** The scheduled session of the candidate, begun at instant 6000. *)
Lemma begin_starts_clock_witness :
  exists t',
    tests (fst (handle (at_time 6000) (Begin "TEST000001002") world_scheduled))
      !! "TEST000001002"%string = Some t'
    /\ Test.status t' = Test.InProgress
    /\ Test.startTime t' = 6000.
Proof.
  assert (Hok : success (snd (handle (at_time 6000) (Begin "TEST000001002")
                                world_scheduled)) = true)
    by (vm_compute; reflexivity).
  destruct (begin_starts_clock _ _ _ Hok)
    as (t & t' & _ & _ & Hw & Hs & Hst & _).
  exists t'. rewrite Hw, tests_store. split; [reflexivity |].
  split; [exact Hs | exact Hst].
Defined.

Lemma remaining_bounds c t :
  (0 <= remaining c t)%Q
  /\ (Test.startTime t <= now c ->
      0 <= timeLimit t -> (remaining c t <= inject_Z (timeLimit t))%Q).
Proof.
  unfold remaining, timeElapsed.
  destruct (Qlt_le_dec _ 0) as [Hlt | Hle].
  - split; [apply Qle_refl |]. intros _ Hl.
    unfold Qle, inject_Z. cbn. lia.
  - split; [exact Hle |]. intros Hn _.
    unfold Qle, Qminus, Qplus, Qopp, Qdiv, Qmult, Qinv, inject_Z. cbn. lia.
Qed.

(** X20.  What an accepted answer leaves behind.  When [answer] succeeds,
    the request passed validation, the session was in progress and within
    its time, and the stored session is still in progress with one slot
    replaced: the first slot of the given number, now answered with the
    given answer and time (0 when none is given), the same question
    otherwise; the remaining time stored is the limit minus the elapsed
    time and is not negative, and not above the limit when the clock did
    not run backwards; nothing is scored yet. *)
Theorem answer_accepted (c : Ctx) (w : World) (id : string)
    (questionNumber : Z) (ans : string) (timeSpent : option Z) :
  success (snd (handle c (Answer id questionNumber ans timeSpent) w)) = true ->
  exists t t' i q q',
    valid_answer questionNumber ans timeSpent = true
    /\ findOne w id (uid c) = Some t
    /\ Test.status t = Test.InProgress
    /\ ~ expired c t
    /\ fst (handle c (Answer id questionNumber ans timeSpent) w) = store id t' w
    /\ Test.status t' = Test.InProgress
    /\ Test.score t' = Test.score t
    /\ Test.questions t !! i = Some q
    /\ Test.Slot.questionNumber q = questionNumber
    /\ Test.questions t' = <[i := q']> (Test.questions t)
    /\ frozen q' = frozen q
    /\ Test.Slot.answered q' = true
    /\ Test.Response.selectedAnswer (Test.Slot.userResponse q') = ans
    /\ Test.Response.timeSpent (Test.Slot.userResponse q') = default 0 timeSpent
    /\ Test.timeRemaining t' = remaining c t
    /\ (0 <= Test.timeRemaining t')%Q
    /\ (Test.startTime t <= now c -> 0 <= timeLimit t ->
        (Test.timeRemaining t' <= inject_Z (timeLimit t))%Q).
Proof.
  cbn [handle]. intros Hok. pose proof (success_allowed _ _ _ Hok) as [_ Heq].
  rewrite Heq in Hok |- *. clear Heq. revert Hok. unfold answer.
  destruct (valid_answer questionNumber ans timeSpent) eqn:Hv; cbn [negb];
    [| discriminate].
  destruct (findOne w id (uid c)) as [t |] eqn:Hf; [| discriminate].
  case_bool_decide as Hst; cbn [negb]; [| discriminate].
  destruct (Qlt_le_dec _ _) as [Hlate | Hin].
  { destruct (Test.completeTest _ _ t); discriminate. }
  destruct (Test.submitAnswer _ _ _ _ _ t) as [t1 |] eqn:Hs; [| discriminate].
  fold (timed_doc c t1).
  destruct (Test.save _ _ (timed_doc c t1)) as [t2 |] eqn:Hsv; [| discriminate].
  intros _. apply save_Some in Hsv as [-> _].
  apply submitAnswer_inv in Hs as (q & q' & Hq & Hr & _ & _ & ->).
  destruct (update_first_insert _ q' _ _ Hq) as (i & Hi & Hn & _ & Hup).
  destruct (record_answer_answered _ _ _ _ _ _ Hr)
    as (Hans & Hsel & Hts & _).
  eexists t, _, i, q, q'.
  split; [reflexivity |]. split; [reflexivity |]. split; [exact Hst |].
  split.
  { rewrite expired_elapsed. apply Qle_not_lt. exact Hin. }
  split; [cbn [fst]; apply store_store |].
  unfold timed_doc. fields.
  assert (Hrem : remaining c
            (Test.pre_save (now c) (r0 c)
               (Test.set_questions
                  (Test.update_first (Test.has_number questionNumber) q'
                     (Test.questions t)) t)) = remaining c t).
  { unfold remaining, timeElapsed, timeLimit. fields. reflexivity. }
  rewrite Hrem.
  split; [exact Hst |]. split; [reflexivity |]. split; [exact Hi |].
  split; [unfold Test.has_number in Hn; apply bool_decide_eq_true in Hn; exact Hn |].
  split; [exact Hup |].
  split; [eapply record_answer_frozen; exact Hr |].
  split; [exact Hans |]. split; [exact Hsel |]. split; [exact Hts |].
  split; [reflexivity |]. apply remaining_bounds.
Qed.

Lemma answer_accepted_witness :
  exists t',
    tests (fst (handle (at_time 2000) (Answer "TEST000001001" 1 "a" (Some 9))
                  world_in_progress)) !! "TEST000001001"%string = Some t'
    /\ Test.status t' = Test.InProgress
    /\ (0 <= Test.timeRemaining t')%Q.
Proof.
  assert (Hok : success (snd (handle (at_time 2000)
                                (Answer "TEST000001001" 1 "a" (Some 9))
                                world_in_progress)) = true)
    by (vm_compute; reflexivity).
  destruct (answer_accepted _ _ _ _ _ _ Hok)
    as (t & t' & i & q & q' & _ & _ & _ & _ & Hw & Hs & _ & _ & _ & _ & _
        & _ & _ & _ & _ & Hpos & _).
  exists t'. rewrite Hw, tests_store. split; [reflexivity |].
  split; [exact Hs | exact Hpos].
Defined.

Lemma remaining_pos c t : (0 < remaining c t)%Q <-> ~ time_over c t.
Proof.
  unfold remaining, timeElapsed, time_over.
  destruct (Qlt_le_dec _ 0) as [H | H]; revert H;
    unfold Qlt, Qle, Qminus, Qplus, Qopp, Qdiv, Qmult, Qinv, inject_Z;
    cbn; lia.
Qed.

(** X21.  The two clocks of a session in progress, for a candidate the
    middleware lets through and a session that can be saved once scored
    (it has an identifier, and its percentage is not [NaN]).  A status
    query closes the session exactly when the elapsed time has reached
    the limit; an answer that passes validation closes it exactly when
    the elapsed time is over the limit.  So at the very instant of the
    limit an answer is still taken while a status query evaluates the
    session. *)
Theorem status_and_answer_deadlines (c : Ctx) (w : World) (id : string)
    (t : Test.t) :
  allowed c w ->
  findOne w id (uid c) = Some t ->
  Test.status t = Test.InProgress ->
  Test.testId t <> EmptyString ->
  Test.Score.percentage
    (Test.compute_score (Test.Config.negativeMarking (Test.testConfig t))
       (Test.questions t)) <> JS.NaN ->
  (exists t',
      tests (fst (handle c (Status id) w)) !! id = Some t'
      /\ (Test.status t' = Test.Evaluated <-> time_over c t)
      /\ (Test.status t' = Test.InProgress <-> ~ time_over c t))
  /\ (forall questionNumber ans timeSpent,
        valid_answer questionNumber ans timeSpent = true ->
        exists t',
          tests (fst (handle c (Answer id questionNumber ans timeSpent) w)) !! id
          = Some t'
          /\ (Test.status t' = Test.Evaluated <-> expired c t)
          /\ (Test.status t' = Test.InProgress <-> ~ expired c t)).
Proof.
  intros Hgate Hf Hst Hid Hpct.
  pose proof (findOne_lookup _ _ _ _ Hf) as Hl. split.
  - cbn [handle]. rewrite protected_allowed by exact Hgate.
    unfold get_status. rewrite Hf.
    rewrite bool_decide_eq_true_2 by exact Hst. fields.
    destruct (Qlt_le_dec 0 (remaining c t)) as [Hpos | Hle].
    + exists t. split; [exact Hl |]. apply remaining_pos in Hpos.
      rewrite Hst. split; split; try tauto; discriminate.
    + assert (Hover : time_over c t).
      { destruct (decide (timeLimit t * 1000 <= now c - Test.startTime t))
          as [H | H]; [exact H |].
        apply remaining_pos in H. apply Qle_not_lt in Hle. contradiction. }
      destruct (completeTest_Some (now c) (r0 c)
                  (Test.set_timeRemaining (remaining c t) t) Hst Hid Hpct)
        as (t' & -> & Hs' & _).
      exists t'. cbn [fst]. rewrite tests_store. split; [reflexivity |].
      rewrite Hs'. split; split; try tauto; discriminate.
  - intros n a ts Hv. cbn [handle]. rewrite protected_allowed by exact Hgate.
    unfold answer. rewrite Hv, Hf.
    rewrite bool_decide_eq_true_2 by exact Hst. cbn [negb].
    destruct (Qlt_le_dec _ _) as [Hlate | Hin].
    + apply expired_elapsed in Hlate.
      destruct (completeTest_Some (now c) (r0 c) t Hst Hid Hpct)
        as (t' & -> & Hs' & _).
      exists t'. cbn [fst]. rewrite tests_store. split; [reflexivity |].
      rewrite Hs'. split; split; try tauto; discriminate.
    + assert (Hnot : ~ expired c t).
      { rewrite expired_elapsed. apply Qle_not_lt. exact Hin. }
      destruct (Test.submitAnswer _ _ _ _ _ t) as [t1 |] eqn:Hs.
      * pose proof (record_after _ _ _ _ _ _ _ Hs) as (Hs1 & _).
        fold (timed_doc c t1).
        destruct (Test.save _ _ (timed_doc c t1)) as [t2 |] eqn:Hsv.
        -- apply save_Some in Hsv as [-> _].
           eexists. cbn [fst]. rewrite tests_store. split; [reflexivity |].
           unfold timed_doc. fields. rewrite Hs1, Hst.
           split; split; try tauto; discriminate.
        -- exists t1. cbn [fst]. rewrite tests_store. split; [reflexivity |].
           rewrite Hs1, Hst. split; split; try tauto; discriminate.
      * exists t. split; [exact Hl |].
        rewrite Hst. split; split; try tauto; discriminate.
Qed.

Lemma status_and_answer_deadlines_witness :
  exists t1 t2,
    tests (fst (handle (at_time (1000 + 30 * 60 * 1000))
                  (Status "TEST000001001") world_in_progress))
      !! "TEST000001001"%string = Some t1
    /\ Test.status t1 = Test.Evaluated
    /\ tests (fst (handle (at_time (1000 + 30 * 60 * 1000))
                     (Answer "TEST000001001" 1 "a" None) world_in_progress))
         !! "TEST000001001"%string = Some t2
    /\ Test.status t2 = Test.InProgress.
Proof.
  destruct (status_and_answer_deadlines (at_time (1000 + 30 * 60 * 1000))
              world_in_progress "TEST000001001" ten_questions)
    as [(t1 & Hl1 & He1 & _) Hans].
  - exists candidate. split; vm_compute; reflexivity.
  - reflexivity.
  - reflexivity.
  - discriminate.
  - vm_compute. discriminate.
  - destruct (Hans 1 "a"%string None eq_refl) as (t2 & Hl2 & _ & Hi2).
    exists t1, t2. split; [exact Hl1 |].
    split; [apply He1; vm_compute; discriminate |].
    split; [exact Hl2 |]. apply Hi2. vm_compute. discriminate.
Defined.


(** *** Marks and flags *)

Lemma sumZ_marks (g : Test.Slot.t -> Z) qs qs' :
  Forall2 same_marks qs qs' ->
  (forall q q', same_marks q q' -> g q' = g q) ->
  sumZ g qs' = sumZ g qs.
Proof.
  intros H Hg. induction H as [|q q' l l' Hq _ IH]; [reflexivity |].
  rewrite !sumZ_cons, IH, (Hg q q' Hq). reflexivity.
Qed.

Lemma fmap_marks {B} (g : Test.Slot.t -> B) qs qs' :
  Forall2 same_marks qs qs' ->
  (forall q q', same_marks q q' -> g q' = g q) ->
  g <$> qs' = g <$> qs.
Proof.
  intros H Hg. induction H as [|q q' l l' Hq _ IH]; [reflexivity |].
  rewrite !fmap_cons, IH, (Hg q q' Hq). reflexivity.
Qed.

Lemma group_score_eq key_of qs k :
  Test.group_score key_of qs k
  = Test.Group.mk k
      (sumZ (fun q => if bool_decide (key_of q = k) then 1 else 0) qs)
      (sumZ (fun q => if bool_decide (key_of q = k)
                      then (if Test.Slot.correct q then 1 else 0) else 0) qs)
      (JS.round_percent
         (sumZ (fun q => if bool_decide (key_of q = k)
                         then (if Test.Slot.correct q then 1 else 0) else 0) qs)
         (sumZ (fun q => if bool_decide (key_of q = k) then 1 else 0) qs))
      (sumZ (fun q => if bool_decide (key_of q = k)
                      then Breakdown.charged q else 0) qs).
Proof.
  destruct (group_score_fields key_of qs k) as (_ & H1 & H2 & H3 & _).
  cbn zeta in *. rewrite <- H1, <- H2, <- H3. reflexivity.
Qed.

Lemma same_marks_correct q q' :
  same_marks q q' -> Test.Slot.correct q' = Test.Slot.correct q.
Proof. intros (_ & H & _). unfold Test.Slot.correct. rewrite H. reflexivity. Qed.

Lemma group_score_marks key_of qs qs' k :
  Forall2 same_marks qs qs' ->
  (forall q q', same_marks q q' -> key_of q' = key_of q) ->
  Test.group_score key_of qs' k = Test.group_score key_of qs k.
Proof.
  intros H Hk. rewrite !group_score_eq.
  rewrite (sumZ_marks (fun q => if bool_decide (key_of q = k) then 1 else 0)
             qs qs' H).
  2:{ intros q q' Hq. rewrite (Hk q q' Hq). reflexivity. }
  rewrite (sumZ_marks
             (fun q => if bool_decide (key_of q = k)
                       then (if Test.Slot.correct q then 1 else 0) else 0)
             qs qs' H).
  2:{ intros q q' Hq.
      rewrite (Hk q q' Hq), (same_marks_correct q q' Hq). reflexivity. }
  rewrite (sumZ_marks
             (fun q => if bool_decide (key_of q = k)
                       then Breakdown.charged q else 0) qs qs' H).
  2:{ intros q q' Hq. unfold Breakdown.charged.
      rewrite (Hk q q' Hq), (same_marks_correct q q' Hq).
      destruct Hq as (-> & _ & -> & -> & _). reflexivity. }
  reflexivity.
Qed.

Lemma compute_score_marks nm qs qs' :
  Forall2 same_marks qs qs' ->
  Test.compute_score nm qs' = Test.compute_score nm qs.
Proof.
  intros H. unfold Test.compute_score.
  assert (Ht : Test.tally_questions nm qs' = Test.tally_questions nm qs).
  { rewrite !tally_questions_eq, !sumZ_filter, !count_sumZ.
    assert (Hg : forall g, (forall q q', same_marks q q' -> g q' = g q) ->
                   sumZ g qs' = sumZ g qs)
      by (intros g; apply sumZ_marks; exact H).
    rewrite (Hg (fun x => if Test.Slot.answered x then 1 else 0)).
    2:{ intros q q' (-> & _). reflexivity. }
    rewrite (Hg (fun x => if answered_correct x then 1 else 0)).
    2:{ intros q q' Hq. unfold answered_correct.
        rewrite (same_marks_correct q q' Hq). destruct Hq as (-> & _).
        reflexivity. }
    rewrite (Hg (fun x => if answered_wrong x then 1 else 0)).
    2:{ intros q q' Hq. unfold answered_wrong.
        rewrite (same_marks_correct q q' Hq). destruct Hq as (-> & _).
        reflexivity. }
    rewrite (Hg (fun x => if unanswered x then 1 else 0)).
    2:{ intros q q' (Ha & _). unfold unanswered. rewrite Ha. reflexivity. }
    rewrite (Hg Test.Slot.points).
    2:{ intros q q' (_ & _ & -> & _). reflexivity. }
    rewrite (Hg (fun x => if answered_correct x then Test.Slot.points x else 0)).
    2:{ intros q q' Hq. unfold answered_correct.
        rewrite (same_marks_correct q q' Hq).
        destruct Hq as (-> & _ & -> & _). reflexivity. }
    destruct nm; [| reflexivity].
    rewrite (Hg (fun x => if answered_wrong x
                          then Test.Slot.negativePoints x else 0)).
    2:{ intros q q' Hq. unfold answered_wrong.
        rewrite (same_marks_correct q q' Hq).
        destruct Hq as (-> & _ & _ & -> & _). reflexivity. }
    reflexivity. }
  rewrite Ht, <- (Forall2_length _ _ _ H).
  rewrite (fmap_marks Test.Slot.category qs qs' H).
  2:{ intros q q' (_ & _ & _ & _ & -> & _). reflexivity. }
  rewrite (fmap_marks Test.Slot.difficulty qs qs' H).
  2:{ intros q q' (_ & _ & _ & _ & _ & ->). reflexivity. }
  f_equal.
  - apply list_fmap_ext. intros i k _. apply group_score_marks; [exact H |].
    intros q q' (_ & _ & _ & _ & -> & _). reflexivity.
  - apply list_fmap_ext. intros i k _. apply group_score_marks; [exact H |].
    intros q q' (_ & _ & _ & _ & _ & ->). reflexivity.
Qed.

Lemma same_marks_refl qs : Forall2 same_marks qs qs.
Proof.
  apply Forall_Forall2_diag, Forall_forall. intros q _.
  repeat split.
Qed.

(** X23.  A review flag changes no mark.  When [flag] succeeds the
    session was in progress and still is; its questions are the same but
    for the flag of the first slot of the given number; whatever the
    negative-marking setting, [calculateScore] computes from the new
    questions what it computed from the old ones; the score block, the
    violation counters and the clock are as before; and one entry is
    added at the end of the attempt pattern. *)
Theorem flag_changes_no_mark (c : Ctx) (w : World) (id : string)
    (questionNumber : Z) (flagged : bool) :
  success (snd (handle c (Flag id questionNumber flagged) w)) = true ->
  exists t t' i q,
    findOne w id (uid c) = Some t
    /\ Test.status t = Test.InProgress
    /\ fst (handle c (Flag id questionNumber flagged) w) = store id t' w
    /\ Test.status t' = Test.InProgress
    /\ Test.questions t !! i = Some q
    /\ Test.Slot.questionNumber q = questionNumber
    /\ Test.questions t' = <[i := Test.Slot.set_flag flagged q]> (Test.questions t)
    /\ Test.Response.flaggedForReview
         (Test.Slot.userResponse (Test.Slot.set_flag flagged q)) = flagged
    /\ (forall nm,
          Test.compute_score nm (Test.questions t')
          = Test.compute_score nm (Test.questions t))
    /\ Test.score t' = Test.score t
    /\ Test.proctoring t' = Test.proctoring t
    /\ Test.startTime t' = Test.startTime t
    /\ Test.timeRemaining t' = Test.timeRemaining t
    /\ Test.Analytics.attemptPattern (Test.analytics t')
       = Test.Analytics.attemptPattern (Test.analytics t)
         ++ [(now c, if flagged then "flagged"%string else "unflagged"%string,
              questionNumber)].
Proof.
  cbn [handle]. intros Hok. pose proof (success_allowed _ _ _ Hok) as [_ Heq].
  rewrite Heq in Hok |- *. clear Heq. revert Hok. unfold flag.
  destruct (1 <=? questionNumber); cbn [negb]; [| discriminate].
  destruct (findOne w id (uid c)) as [t |] eqn:Hf; [| discriminate].
  case_bool_decide as Hst; cbn [negb]; [| discriminate].
  destruct (List.find _ _) as [q |] eqn:Hq; [| discriminate].
  fold (flagged_doc c questionNumber flagged q t).
  destruct (Test.save _ _ (flagged_doc c questionNumber flagged q t))
    as [t' |] eqn:Hsv; [| discriminate].
  intros _. apply save_Some in Hsv as [-> _]. unfold flagged_doc.
  destruct (update_first_insert _ (Test.Slot.set_flag flagged q) _ _ Hq)
    as (i & Hi & Hn & _ & Hup).
  eexists t, _, i, q.
  split; [reflexivity |]. split; [exact Hst |]. split; [reflexivity |].
  fields. rewrite Hup.
  split; [exact Hst |]. split; [exact Hi |].
  split; [unfold Test.has_number in Hn; apply bool_decide_eq_true in Hn; exact Hn |].
  split; [reflexivity |]. split; [reflexivity |].
  split.
  { intros nm. apply compute_score_marks.
    rewrite <- (list_insert_id (Test.questions t) i q Hi) at 1.
    apply Forall2_insert; [apply same_marks_refl | repeat split]. }
  repeat split.
Qed.

Lemma flag_changes_no_mark_witness :
  exists t',
    tests (fst (handle (at_time 2000) (Flag "TEST000001001" 2 true)
                  world_in_progress)) !! "TEST000001001"%string = Some t'
    /\ Test.compute_score true (Test.questions t')
       = Test.compute_score true (Test.questions ten_questions).
Proof.
  assert (Hok : success (snd (handle (at_time 2000)
                                (Flag "TEST000001001" 2 true)
                                world_in_progress)) = true)
    by (vm_compute; reflexivity).
  destruct (flag_changes_no_mark _ _ _ _ _ Hok)
    as (t & t' & i & q & Hf & _ & Hw & _ & _ & _ & _ & _ & Hsc & _).
  assert (Ht : t = ten_questions).
  { apply findOne_lookup in Hf. vm_compute in Hf. apply Some_eq in Hf.
    rewrite <- Hf. vm_compute. reflexivity. }
  exists t'. rewrite Hw, tests_store. split; [reflexivity |].
  rewrite Hsc, Ht. reflexivity.
Defined.

(** *** The attempt records *)










End SessionSteps.
